(** * AOUBot backend: a model of [backend/app.py] and [backend/database.py]

    The development embeds the Flask handlers and the SQLite helper
    functions of the chatbot backend and proves the properties the
    specification states about them.

    Conventions.
    - A Python [str] is represented by its UTF-8 encoding, held in a Rocq
      [string] (one [ascii] per byte).  Lone surrogates, which have no UTF-8
      encoding, are outside the model.
    - A Python [int] is a [Z]; [None] where the code accepts it is the
      [None] of an [option].
    - The SQLite file is a record of three tables, each a list of rows in
      rowid order.  Timestamps ([CURRENT_TIMESTAMP], compared as fixed-width
      text by SQLite) are numbers of seconds, compared numerically.
    - Everything the code cannot control (the clock, storage failures,
      [uuid4], the completion provider, the knowledge file) is an oracle of
      the environment [Env]. *)

From Stdlib Require Import ZArith NArith List String Ascii Bool Lia.
From Stdlib Require Import Permutation Sorted.
Import ListNotations.
Local Open Scope string_scope.
Set Warnings "-register-all".

(** ** Python strings *)

Module Str.

Definition bytes (s : string) : list N := map N_of_ascii (list_ascii_of_string s).

Definition of_bytes (l : list N) : string := string_of_list_ascii (map ascii_of_N l).

(** [str.isspace] on a code point below U+0080: TAB..CR, FS..US and SPACE. *)
Definition space1 (a : N) : bool :=
  ((9 <=? a) && (a <=? 13) || (28 <=? a) && (a <=? 32))%N.

(** The two-byte encodings of U+0085 and U+00A0. *)
Definition space2 (a b : N) : bool :=
  ((a =? 0xC2) && ((b =? 0x85) || (b =? 0xA0)))%N.

(** The three-byte encodings of U+1680, U+2000..U+200A, U+2028, U+2029,
    U+202F, U+205F and U+3000. *)
Definition space3 (a b c : N) : bool :=
  ((a =? 0xE1) && (b =? 0x9A) && (c =? 0x80)
   || (a =? 0xE2) && (b =? 0x80)
      && ((0x80 <=? c) && (c <=? 0x8A) || (c =? 0xA8) || (c =? 0xA9) || (c =? 0xAF))
   || (a =? 0xE2) && (b =? 0x81) && (c =? 0x9F)
   || (a =? 0xE3) && (b =? 0x80) && (c =? 0x80))%N.

(** Drops the white space a byte sequence starts with.  With [back = true]
    the sequence is read from its end (it is given reversed), so the bytes
    of a multi-byte character arrive last byte first. *)
Fixpoint drop_space (back : bool) (l : list N) : list N :=
  match l with
  | [] => []
  | a :: t =>
      if space1 a then drop_space back t else
      match t with
      | [] => l
      | b :: t1 =>
          if (if back then space2 b a else space2 a b) then drop_space back t1 else
          match t1 with
          | [] => l
          | c :: t2 =>
              if (if back then space3 c b a else space3 a b c)
              then drop_space back t2 else l
          end
      end
  end.

(** The sequences [drop_space] leaves alone: those that do not start with
    white space. *)
Definition starts_clean (back : bool) (l : list N) : Prop :=
  match l with
  | [] => True
  | a :: t =>
      space1 a = false
      /\ match t with
         | [] => True
         | b :: t1 =>
             (if back then space2 b a else space2 a b) = false
             /\ match t1 with
                | [] => True
                | c :: _ => (if back then space3 c b a else space3 a b c) = false
                end
         end
  end.

(** [s.strip()] *)
Definition strip (s : string) : string :=
  of_bytes (rev (drop_space true (rev (drop_space false (bytes s))))).

(** Truth value of a [str]: the empty string is false. *)
Definition truthy (s : string) : bool := negb (s =? "").

End Str.


(** ** SHA-256 (FIPS 180-4), as computed by [hashlib.sha256] *)

Module SHA256.
Local Open Scope N_scope.

Definition word (x : N) : N := N.land x 0xFFFFFFFF.
Definition add (x y : N) : N := word (x + y).
Definition rotr (n x : N) : N := N.lor (N.shiftr x n) (word (N.shiftl x (32 - n))).
Definition xor3 (x y z : N) : N := N.lxor (N.lxor x y) z.

Definition ch (x y z : N) : N := N.lxor (N.land x y) (N.land (N.lxor x 0xFFFFFFFF) z).
Definition maj (x y z : N) : N := xor3 (N.land x y) (N.land x z) (N.land y z).
Definition big_sigma0 (x : N) : N := xor3 (rotr 2 x) (rotr 13 x) (rotr 22 x).
Definition big_sigma1 (x : N) : N := xor3 (rotr 6 x) (rotr 11 x) (rotr 25 x).
Definition small_sigma0 (x : N) : N := xor3 (rotr 7 x) (rotr 18 x) (N.shiftr x 3).
Definition small_sigma1 (x : N) : N := xor3 (rotr 17 x) (rotr 19 x) (N.shiftr x 10).

(** The constants are the fractional parts of the square roots (initial
    hash value) and cube roots (round constants) of the first primes. *)
Definition is_prime (n : nat) : bool :=
  forallb (fun d => negb (Nat.eqb (Nat.modulo n d) 0)) (seq 2 (n - 2)).

Definition primes : list N :=
  Eval vm_compute in map N.of_nat (filter is_prime (seq 2 310)).

(** The largest [r] below [2 ^ k] (above [acc]) with [ok r], for a
    downward closed [ok]. *)
Fixpoint largest (k : nat) (ok : N -> bool) (acc : N) : N :=
  match k with
  | O => acc
  | S k' =>
      let c := N.lor acc (N.shiftl 1 (N.of_nat k')) in
      largest k' ok (if ok c then c else acc)
  end.

Definition cube_root (n : N) : N := largest 40 (fun r => r * r * r <=? n) 0.

Definition round_constants : list N :=
  Eval vm_compute in map (fun p => word (cube_root (p * 2 ^ 96))) primes.

Definition initial_hash : list N :=
  Eval vm_compute in map (fun p => word (N.sqrt (p * 2 ^ 64))) (firstn 8 primes).

(** Padding: a [1] bit, zeros up to 56 modulo 64, the bit length on 8 bytes. *)
Definition be_bytes (k : nat) (x : N) : list N :=
  map (fun i => N.land (N.shiftr x (8 * N.of_nat i)) 0xFF) (rev (seq 0 k)).

Definition pad (msg : list N) : list N :=
  let len := N.of_nat (List.length msg) in
  let zeros := N.to_nat ((119 - len mod 64) mod 64) in
  msg ++ [0x80] ++ repeat 0 zeros ++ be_bytes 8 (8 * len).

Fixpoint be_words (n : nat) (l : list N) : list N :=
  match n, l with
  | S n', a :: b :: c :: d :: t =>
      (N.shiftl a 24 + N.shiftl b 16 + N.shiftl c 8 + d) :: be_words n' t
  | _, _ => []
  end.

(** The message schedule, most recent word first. *)
Fixpoint schedule (n : nat) (w : list N) : list N :=
  match n with
  | O => w
  | S n' =>
      let x := add (add (small_sigma1 (nth 1 w 0)) (nth 6 w 0))
                   (add (small_sigma0 (nth 14 w 0)) (nth 15 w 0)) in
      schedule n' (x :: w)
  end.

Record regs := Regs { ra : N; rb : N; rc : N; rd : N; re : N; rf : N; rg : N; rh : N }.

Definition round (s : regs) (kw : N * N) : regs :=
  let t1 := add (add (add (rh s) (big_sigma1 (re s))) (ch (re s) (rf s) (rg s)))
                (add (fst kw) (snd kw)) in
  let t2 := add (big_sigma0 (ra s)) (maj (ra s) (rb s) (rc s)) in
  Regs (add t1 t2) (ra s) (rb s) (rc s) (add (rd s) t1) (re s) (rf s) (rg s).

Definition compress (h : regs) (block : list N) : regs :=
  let w := rev (schedule 48 (rev (be_words 16 block))) in
  let s := fold_left round (combine round_constants w) h in
  Regs (add (ra h) (ra s)) (add (rb h) (rb s)) (add (rc h) (rc s)) (add (rd h) (rd s))
       (add (re h) (re s)) (add (rf h) (rf s)) (add (rg h) (rg s)) (add (rh h) (rh s)).

Fixpoint blocks (n : nat) (h : regs) (l : list N) : regs :=
  match n with
  | O => h
  | S n' => blocks n' (compress h (firstn 64 l)) (skipn 64 l)
  end.

Definition start : regs :=
  let i k := nth k initial_hash 0 in
  Regs (i 0%nat) (i 1%nat) (i 2%nat) (i 3%nat) (i 4%nat) (i 5%nat) (i 6%nat) (i 7%nat).

Definition digest (msg : list N) : regs :=
  let p := pad msg in blocks (List.length p / 64) start p.

Definition hex_digit (x : N) : ascii :=
  ascii_of_N (if x <? 10 then 48 + x else 87 + x).

Definition nibble (k x : N) : ascii := hex_digit (N.land (N.shiftr x (4 * k)) 0xF).

Definition hex_word (x : N) (rest : string) : string :=
  String (nibble 7 x) (String (nibble 6 x) (String (nibble 5 x) (String (nibble 4 x)
  (String (nibble 3 x) (String (nibble 2 x) (String (nibble 1 x) (String (nibble 0 x)
  rest))))))).

(** [.hexdigest()] *)
Definition hexdigest (h : regs) : string :=
  hex_word (ra h) (hex_word (rb h) (hex_word (rc h) (hex_word (rd h)
  (hex_word (re h) (hex_word (rf h) (hex_word (rg h) (hex_word (rh h) ""))))))).

End SHA256.

(** [hash_password] of app.py: [hashlib.sha256(password.encode("utf-8")).hexdigest()] *)
Definition hash_password (password : string) : string :=
  SHA256.hexdigest (SHA256.digest (Str.bytes password)).

(** ** Python values, exceptions and results *)

(** The values a JSON body is parsed into.  Numbers with a fractional part
    are left out: no handler reads a number. *)
Inductive json : Type :=
| JNull
| JBool (b : bool)
| JNum (n : Z)
| JStr (s : string)
| JArr (l : list json)
| JObj (l : list (string * json)).

Inductive exn_class : Type :=
| AttributeError | TypeError | KeyError
| IntegrityError | OperationalError
| ProviderError | BadRequest.

(** An exception: its class and [str(e)]. *)
Record exn : Type := Exn { class_of : exn_class; text_of : string }.

Inductive result (A : Type) : Type :=
| Ok (a : A)
| Raise (e : exn).
Arguments Ok {A} a.
Arguments Raise {A} e.

(** Truth value of a Python object, as [not x], [x or y] and [if x] use it. *)
Definition truthy (v : json) : bool :=
  match v with
  | JNull => false
  | JBool b => b
  | JNum n => negb (n =? 0)%Z
  | JStr s => Str.truthy s
  | JArr l => negb (Nat.eqb (List.length l) 0)
  | JObj l => negb (Nat.eqb (List.length l) 0)
  end.

(** [x or y] *)
Definition py_or (x y : json) : json := if truthy x then x else y.

Fixpoint lookup (k : string) (l : list (string * json)) : option json :=
  match l with
  | [] => None
  | (k', v) :: t => if k =? k' then Some v else lookup k t
  end.

(** [d.get(k, default)]; only a dict has the method. *)
Definition dict_get (d : json) (k : string) (default : json) : result json :=
  match d with
  | JObj l => Ok (match lookup k l with Some v => v | None => default end)
  | _ => Raise (Exn AttributeError "object has no attribute 'get'")
  end.

(** [v[k]] for a string key. *)
Definition getitem (v : json) (k : string) : result json :=
  match v with
  | JObj l =>
      match lookup k l with
      | Some x => Ok x
      | None => Raise (Exn KeyError k)
      end
  | _ => Raise (Exn TypeError "object is not subscriptable by a string")
  end.

(** [v.strip()]; only a str has the method. *)
Definition py_strip (v : json) : result string :=
  match v with
  | JStr s => Ok (Str.strip s)
  | _ => Raise (Exn AttributeError "object has no attribute 'strip'")
  end.

(** The elements [for msg in v] visits.  A str yields its characters (here
    one per byte; the loop body raises on the first of them whatever it
    is), a dict its keys. *)
Definition iterate (v : json) : result (list json) :=
  match v with
  | JArr l => Ok l
  | JStr s => Ok (map (fun c => JStr (String c "")) (list_ascii_of_string s))
  | JObj l => Ok (map (fun kv => JStr (fst kv)) l)
  | _ => Raise (Exn TypeError "object is not iterable")
  end.

(** An argument that is [None], [0] or the empty string fails the
    [if not x] guards; [present_*] keeps the others. *)
Definition present_int (x : option Z) : option Z :=
  match x with
  | Some n => if (n =? 0)%Z then None else Some n
  | None => None
  end.

(** Also [x or None] for a string [x]. *)
Definition present_str (x : option string) : option string :=
  match x with
  | Some s => if s =? "" then None else Some s
  | None => None
  end.

(** ** The SQLite file: tables of users.db, as [init_db] creates them *)

Record User : Type := mkUser {
  u_id : Z;
  u_username : string;
  u_email : string;
  u_password : string }.

Record Chat : Type := mkChat {
  c_id : Z;
  c_user_id : Z;
  c_session_id : string;
  c_role : string;
  c_message : string;
  c_created_at : Z }.

Record ChatSession : Type := mkChatSession {
  s_id : Z;
  s_user_id : Z;
  s_session_id : string;
  s_title : option string;
  s_created_at : Z }.

(** The three tables, rows in rowid order, and for each the largest rowid
    handed out so far (AUTOINCREMENT keeps it in sqlite_sequence). *)
Record Database : Type := mkDatabase {
  users : list User;
  chats : list Chat;
  chat_sessions : list ChatSession;
  users_seq : Z;
  chats_seq : Z;
  chat_sessions_seq : Z }.

Definition empty_db : Database := mkDatabase [] [] [] 0 0 0.

(** [WHERE user_id = ? AND session_id = ?] on either table. *)
Definition chat_in (user_id : Z) (session_id : string) (c : Chat) : bool :=
  (c_user_id c =? user_id)%Z && (c_session_id c =? session_id).

Definition session_is (user_id : Z) (session_id : string) (cs : ChatSession) : bool :=
  (s_user_id cs =? user_id)%Z && (s_session_id cs =? session_id).

(** *** The statements the code executes

    A statement takes the value of CURRENT_TIMESTAMP and the database the
    connection sees; it returns the database it leaves and what the cursor
    then holds, or raises. *)

Definition statement (A : Type) : Type := Z -> Database -> result (Database * A).

(** CREATE TABLE IF NOT EXISTS ...: the tables of the model always exist. *)
Definition create_tables : statement unit := fun _ d => Ok (d, tt).

(** SELECT id FROM users WHERE email = ?, then [fetchone()] *)
Definition select_user_id (email : string) : statement (option Z) := fun _ d =>
  Ok (d, match filter (fun u => u_email u =? email) (users d) with
         | u :: _ => Some (u_id u)
         | [] => None
         end).

(** INSERT INTO chats (user_id, session_id, role, message) VALUES (?, ?, ?, ?) *)
Definition add_chat (now user_id : Z) (session_id role message : string) (d : Database)
    : Database :=
  let id := (chats_seq d + 1)%Z in
  mkDatabase (users d)
    (chats d ++ [mkChat id user_id session_id role message now])
    (chat_sessions d) (users_seq d) id (chat_sessions_seq d).

Definition insert_chat (user_id : Z) (session_id role message : string) : statement unit :=
  fun now d => Ok (add_chat now user_id session_id role message d, tt).

(** INSERT OR IGNORE INTO chat_sessions (user_id, session_id, title) VALUES (?, ?, ?):
    the row is dropped when UNIQUE (user_id, session_id) would be violated.
    AUTOINCREMENT draws the rowid before the constraint is checked: the
    sequence moves on even when the row is dropped. *)
Definition add_session (now user_id : Z) (session_id : string) (title : option string)
    (d : Database) : Database :=
  let id := (chat_sessions_seq d + 1)%Z in
  if existsb (session_is user_id session_id) (chat_sessions d)
  then mkDatabase (users d) (chats d) (chat_sessions d) (users_seq d) (chats_seq d) id
  else
    mkDatabase (users d) (chats d)
      (chat_sessions d ++ [mkChatSession id user_id session_id title now])
      (users_seq d) (chats_seq d) id.

Definition insert_or_ignore_session (user_id : Z) (session_id : string)
    (title : option string) : statement unit :=
  fun now d => Ok (add_session now user_id session_id title d, tt).

(** UPDATE chat_sessions SET title = ? WHERE user_id = ? AND session_id = ? *)
Definition retitle (title : option string) (user_id : Z) (session_id : string)
    (cs : ChatSession) : ChatSession :=
  if session_is user_id session_id cs
  then mkChatSession (s_id cs) (s_user_id cs) (s_session_id cs) title (s_created_at cs)
  else cs.

Definition set_title (title : option string) (user_id : Z) (session_id : string)
    (d : Database) : Database :=
  mkDatabase (users d) (chats d)
    (map (retitle title user_id session_id) (chat_sessions d))
    (users_seq d) (chats_seq d) (chat_sessions_seq d).

Definition update_title (title : option string) (user_id : Z) (session_id : string)
    : statement unit :=
  fun _ d => Ok (set_title title user_id session_id d, tt).

(** DELETE FROM chats WHERE user_id = ? AND session_id = ?; the cursor
    holds [rowcount], the number of rows deleted. *)
Definition remove_chats (user_id : Z) (session_id : string) (d : Database) : Database :=
  mkDatabase (users d)
    (filter (fun c => negb (chat_in user_id session_id c)) (chats d))
    (chat_sessions d) (users_seq d) (chats_seq d) (chat_sessions_seq d).

Definition delete_chats (user_id : Z) (session_id : string) : statement nat :=
  fun _ d =>
    Ok (remove_chats user_id session_id d,
        List.length (filter (chat_in user_id session_id) (chats d))).

(** DELETE FROM chat_sessions WHERE user_id = ? AND session_id = ? *)
Definition remove_chat_session (user_id : Z) (session_id : string) (d : Database)
    : Database :=
  mkDatabase (users d) (chats d)
    (filter (fun cs => negb (session_is user_id session_id cs)) (chat_sessions d))
    (users_seq d) (chats_seq d) (chat_sessions_seq d).

Definition delete_chat_session (user_id : Z) (session_id : string) : statement unit :=
  fun _ d => Ok (remove_chat_session user_id session_id d, tt).

(** ORDER BY: a stable insertion sort; [before x y] says that [x] may
    come before [y]. *)
Fixpoint insert_by {A : Type} (before : A -> A -> bool) (x : A) (l : list A) : list A :=
  match l with
  | [] => [x]
  | y :: t => if before x y then x :: l else y :: insert_by before x t
  end.

Definition order_by {A : Type} (before : A -> A -> bool) (l : list A) : list A :=
  fold_right (insert_by before) [] l.

(** SELECT role, message FROM chats WHERE user_id = ? AND session_id = ?
    ORDER BY id, then [fetchall()] *)
Definition history_rows (user_id : Z) (session_id : string) (d : Database)
    : list (string * string) :=
  map (fun c => (c_role c, c_message c))
    (order_by (fun a b => (c_id a <=? c_id b)%Z)
       (filter (chat_in user_id session_id) (chats d))).

Definition select_history (user_id : Z) (session_id : string)
    : statement (list (string * string)) :=
  fun _ d => Ok (d, history_rows user_id session_id d).

(** One entry of the list [get_sessions] returns. *)
Record SessionInfo : Type := mkSessionInfo {
  si_session_id : string;
  si_title : option string;
  si_messages_count : nat;
  si_last_activity : Z }.

(** FROM chat_sessions cs LEFT JOIN chats c
    ON c.user_id = cs.user_id AND c.session_id = cs.session_id:
    a session without messages keeps one row, with NULLs for [c]. *)
Definition join_row (d : Database) (cs : ChatSession) : list (ChatSession * option Chat) :=
  match filter (chat_in (s_user_id cs) (s_session_id cs)) (chats d) with
  | [] => [(cs, None)]
  | ms => map (fun c => (cs, Some c)) ms
  end.

Definition left_join (d : Database) : list (ChatSession * option Chat) :=
  flat_map (join_row d) (chat_sessions d).

(** GROUP BY cs.session_id, cs.title, cs.created_at *)
Definition group_key : Type := string * option string * Z.

Definition group_of (cs : ChatSession) : group_key :=
  (s_session_id cs, s_title cs, s_created_at cs).

Definition key_of (r : ChatSession * option Chat) : group_key := group_of (fst r).

Definition title_eqb (a b : option string) : bool :=
  match a, b with
  | Some x, Some y => x =? y
  | None, None => true
  | _, _ => false
  end.

Definition key_eqb (a b : group_key) : bool :=
  (fst (fst a) =? fst (fst b)) && title_eqb (snd (fst a)) (snd (fst b))
  && (snd a =? snd b)%Z.

Fixpoint distinct (l : list group_key) : list group_key :=
  match l with
  | [] => []
  | k :: t => k :: filter (fun k' => negb (key_eqb k k')) (distinct t)
  end.

(** COUNT(c.id): the rows of the group whose [c] side is not NULL. *)
Definition count_id (g : list (ChatSession * option Chat)) : nat :=
  List.length (filter (fun r => match snd r with Some _ => true | None => false end) g).

(** MAX(c.created_at): NULL when no row of the group has a [c] side. *)
Definition max_step (acc : option Z) (r : ChatSession * option Chat) : option Z :=
  match snd r, acc with
  | Some c, Some m => Some (Z.max m (c_created_at c))
  | Some c, None => Some (c_created_at c)
  | None, _ => acc
  end.

Definition max_created_at (g : list (ChatSession * option Chat)) : option Z :=
  fold_left max_step g None.

(** One result row per group; COALESCE(MAX(c.created_at), cs.created_at). *)
Definition aggregate (rows : list (ChatSession * option Chat)) (k : group_key)
    : SessionInfo :=
  let g := filter (fun r => key_eqb k (key_of r)) rows in
  mkSessionInfo (fst (fst k)) (snd (fst k)) (count_id g)
    (match max_created_at g with Some m => m | None => snd k end).

(** GROUP BY hands the groups on in the order of their keys, whether
    SQLite walks the index of UNIQUE (user_id, session_id) or sorts by the
    key: session_id byte by byte (BINARY collation), then title, NULL
    first, then created_at. *)
Definition title_leb (a b : option string) : bool :=
  match a, b with
  | None, _ => true
  | Some _, None => false
  | Some x, Some y => String.leb x y
  end.

Definition key_leb (a b : group_key) : bool :=
  if fst (fst a) =? fst (fst b)
  then if title_eqb (snd (fst a)) (snd (fst b))
       then (snd a <=? snd b)%Z
       else title_leb (snd (fst a)) (snd (fst b))
  else String.leb (fst (fst a)) (fst (fst b)).

(** The SELECT of [get_sessions], then [fetchall()].  ORDER BY keeps rows
    with equal [last_activity] in the order the groups come in. *)
Definition session_rows (user_id : Z) (d : Database) : list SessionInfo :=
  let rows := filter (fun r => (s_user_id (fst r) =? user_id)%Z) (left_join d) in
  order_by (fun a b => (si_last_activity b <=? si_last_activity a)%Z)
    (map (aggregate rows) (order_by key_leb (distinct (map key_of rows)))).

Definition select_sessions (user_id : Z) : statement (list SessionInfo) :=
  fun _ d => Ok (d, session_rows user_id d).

(** INSERT INTO users (username, email, password) VALUES (?, ?, ?);
    username and email are UNIQUE. *)
Definition taken (username email : string) (d : Database) : bool :=
  existsb (fun u => (u_username u =? username) || (u_email u =? email)) (users d).

Definition add_user (username email password : string) (d : Database) : Database :=
  let id := (users_seq d + 1)%Z in
  mkDatabase (users d ++ [mkUser id username email password])
    (chats d) (chat_sessions d) id (chats_seq d) (chat_sessions_seq d).

Definition insert_user (username email password : string) : statement unit :=
  fun _ d =>
    if taken username email d
    then Raise (Exn IntegrityError "UNIQUE constraint failed")
    else Ok (add_user username email password d, tt).

(** SELECT id FROM users WHERE email = ? AND password = ?, then [fetchone()] *)
Definition credentials (email password : string) (u : User) : bool :=
  (u_email u =? email) && (u_password u =? password).

Definition select_login (email password : string) : statement (option Z) :=
  fun _ d =>
    Ok (d, match filter (credentials email password) (users d) with
           | u :: _ => Some (u_id u)
           | [] => None
           end).

(** ** The environment and the state of the process *)

(** What the code reads from outside: the clock seen by the n-th storage
    call, whether that call raises, the value of the n-th [uuid4()], the
    completion provider (the stripped-down view of
    [openai.ChatCompletion.create(...).choices[0].message.content]) and the
    text of ../data/knowledge.txt when it can be read. *)
Record Env : Type := mkEnv {
  clock : nat -> Z;
  fault : nat -> option exn;
  uuid4 : nat -> string;
  completion : list (string * json) -> result string;
  knowledge_file : option string }.

(** The committed database, the connections opened and not closed, and
    how many storage calls and [uuid4()] calls were made. *)
Record World : Type := mkWorld {
  disk : Database;
  open_connections : nat;
  calls : nat;
  uuids : nat }.

(** A computation may change the world and may raise. *)
Definition M (A : Type) : Type := World -> result A * World.

Definition ret {A : Type} (a : A) : M A := fun w => (Ok a, w).

Definition bind {A B : Type} (m : M A) (f : A -> M B) : M B :=
  fun w => match m w with
           | (Ok a, w') => f a w'
           | (Raise e, w') => (Raise e, w')
           end.

Definition raise {A : Type} (e : exn) : M A := fun w => (Raise e, w).

Definition lift {A : Type} (r : result A) : M A := fun w => (r, w).

(** [try: m except Exception as e: handler e] *)
Definition try_except {A : Type} (m : M A) (handler : exn -> M A) : M A :=
  fun w => match m w with
           | (Ok a, w') => (Ok a, w')
           | (Raise e, w') => handler e w'
           end.

Declare Scope py_scope.
Delimit Scope py_scope with py.
Notation "x <- m ;; k" := (bind m (fun x => k))
  (at level 61, m at next level, right associativity) : py_scope.
Notation "m ;; k" := (bind m (fun _ => k))
  (at level 61, right associativity) : py_scope.
Local Open Scope py_scope.
Notation "' pat <- m ;; k" := (bind m (fun x => match x with pat => k end))
  (at level 61, pat pattern, m at next level, right associativity) : py_scope.

Arguments hash_password : simpl never.
Arguments Str.strip : simpl never.

Section Program.

Variable E : Env.

(** *** sqlite3 connections

    A connection is the database as the connection sees it, its own
    uncommitted changes included.  [connect], [execute] and [commit] are
    storage calls: each may raise, as the environment decides. *)

Definition Connection : Type := Database.

Definition storage_call (w : World) : World :=
  mkWorld (disk w) (open_connections w) (S (calls w)) (uuids w).

(** [sqlite3.connect(DB_PATH)] *)
Definition connect : M Connection := fun w =>
  match fault E (calls w) with
  | Some e => (Raise e, storage_call w)
  | None =>
      (Ok (disk w), mkWorld (disk w) (S (open_connections w)) (S (calls w)) (uuids w))
  end.

(** [cursor.execute(...)]: the statement runs inside the connection's
    transaction; nothing reaches the file before [commit]. *)
Definition execute {A : Type} (conn : Connection) (stmt : statement A)
    : M (Connection * A) := fun w =>
  match fault E (calls w) with
  | Some e => (Raise e, storage_call w)
  | None => (stmt (clock E (calls w)) conn, storage_call w)
  end.

(** [conn.commit()] *)
Definition commit (conn : Connection) : M unit := fun w =>
  match fault E (calls w) with
  | Some e => (Raise e, storage_call w)
  | None => (Ok tt, mkWorld conn (open_connections w) (S (calls w)) (uuids w))
  end.

(** [conn.close()]: changes not committed are dropped with [conn]. *)
Definition close (conn : Connection) : M unit := fun w =>
  (Ok tt, mkWorld (disk w) (pred (open_connections w)) (calls w) (uuids w)).

(** *** database.py *)

Definition init_db : M unit :=
  conn <- connect ;;
  '(conn, _) <- execute conn create_tables ;;
  '(conn, _) <- execute conn create_tables ;;
  '(conn, _) <- execute conn create_tables ;;
  commit conn ;;
  close conn.

Definition get_user_id (email : string) : M (option Z) :=
  if negb (Str.truthy email) then ret None else
  conn <- connect ;;
  '(conn, row) <- execute conn (select_user_id email) ;;
  close conn ;;
  ret row.

Definition save_message (user_id : option Z) (session_id : option string)
    (role : string) (message : option string) : M unit :=
  match present_int user_id, present_str session_id, present_str message with
  | Some u, Some s, Some m =>
      conn <- connect ;;
      '(conn, _) <- execute conn (insert_chat u s role m) ;;
      '(conn, _) <- execute conn (insert_or_ignore_session u s None) ;;
      commit conn ;;
      close conn
  | _, _, _ => ret tt
  end.

(** The result stands for the list of [{"role": r[0], "text": r[1]}]. *)
Definition get_chat_history (user_id : option Z) (session_id : option string)
    : M (list (string * string)) :=
  match present_int user_id, present_str session_id with
  | Some u, Some s =>
      conn <- connect ;;
      '(conn, rows) <- execute conn (select_history u s) ;;
      close conn ;;
      ret rows
  | _, _ => ret []
  end.

Definition get_sessions (user_id : option Z) : M (list SessionInfo) :=
  match present_int user_id with
  | Some u =>
      conn <- connect ;;
      '(conn, rows) <- execute conn (select_sessions u) ;;
      close conn ;;
      ret rows
  | None => ret []
  end.

Definition upsert_session_title (user_id : option Z) (session_id title : option string)
    : M bool :=
  match present_int user_id, present_str session_id with
  | Some u, Some s =>
      conn <- connect ;;
      '(conn, _) <- execute conn (insert_or_ignore_session u s (present_str title)) ;;
      '(conn, _) <- execute conn (update_title (present_str title) u s) ;;
      commit conn ;;
      close conn ;;
      ret true
  | _, _ => ret false
  end.

Definition delete_session (user_id : option Z) (session_id : option string) : M nat :=
  match present_int user_id, present_str session_id with
  | Some u, Some s =>
      conn <- connect ;;
      '(conn, deleted_msgs) <- execute conn (delete_chats u s) ;;
      '(conn, _) <- execute conn (delete_chat_session u s) ;;
      commit conn ;;
      close conn ;;
      ret deleted_msgs
  | _, _ => ret 0%nat
  end.

(** *** app.py *)

Record Response : Type := mkResponse { status : Z; payload : json }.

(** [jsonify(...)]: a JSON body with status 200. *)
Definition jsonify (v : json) : M Response := ret (mkResponse 200 v).

(** What Flask answers when the view function raises: 400 for a body that
    is not JSON, 500 for any other exception. *)
Definition serve (view : M Response) : World -> Response * World := fun w =>
  match view w with
  | (Ok r, w') => (r, w')
  | (Raise e, w') =>
      (mkResponse (match class_of e with BadRequest => 400 | _ => 500 end) JNull, w')
  end.

(** [(data.get(key) or "").strip()] *)
Definition stripped (data : json) (key : string) : result string :=
  match dict_get data key JNull with
  | Ok v => py_strip (py_or v (JStr ""))
  | Raise e => Raise e
  end.

(** [request.get_json(silent=True) or {}]; [body] is [None] when the
    request carries no parsable JSON. *)
Definition get_json_silent (body : option json) : json :=
  match body with
  | Some v => py_or v (JObj [])
  | None => JObj []
  end.

(** [request.get_json() or {}] *)
Definition get_json (body : option json) : M json :=
  match body with
  | Some v => ret (py_or v (JObj []))
  | None => raise (Exn BadRequest "Failed to decode JSON object")
  end.

Definition load_knowledge : string :=
  match knowledge_file E with
  | Some text => text
  | None => "Knowledge file is not available right now."
  end.

Definition newline : string := String (ascii_of_nat 10) "".

Definition system_prompt (knowledge : string) : string :=
  "You are an intelligent academic assistant for the Arab Open University. "
  ++ "Answer only based on the following text. "
  ++ "If no relevant information is found, reply with: "
  ++ "'Sorry, there is no available information about this question.'"
  ++ newline ++ newline ++ knowledge.

(** [msg["role"] == "user"] *)
Definition is_user (role : json) : bool :=
  match role with
  | JStr s => s =? "user"
  | _ => false
  end.

(** The loop over [history]: one message per entry, stopping at the first
    entry that raises. *)
Fixpoint history_messages (items : list json) : result (list (string * json)) :=
  match items with
  | [] => Ok []
  | msg :: rest =>
      match getitem msg "role" with
      | Raise e => Raise e
      | Ok role =>
          match getitem msg "text" with
          | Raise e => Raise e
          | Ok text =>
              match history_messages rest with
              | Raise e => Raise e
              | Ok more => Ok ((if is_user role then "user" else "assistant", text) :: more)
              end
          end
      end
  end.

(** [str(uuid4())] *)
Definition new_uuid : M string := fun w =>
  (Ok (uuid4 E (uuids w)),
   mkWorld (disk w) (open_connections w) (calls w) (S (uuids w))).

Definition chat (body : option json) : M Response :=
  let data := get_json_silent body in
  question <- lift (stripped data "message") ;;
  history <- lift (dict_get data "history" (JArr [])) ;;
  user_email <- lift (stripped data "email") ;;
  session_id <- lift (stripped data "session_id") ;;
  if negb (Str.truthy question) then
    jsonify (JObj [("answer", JStr "Please enter your question.")])
  else
    session_id <- (if negb (Str.truthy session_id) then new_uuid else ret session_id) ;;
    let knowledge := load_knowledge in
    let messages := [("system", JStr (system_prompt knowledge))] in
    items <- lift (iterate history) ;;
    turns <- lift (history_messages items) ;;
    let messages := (messages ++ turns ++ [("user", JStr question)])%list in
    try_except
      (content <- lift (completion E messages) ;;
       let answer := Str.strip content in
       (if Str.truthy user_email then
          user_id <- get_user_id user_email ;;
          match present_int user_id with
          | Some _ =>
              save_message user_id (Some session_id) "user" (Some question) ;;
              save_message user_id (Some session_id) "assistant" (Some answer)
          | None => ret tt
          end
        else ret tt) ;;
       jsonify (JObj [("answer", JStr answer); ("session_id", JStr session_id)]))
      (fun e =>
         jsonify (JObj [("answer", JStr ("Error during processing: " ++ text_of e));
                        ("session_id", JStr session_id)])).

Definition reply (success : bool) (message : string) : json :=
  JObj [("success", JBool success); ("message", JStr message)].

Definition register (body : option json) : M Response :=
  data <- get_json body ;;
  username <- lift (stripped data "username") ;;
  email <- lift (stripped data "email") ;;
  password <- lift (stripped data "password") ;;
  if negb (Str.truthy username) || negb (Str.truthy email) || negb (Str.truthy password)
  then jsonify (reply false "All fields are required.")
  else
    let hashed_password := hash_password password in
    try_except
      (conn <- connect ;;
       '(conn, _) <- execute conn (insert_user username email hashed_password) ;;
       commit conn ;;
       close conn ;;
       jsonify (reply true "Registration successful."))
      (fun e =>
         match class_of e with
         | IntegrityError => jsonify (reply false "Username or email already exists.")
         | _ => jsonify (reply false ("Error occurred: " ++ text_of e))
         end).

Definition login (body : option json) : M Response :=
  data <- get_json body ;;
  email <- lift (stripped data "email") ;;
  password <- lift (stripped data "password") ;;
  if negb (Str.truthy email) || negb (Str.truthy password)
  then jsonify (reply false "Please enter both email and password.")
  else
    let hashed_password := hash_password password in
    try_except
      (conn <- connect ;;
       '(conn, user) <- execute conn (select_login email hashed_password) ;;
       close conn ;;
       match user with
       | Some _ => jsonify (reply true "Login successful.")
       | None => jsonify (reply false "UserName/Password incorrect.")
       end)
      (fun e => jsonify (reply false ("Error occurred: " ++ text_of e))).

End Program.

(** ** Vocabulary of the properties *)

(** No storage call of the run raises. *)
Definition no_faults (E : Env) : Prop := forall n, fault E n = None.

(** The rows a call with these arguments names: those whose user_id and
    session_id both equal the arguments. *)
Definition chat_of (user_id : option Z) (session_id : option string) (c : Chat) : bool :=
  match user_id, session_id with
  | Some u, Some s => chat_in u s c
  | _, _ => false
  end.

Definition session_of (user_id : option Z) (session_id : option string)
    (cs : ChatSession) : bool :=
  match user_id, session_id with
  | Some u, Some s => session_is u s cs
  | _, _ => false
  end.

Definition session_key (cs : ChatSession) : Z * string := (s_user_id cs, s_session_id cs).

(** What the schema and the guards of the store functions maintain:
    email and username are unique, (user_id, session_id) is unique among
    sessions, no row carries an absent identifier, and every message
    belongs to a recorded session. *)
Record well_formed (d : Database) : Prop := mkWellFormed {
  wf_emails : NoDup (map u_email (users d));
  wf_usernames : NoDup (map u_username (users d));
  wf_session_keys : NoDup (map session_key (chat_sessions d));
  wf_sessions :
    Forall (fun cs => s_user_id cs <> 0%Z /\ s_session_id cs <> "") (chat_sessions d);
  wf_chats :
    Forall (fun c => c_user_id c <> 0%Z /\ c_session_id c <> ""
                     /\ existsb (session_is (c_user_id c) (c_session_id c))
                          (chat_sessions d) = true) (chats d) }.

(** The connection discipline the specification words: whatever the
    outcome, as many connections are open after the call as before. *)
Definition releases_always {A : Type} (m : M A) : Prop :=
  forall w, open_connections (snd (m w)) = open_connections w.

(** The discipline of the code: a normal return leaves no connection
    behind; an exception leaves behind the connection opened by the call,
    unless [connect] itself raised. *)
Definition releases_on_return {A : Type} (E : Env) (m : M A) : Prop :=
  forall w,
    match m w with
    | (Ok _, w') => open_connections w' = open_connections w
    | (Raise _, w') =>
        (fault E (calls w) <> None /\ open_connections w' = open_connections w)
        \/ (fault E (calls w) = None /\ open_connections w' = S (open_connections w))
    end.

(** Sessions as the specification describes an entry of [get_sessions]:
    the number of messages of the session and the time of the latest one,
    or the creation time of the session when it has none. *)
Definition messages_of (d : Database) (cs : ChatSession) : list Chat :=
  filter (chat_in (s_user_id cs) (s_session_id cs)) (chats d).

Definition latest (times : list Z) : option Z :=
  match times with
  | [] => None
  | t :: rest => Some (fold_left Z.max rest t)
  end.

Definition session_summary (d : Database) (cs : ChatSession) : SessionInfo :=
  mkSessionInfo (s_session_id cs) (s_title cs) (List.length (messages_of d cs))
    (match latest (map c_created_at (messages_of d cs)) with
     | Some t => t
     | None => s_created_at cs
     end).

(** The sessions a user owns, and the order of the list: the entry that
    comes first was active last. *)
Definition owned_by (user_id : option Z) (cs : ChatSession) : bool :=
  match user_id with
  | Some u => (s_user_id cs =? u)%Z
  | None => false
  end.

Definition more_recent (a b : SessionInfo) : Prop :=
  (si_last_activity b <= si_last_activity a)%Z.

(** *** Requests of the documented shapes *)

Definition field (key : string) (v : option json) : list (string * json) :=
  match v with
  | Some x => [(key, x)]
  | None => []
  end.

Definition history_entry (e : json * json) : json :=
  JObj [("role", fst e); ("text", snd e)].

(** {message, history?: [{role, text}], email?, session_id?}; a field that
    is [None] is left out of the body. *)
Definition chat_request (message : option string) (history : option (list (json * json)))
    (email session_id : option string) : option json :=
  Some (JObj (field "message" (option_map JStr message)
              ++ field "history" (option_map (fun h => JArr (map history_entry h)) history)
              ++ field "email" (option_map JStr email)
              ++ field "session_id" (option_map JStr session_id))).

(** What the handlers make of a text field: [(data.get(key) or "").strip()]
    of a field that is a string or is left out. *)
Definition normalized (v : option string) : string :=
  Str.strip (match v with Some s => s | None => "" end).

(** The messages the provider is sent for a request of that shape. *)
Definition turn (e : json * json) : string * json :=
  (if is_user (fst e) then "user" else "assistant", snd e).

Definition prompt (E : Env) (message : option string)
    (history : option (list (json * json))) : list (string * json) :=
  ([("system", JStr (system_prompt (load_knowledge E)))]
   ++ map turn (match history with Some h => h | None => [] end)
   ++ [("user", JStr (normalized message))])%list.

(** The session of the exchange: the one the request names, or a new one. *)
Definition session_for (E : Env) (w : World) (session_id : option string) : string :=
  if normalized session_id =? "" then uuid4 E (uuids w) else normalized session_id.

(** {username, email, password} *)
Definition register_request (username email password : string) : option json :=
  Some (JObj [("username", JStr username); ("email", JStr email);
              ("password", JStr password)]).

(** {email, password} *)
Definition login_request (email password : string) : option json :=
  Some (JObj [("email", JStr email); ("password", JStr password)]).

(** The value of a key of a JSON response, if the response has it. *)
Definition response_field (r : Response) (key : string) : option json :=
  match payload r with
  | JObj l => lookup key l
  | _ => None
  end.

(** The success flag and the message of a {success, message} response. *)
Definition succeeded (r : Response) : bool :=
  match response_field r "success" with
  | Some (JBool b) => b
  | _ => false
  end.

Definition message_of (r : Response) : string :=
  match response_field r "message" with
  | Some (JStr m) => m
  | _ => ""
  end.

(** The stored rows a pair (email, password) matches. *)
Definition matching (d : Database) (email password : string) : list User :=
  filter (credentials email (hash_password password)) (users d).

Definition known_email (d : Database) (email : string) : Prop :=
  In email (map u_email (users d)).

(** Stored names carry no surrounding white space: [register] strips them. *)
Definition names_stripped (d : Database) : Prop :=
  Forall (fun u => Str.strip (u_username u) = u_username u
                   /\ Str.strip (u_email u) = u_email u) (users d).

(** *** Statements of the specification that the code does not satisfy
    as they are worded *)

(** C5, first half: login succeeds exactly when one stored row matches
    the email and the digest of the password as they are sent. *)
Definition login_iff_match (E : Env) (w : World) : Prop :=
  forall email password,
    succeeded (fst (serve (login E (login_request email password)) w)) = true
    <-> List.length (matching (disk w) email password) = 1%nat.

(** C5, second half: a failed login for an unknown email and a failed
    login for a known email carry the same message. *)
Definition login_same_failure_message (E : Env) (w : World) : Prop :=
  forall unknown password known wrong,
    ~ known_email (disk w) unknown -> known_email (disk w) known ->
    matching (disk w) known wrong = [] ->
    message_of (fst (serve (login E (login_request unknown password)) w))
    = message_of (fst (serve (login E (login_request known wrong)) w)).

(** C6: a successful registration stores the digest of the password as
    it is sent. *)
Definition register_stores_digest (E : Env) (w : World) : Prop :=
  forall username email password,
    let out := serve (register E (register_request username email password)) w in
    succeeded (fst out) = true ->
    exists row, In row (users (disk (snd out)))
                /\ u_email row = Str.strip email
                /\ u_password row = hash_password password.

(** C7: a message that is not empty and no session_id make the view draw
    a uuid and return it. *)
Definition chat_allocates_for_nonempty (E : Env) (w : World) : Prop :=
  forall message history email,
    message <> "" ->
    let out := serve (chat E (chat_request (Some message) history email None)) w in
    uuids (snd out) = S (uuids w)
    /\ response_field (fst out) "session_id" = Some (JStr (uuid4 E (uuids w))).


(** *** Bodies of POST /chat, of any shape *)







(** *** Sample environments *)

Module Demo.

(** A quiet environment: the clock advances by one second per storage
    call, nothing fails, the provider always answers. *)
Definition env : Env :=
  mkEnv (fun n => 1700000000 + Z.of_nat n)%Z
        (fun _ => None)
        (fun n => "6f1c2a9e-session-" ++ String (ascii_of_nat (65 + n)) "")
        (fun _ => Ok " Admission opens in September. ")
        None.

(** The same, except that the second storage call (the first statement
    after [connect]) raises. *)
Definition flaky : Env :=
  mkEnv (clock env)
        (fun n => if Nat.eqb n 1 then Some (Exn OperationalError "disk I/O error") else None)
        (uuid4 env) (completion env) None.

(** The same as [env], with a provider that is down. *)
Definition offline : Env :=
  mkEnv (clock env) (fault env) (uuid4 env)
        (fun _ => Raise (Exn ProviderError "No API key provided.")) None.

Definition fresh : World := mkWorld empty_db 0 0 0.

(** Two users; the first has the session "s1" with two messages and the
    session "s2" with none, the second a session that is also called "s1". *)
Definition busy_db : Database :=
  mkDatabase
    [mkUser 1 "alice" "a@x.com" (hash_password "pw1");
     mkUser 2 "bob" "b@x.com" (hash_password "pw2")]
    [mkChat 1 1 "s1" "user" "When does admission open?" 1700000100;
     mkChat 2 1 "s1" "assistant" "In September." 1700000103;
     mkChat 3 2 "s1" "user" "Where is the campus?" 1700000200]
    [mkChatSession 1 1 "s1" (Some "Admission") 1700000100;
     mkChatSession 2 2 "s1" None 1700000200;
     mkChatSession 3 1 "s2" None 1700000300]
    2 3 3.

Definition busy : World := mkWorld busy_db 0 0 0.

End Demo.

(** ** The session endpoints of app.py *)

(** [request.args.get(key)]: the first value the query string gives the
    key, [None] when it has none. *)
Fixpoint args_get (key : string) (args : list (string * string)) : option string :=
  match args with
  | [] => None
  | (k, v) :: rest => if key =? k then Some v else args_get key rest
  end.

(** [(request.args.get(key) or "").strip()] *)
Definition query_arg (args : list (string * string)) (key : string) : string :=
  Str.strip (match args_get key args with Some v => v | None => "" end).

(** [jsonify(history)]: the list of [{"role": ..., "text": ...}]. *)
Definition history_json (rows : list (string * string)) : json :=
  JArr (map (fun r => JObj [("role", JStr (fst r)); ("text", JStr (snd r))]) rows).

(** [jsonify(data)] for the list [get_sessions] returns; a NULL title is
    null, and last_activity is the timestamp, a number in this model. *)
Definition session_json (si : SessionInfo) : json :=
  JObj [("session_id", JStr (si_session_id si));
        ("title", match si_title si with Some t => JStr t | None => JNull end);
        ("messages_count", JNum (Z.of_nat (si_messages_count si)));
        ("last_activity", JNum (si_last_activity si))].

Section Endpoints.

Variable E : Env.

Definition rename_session (body : option json) : M Response :=
  data <- get_json body ;;
  email <- lift (stripped data "email") ;;
  session_id <- lift (stripped data "session_id") ;;
  title <- lift (stripped data "title") ;;
  user_id <- get_user_id E email ;;
  match present_int user_id, present_str (Some session_id) with
  | Some _, Some _ =>
      ok <- upsert_session_title E user_id (Some session_id) (Some title) ;;
      jsonify (JObj [("success", JBool ok)])
  | _, _ => jsonify (reply false "Missing email or session ID.")
  end.

Definition remove_session (body : option json) : M Response :=
  data <- get_json body ;;
  email <- lift (stripped data "email") ;;
  session_id <- lift (stripped data "session_id") ;;
  user_id <- get_user_id E email ;;
  match present_int user_id, present_str (Some session_id) with
  | Some _, Some _ =>
      deleted <- delete_session E user_id (Some session_id) ;;
      jsonify (JObj [("success", JBool true);
                     ("deleted_messages", JNum (Z.of_nat deleted))])
  | _, _ => jsonify (reply false "Missing email or session ID.")
  end.

Definition get_history (args : list (string * string)) : M Response :=
  let email := query_arg args "email" in
  let session_id := query_arg args "session_id" in
  user_id <- get_user_id E email ;;
  match present_int user_id, present_str (Some session_id) with
  | Some _, Some _ =>
      history <- get_chat_history E user_id (Some session_id) ;;
      jsonify (history_json history)
  | _, _ => jsonify (JArr [])
  end.

Definition sessions (args : list (string * string)) : M Response :=
  let email := query_arg args "email" in
  user_id <- get_user_id E email ;;
  match present_int user_id with
  | Some _ =>
      data <- get_sessions E user_id ;;
      jsonify (JArr (map session_json data))
  | None => jsonify (JArr [])
  end.

End Endpoints.

(** *** Vocabulary of the further properties *)

(** The id stored for an email, as [get_user_id] reads it. *)
Definition user_id_of (d : Database) (email : string) : option Z :=
  match filter (fun u => u_email u =? email) (users d) with
  | u :: _ => Some (u_id u)
  | [] => None
  end.

(** Rowids grow with the table and stay below the sequence that
    AUTOINCREMENT keeps, for messages and for users. *)
Definition chats_in_order (d : Database) : Prop :=
  StronglySorted (fun a b => (c_id a < c_id b)%Z) (chats d)
  /\ Forall (fun c => (c_id c <= chats_seq d)%Z) (chats d).

Definition users_in_order (d : Database) : Prop :=
  StronglySorted (fun a b => (u_id a < u_id b)%Z) (users d)
  /\ Forall (fun u => (0 < u_id u <= users_seq d)%Z) (users d)
  /\ (0 <= users_seq d)%Z.

(** The messages of a session as [get_chat_history] lists them. *)
Definition transcript (d : Database) (u : Z) (s : string) : list (string * string) :=
  map (fun c => (c_role c, c_message c)) (filter (chat_in u s) (chats d)).

(** A character of [hexdigest()]: a digit or a letter from a to f. *)
Definition is_hex (c : ascii) : bool :=
  let n := N_of_ascii c in
  ((48 <=? n) && (n <=? 57) || (97 <=? n) && (n <=? 102))%N.

(** {email, session_id} and {email, session_id, title} *)
Definition session_request (email session_id : string) : option json :=
  Some (JObj [("email", JStr email); ("session_id", JStr session_id)]).

Definition title_request (email session_id title : string) : option json :=
  Some (JObj [("email", JStr email); ("session_id", JStr session_id);
              ("title", JStr title)]).

(** The store as the program keeps it: the constraints of the schema, and
    rowids in order in the two tables whose rowids the code reads. *)
Definition consistent (d : Database) : Prop :=
  well_formed d /\ chats_in_order d /\ users_in_order d.

(** A computation keeps a property of the database when the database it
    leaves has the property whenever the one it found had it, whether the
    computation returns or raises. *)
Definition keeps {A : Type} (P : Database -> Prop) (m : M A) : Prop :=
  forall w, P (disk w) -> P (disk (snd (m w))).

(** What one call of [chat] may add to the table of messages: nothing, a
    question, or a question followed by its answer, both of one user in
    one session. *)
Definition exchange (new : list Chat) : Prop :=
  new = []
  \/ (exists c, new = [c] /\ c_role c = "user" /\ c_message c <> "")
  \/ (exists c1 c2,
        new = [c1; c2]
        /\ c_role c1 = "user" /\ c_message c1 <> ""
        /\ c_role c2 = "assistant" /\ c_message c2 <> ""
        /\ c_user_id c2 = c_user_id c1 /\ c_session_id c2 = c_session_id c1
        /\ (c_id c1 < c_id c2)%Z).

(** The database a call of [chat] leaves, against the one it found. *)
Definition after_chat (d d' : Database) : Prop :=
  users d' = users d
  /\ (exists new, chats d' = (chats d ++ new)%list /\ exchange new)
  /\ (exists rows, chat_sessions d' = (chat_sessions d ++ rows)%list
                   /\ (List.length rows <= 1)%nat
                   /\ Forall (fun cs => s_title cs = None) rows).

(** * Theorems *)

(** ** The models of [hashlib] and [str.strip] on known values *)

Example sha256_empty :
  hash_password "" = "e3b0c44298fc1c149afbf4c8996fb92427ae41e4649b934ca495991b7852b855".
Proof. vm_compute. reflexivity. Qed.

Example sha256_abc :
  hash_password "abc" = "ba7816bf8f01cfea414140de5dae2223b00361a396177a9cb410ff61f20015ad".
Proof. vm_compute. reflexivity. Qed.

(** A message of two blocks. *)
Example sha256_two_blocks :
  hash_password "abcdbcdecdefdefgefghfghighijhijkijkljklmklmnlmnomnopnopq"
  = "248d6a61d20638b8e5c026930c3e6039a33ce45964ff2167f6ecedd419db06c1".
Proof. vm_compute. reflexivity. Qed.

Example sha256_constants :
  nth 0 SHA256.round_constants 0%N = 0x428a2f98%N
  /\ nth 63 SHA256.round_constants 0%N = 0xc67178f2%N
  /\ SHA256.initial_hash
     = [0x6a09e667; 0xbb67ae85; 0x3c6ef372; 0xa54ff53a;
        0x510e527f; 0x9b05688c; 0x1f83d9ab; 0x5be0cd19]%N.
Proof. vm_compute. auto. Qed.

Example strip_examples :
  Str.strip "  a@x.com " = "a@x.com"
  /\ Str.strip "pw 1" = "pw 1"
  /\ Str.strip "   " = ""
  /\ Str.strip (String (ascii_of_nat 9) (String (ascii_of_nat 194)
                  (String (ascii_of_nat 160) "x"))) = "x".
Proof. vm_compute. auto. Qed.

(** ** Running the store functions *)

(** Case analysis on every storage call of a run. *)
Ltac each_call E :=
  repeat match goal with
         | |- context [fault E ?n] => destruct (fault E n) eqn:?; cbn
         end.

Ltac unfold_store :=
  unfold bind, ret, connect, execute, commit, close, storage_call,
    insert_chat, insert_or_ignore_session, update_title, delete_chats,
    delete_chat_session, select_history, select_sessions, select_user_id,
    create_tables; cbn.

Lemma present_int_some (x : option Z) (u : Z) :
  present_int x = Some u -> x = Some u /\ u <> 0%Z.
Proof.
  destruct x as [n|]; cbn; [|discriminate].
  destruct (Z.eqb_spec n 0); [discriminate|].
  intros [= <-]. auto.
Qed.

Lemma present_str_some (x : option string) (s : string) :
  present_str x = Some s -> x = Some s /\ s <> "".
Proof.
  destruct x as [t|]; cbn; [|discriminate].
  destruct (String.eqb_spec t ""); [discriminate|].
  intros [= <-]. auto.
Qed.

Lemma present_int_nonzero (u : Z) : u <> 0%Z -> present_int (Some u) = Some u.
Proof. intros H. cbn. destruct (Z.eqb_spec u 0); congruence. Qed.

Lemma present_str_nonempty (s : string) : s <> "" -> present_str (Some s) = Some s.
Proof. intros H. cbn. destruct (String.eqb_spec s ""); congruence. Qed.

Lemma strip_empty : Str.strip "" = "".
Proof. reflexivity. Qed.

Lemma truthy_nonempty (s : string) : Str.truthy s = true <-> s <> "".
Proof.
  unfold Str.truthy. destruct (String.eqb_spec s ""); cbn; split; congruence.
Qed.

Lemma truthy_empty (s : string) : Str.truthy s = false <-> s = "".
Proof.
  unfold Str.truthy. destruct (String.eqb_spec s ""); cbn; split; congruence.
Qed.

(** ** C9: connections *)

Section Connections.

Variable E : Env.

Ltac scoped :=
  intros w; unfold_store; each_call E;
  solve [ reflexivity
        | left; split; [congruence | reflexivity]
        | right; split; reflexivity ].

Lemma save_message_releases user_id session_id role message :
  releases_on_return E (save_message E user_id session_id role message).
Proof.
  unfold save_message.
  destruct (present_int user_id), (present_str session_id), (present_str message);
    scoped.
Qed.

Lemma get_chat_history_releases user_id session_id :
  releases_on_return E (get_chat_history E user_id session_id).
Proof.
  unfold get_chat_history.
  destruct (present_int user_id), (present_str session_id); scoped.
Qed.

Lemma get_sessions_releases user_id :
  releases_on_return E (get_sessions E user_id).
Proof. unfold get_sessions. destruct (present_int user_id); scoped. Qed.

Lemma upsert_session_title_releases user_id session_id title :
  releases_on_return E (upsert_session_title E user_id session_id title).
Proof.
  unfold upsert_session_title.
  destruct (present_int user_id), (present_str session_id); scoped.
Qed.

Lemma delete_session_releases user_id session_id :
  releases_on_return E (delete_session E user_id session_id).
Proof.
  unfold delete_session.
  destruct (present_int user_id), (present_str session_id); scoped.
Qed.

Lemma get_user_id_releases email :
  releases_on_return E (get_user_id E email).
Proof. unfold get_user_id. destruct (Str.truthy email); scoped. Qed.

End Connections.

(** C9, as stated, fails: when the INSERT of [save_message] raises, the
    function is left through the exception and the connection it opened
    is still open. *)
Lemma C9_connection_left_open :
  ~ releases_always (save_message Demo.flaky (Some 1%Z) (Some "s1") "user" (Some "hello")).
Proof.
  intros H. specialize (H Demo.fresh). vm_compute in H. discriminate.
Qed.

(** C9, amended: every store operation opens its connection inside the
    call and closes it before it returns; when a storage call raises, the
    exception leaves the function with the connection still open (unless
    it was [connect] that raised, which opened none). *)
Theorem C9_connection_released_on_return (E : Env) :
  (forall user_id session_id role message,
      releases_on_return E (save_message E user_id session_id role message))
  /\ (forall user_id session_id,
         releases_on_return E (get_chat_history E user_id session_id))
  /\ (forall user_id, releases_on_return E (get_sessions E user_id))
  /\ (forall user_id session_id title,
         releases_on_return E (upsert_session_title E user_id session_id title))
  /\ (forall user_id session_id,
         releases_on_return E (delete_session E user_id session_id))
  /\ (forall email, releases_on_return E (get_user_id E email)).
Proof.
  repeat split; intros.
  - apply save_message_releases.
  - apply get_chat_history_releases.
  - apply get_sessions_releases.
  - apply upsert_session_title_releases.
  - apply delete_session_releases.
  - apply get_user_id_releases.
Qed.

(** ** Lists *)

Lemma filter_idem {A : Type} (p : A -> bool) (l : list A) :
  filter p (filter p l) = filter p l.
Proof.
  induction l as [|x l IH]; cbn; [reflexivity|].
  destruct (p x) eqn:Hx; cbn; rewrite ?Hx, IH; reflexivity.
Qed.

Lemma filter_none {A : Type} (p : A -> bool) (l : list A) :
  filter p (filter (fun x => negb (p x)) l) = [].
Proof.
  induction l as [|x l IH]; cbn; [reflexivity|].
  destruct (p x) eqn:Hx; cbn; rewrite ?Hx; exact IH.
Qed.

Lemma filter_nil_iff {A : Type} (p : A -> bool) (l : list A) :
  filter p l = [] <-> forall x, In x l -> p x = false.
Proof.
  induction l as [|x l IH]; cbn.
  - split; [intros _ y []|reflexivity].
  - destruct (p x) eqn:Hx.
    + split; [discriminate|]. intros H. specialize (H x (or_introl eq_refl)). congruence.
    + rewrite IH. split.
      * intros H y [<-|Hy]; auto.
      * intros H y Hy. apply H. right. exact Hy.
Qed.

Lemma existsb_false_filter {A : Type} (p : A -> bool) (l : list A) :
  existsb p l = false <-> filter p l = [].
Proof.
  induction l as [|x l IH]; cbn; [tauto|].
  destruct (p x); cbn; [split; discriminate|exact IH].
Qed.

(** ** C10: what [delete_session] leaves alone *)

(** The database a call of [delete_session] leaves on disk: the old one
    (the guard returned, or a storage call raised before the commit), or
    the old one without the messages and the session named. *)
Lemma delete_session_disk (E : Env) (user_id : option Z) (session_id : option string)
    (w : World) :
  disk (snd (delete_session E user_id session_id w)) = disk w
  \/ exists u s,
       user_id = Some u /\ session_id = Some s
       /\ disk (snd (delete_session E user_id session_id w))
          = remove_chat_session u s (remove_chats u s (disk w)).
Proof.
  unfold delete_session.
  destruct (present_int user_id) as [u|] eqn:Hu;
    [|left; destruct (present_str session_id); reflexivity].
  destruct (present_str session_id) as [s|] eqn:Hs; [|left; reflexivity].
  apply present_int_some in Hu as [-> _]. apply present_str_some in Hs as [-> _].
  unfold_store; each_call E; try (left; reflexivity).
  right. exists u, s. auto.
Qed.

Lemma chat_of_other (user_id : option Z) (session_id : option string) (c : Chat) :
  Some (c_user_id c) <> user_id \/ Some (c_session_id c) <> session_id ->
  chat_of user_id session_id c = false.
Proof.
  destruct user_id as [u|], session_id as [s|]; cbn; try reflexivity.
  unfold chat_in.
  destruct (Z.eqb_spec (c_user_id c) u), (String.eqb_spec (c_session_id c) s);
    subst; cbn; intuition congruence.
Qed.

Lemma session_of_other (user_id : option Z) (session_id : option string)
    (cs : ChatSession) :
  Some (s_user_id cs) <> user_id \/ Some (s_session_id cs) <> session_id ->
  session_of user_id session_id cs = false.
Proof.
  destruct user_id as [u|], session_id as [s|]; cbn; try reflexivity.
  unfold session_is.
  destruct (Z.eqb_spec (s_user_id cs) u), (String.eqb_spec (s_session_id cs) s);
    subst; cbn; intuition congruence.
Qed.

(** C10: [delete_session] changes no row but the messages and the session
    whose user_id and session_id both equal its arguments.  The users are
    untouched; the other messages and the other sessions (those of another
    user, the same session_id or not, and the other sessions of the same
    user) are the same rows, in the same order, before and after; no row
    appears. *)
Theorem C10_delete_session_frame (E : Env) (w : World)
    (user_id : option Z) (session_id : option string) :
  let d := disk w in
  let d' := disk (snd (delete_session E user_id session_id w)) in
  users d' = users d
  /\ filter (fun c => negb (chat_of user_id session_id c)) (chats d')
     = filter (fun c => negb (chat_of user_id session_id c)) (chats d)
  /\ filter (fun cs => negb (session_of user_id session_id cs)) (chat_sessions d')
     = filter (fun cs => negb (session_of user_id session_id cs)) (chat_sessions d)
  /\ (forall c, In c (chats d) ->
        Some (c_user_id c) <> user_id \/ Some (c_session_id c) <> session_id ->
        In c (chats d'))
  /\ (forall cs, In cs (chat_sessions d) ->
        Some (s_user_id cs) <> user_id \/ Some (s_session_id cs) <> session_id ->
        In cs (chat_sessions d'))
  /\ incl (chats d') (chats d)
  /\ incl (chat_sessions d') (chat_sessions d).
Proof.
  intros d d'.
  assert (Hc : filter (fun c => negb (chat_of user_id session_id c)) (chats d')
               = filter (fun c => negb (chat_of user_id session_id c)) (chats d)
               /\ incl (chats d') (chats d)).
  { subst d d'.
    destruct (delete_session_disk E user_id session_id w) as [-> | (u & s & -> & -> & ->)].
    - split; [reflexivity | apply incl_refl].
    - cbn. split; [apply filter_idem | apply incl_filter]. }
  assert (Hs : filter (fun cs => negb (session_of user_id session_id cs)) (chat_sessions d')
               = filter (fun cs => negb (session_of user_id session_id cs)) (chat_sessions d)
               /\ incl (chat_sessions d') (chat_sessions d)).
  { subst d d'.
    destruct (delete_session_disk E user_id session_id w) as [-> | (u & s & -> & -> & ->)].
    - split; [reflexivity | apply incl_refl].
    - cbn. split; [apply filter_idem | apply incl_filter]. }
  destruct Hc as [Hc Hci], Hs as [Hs Hsi].
  repeat split; try assumption.
  - subst d d'.
    destruct (delete_session_disk E user_id session_id w) as [-> | (u & s & -> & -> & ->)];
      reflexivity.
  - intros c Hin Hother.
    assert (H : In c (filter (fun c => negb (chat_of user_id session_id c)) (chats d'))).
    { rewrite Hc. apply filter_In. split; [exact Hin|].
      rewrite (chat_of_other _ _ _ Hother). reflexivity. }
    apply filter_In in H. apply H.
  - intros cs Hin Hother.
    assert (H : In cs (filter (fun cs => negb (session_of user_id session_id cs))
                         (chat_sessions d'))).
    { rewrite Hs. apply filter_In. split; [exact Hin|].
      rewrite (session_of_other _ _ _ Hother). reflexivity. }
    apply filter_In in H. apply H.
Qed.

(** ** The sample worlds are well formed *)

Ltac distinct_rows :=
  repeat constructor; cbn; intuition (try discriminate; try congruence).

Lemma demo_no_faults : no_faults Demo.env.
Proof. intros n. reflexivity. Qed.

Lemma demo_fresh_well_formed : well_formed (disk Demo.fresh).
Proof. constructor; cbn; constructor. Qed.

Lemma demo_busy_well_formed : well_formed (disk Demo.busy).
Proof. constructor; cbn; distinct_rows. Qed.

(** ** C2: [delete_session] *)

Lemma delete_session_run (E : Env) (user_id : option Z) (session_id : option string)
    (u : Z) (s : string) (w : World) :
  no_faults E ->
  present_int user_id = Some u -> present_str session_id = Some s ->
  delete_session E user_id session_id w
  = (Ok (List.length (filter (chat_in u s) (chats (disk w)))),
     mkWorld (remove_chat_session u s (remove_chats u s (disk w)))
       (open_connections w) (4 + calls w) (uuids w)).
Proof.
  intros HE Hu Hs. unfold delete_session. rewrite Hu, Hs.
  unfold_store. rewrite !HE. reflexivity.
Qed.

Lemma delete_session_skip (E : Env) (user_id : option Z) (session_id : option string)
    (w : World) :
  present_int user_id = None \/ present_str session_id = None ->
  delete_session E user_id session_id w = (Ok 0%nat, w).
Proof.
  unfold delete_session. intros [-> | ->]; [reflexivity|].
  destruct (present_int user_id); reflexivity.
Qed.

(** In a well-formed database no row carries an absent identifier, so
    arguments that fail the guard name no row. *)
Lemma absent_names_nothing (d : Database) (user_id : option Z) (session_id : option string) :
  well_formed d ->
  present_int user_id = None \/ present_str session_id = None ->
  filter (chat_of user_id session_id) (chats d) = []
  /\ filter (session_of user_id session_id) (chat_sessions d) = [].
Proof.
  intros Hwf Habsent.
  assert (Hzero : forall u s, u = 0%Z \/ s = "" ->
            user_id = Some u -> session_id = Some s ->
            filter (chat_in u s) (chats d) = []
            /\ filter (session_is u s) (chat_sessions d) = []).
  { intros u s Hus _ _. split; apply filter_nil_iff; intros x Hx.
    - pose proof (proj1 (Forall_forall _ _) (wf_chats d Hwf) x Hx) as (Hu & Hs & _).
      unfold chat_in.
      destruct (Z.eqb_spec (c_user_id x) u), (String.eqb_spec (c_session_id x) s);
        cbn; try reflexivity. intuition congruence.
    - pose proof (proj1 (Forall_forall _ _) (wf_sessions d Hwf) x Hx) as (Hu & Hs).
      unfold session_is.
      destruct (Z.eqb_spec (s_user_id x) u), (String.eqb_spec (s_session_id x) s);
        cbn; try reflexivity. intuition congruence. }
  assert (Hnone : forall A (l : list A), filter (fun _ => false) l = []).
  { intros A l. induction l; cbn; auto. }
  destruct user_id as [u|], session_id as [s|]; cbn [chat_of session_of];
    try (split; apply Hnone).
  apply (Hzero u s); try reflexivity.
  destruct Habsent as [H|H]; cbn in H.
  - left. destruct (Z.eqb_spec u 0); [assumption|discriminate].
  - right. destruct (String.eqb_spec s ""); [assumption|discriminate].
Qed.

(** C2: in a well-formed database and with no storage failure,
    [delete_session] returns the number N of messages of the session,
    leaves no message and no session row for the pair, and a second call
    returns 0 without raising and changes nothing. *)
Theorem C2_delete_session_count (E : Env) (w : World)
    (user_id : option Z) (session_id : option string) :
  no_faults E -> well_formed (disk w) ->
  let n := List.length (filter (chat_of user_id session_id) (chats (disk w))) in
  let w1 := snd (delete_session E user_id session_id w) in
  let w2 := snd (delete_session E user_id session_id w1) in
  fst (delete_session E user_id session_id w) = Ok n
  /\ filter (chat_of user_id session_id) (chats (disk w1)) = []
  /\ filter (session_of user_id session_id) (chat_sessions (disk w1)) = []
  /\ fst (delete_session E user_id session_id w1) = Ok 0%nat
  /\ disk w2 = disk w1.
Proof.
  intros HE Hwf n w1 w2. subst n w1 w2.
  destruct (present_int user_id) as [u|] eqn:Hu.
  - destruct (present_str session_id) as [s|] eqn:Hs.
    + rewrite (delete_session_run E _ _ u s w HE Hu Hs). cbn [fst snd].
      rewrite (delete_session_run E _ _ u s _ HE Hu Hs). cbn [fst snd disk].
      apply present_int_some in Hu as [-> _]. apply present_str_some in Hs as [-> _].
      cbn [chat_of session_of]. cbn.
      rewrite !filter_none. cbn.
      repeat split.
      unfold remove_chat_session, remove_chats. cbn. rewrite !filter_idem. reflexivity.
    + rewrite !(delete_session_skip E user_id session_id _ (or_intror Hs)). cbn [fst snd].
      destruct (absent_names_nothing _ user_id session_id Hwf (or_intror Hs)) as [-> ->].
      auto.
  - rewrite !(delete_session_skip E user_id session_id _ (or_introl Hu)). cbn [fst snd].
    destruct (absent_names_nothing _ user_id session_id Hwf (or_introl Hu)) as [-> ->].
    auto.
Qed.

(** C2 at the sample database: the session "s1" of the first user holds
    two messages. *)
Lemma C2_delete_session_count_witness :
  let w1 := snd (delete_session Demo.env (Some 1%Z) (Some "s1") Demo.busy) in
  let w2 := snd (delete_session Demo.env (Some 1%Z) (Some "s1") w1) in
  fst (delete_session Demo.env (Some 1%Z) (Some "s1") Demo.busy) = Ok 2%nat
  /\ filter (chat_of (Some 1%Z) (Some "s1")) (chats (disk w1)) = []
  /\ filter (session_of (Some 1%Z) (Some "s1")) (chat_sessions (disk w1)) = []
  /\ fst (delete_session Demo.env (Some 1%Z) (Some "s1") w1) = Ok 0%nat
  /\ disk w2 = disk w1.
Proof.
  exact (C2_delete_session_count Demo.env Demo.busy (Some 1%Z) (Some "s1")
           demo_no_faults demo_busy_well_formed).
Defined.

(** ** Sessions are unique *)

Lemma session_is_key (u : Z) (s : string) (cs : ChatSession) :
  session_is u s cs = true <-> session_key cs = (u, s).
Proof.
  unfold session_is, session_key.
  destruct (Z.eqb_spec (s_user_id cs) u), (String.eqb_spec (s_session_id cs) s);
    cbn; split; intros H; try discriminate; try congruence.
Qed.

Lemma existsb_session_key (u : Z) (s : string) (l : list ChatSession) :
  existsb (session_is u s) l = true <-> In (u, s) (map session_key l).
Proof.
  rewrite existsb_exists, in_map_iff. split.
  - intros (x & Hx & H). exists x. split; [apply session_is_key; exact H|exact Hx].
  - intros (x & H & Hx). exists x. split; [exact Hx|apply session_is_key; exact H].
Qed.

(** Under the UNIQUE constraint a pair selects no row or one. *)
Lemma unique_session (u : Z) (s : string) (l : list ChatSession) :
  NoDup (map session_key l) ->
  filter (session_is u s) l = [] \/ exists row, filter (session_is u s) l = [row].
Proof.
  induction l as [|x l IH]; cbn; intros Hnd; [left; reflexivity|].
  inversion Hnd as [|k ks Hnotin Hnd']; subst.
  destruct (session_is u s x) eqn:Hx.
  - right. exists x. f_equal.
    apply existsb_false_filter.
    destruct (existsb (session_is u s) l) eqn:Hex; [|reflexivity].
    apply existsb_session_key in Hex. apply session_is_key in Hx.
    rewrite Hx in Hnotin. contradiction.
  - apply IH. exact Hnd'.
Qed.

Lemma retitle_key (t : option string) (u : Z) (s : string) (cs : ChatSession) :
  session_key (retitle t u s cs) = session_key cs.
Proof. unfold retitle. destruct (session_is u s cs); reflexivity. Qed.

Lemma retitle_keys (t : option string) (u : Z) (s : string) (l : list ChatSession) :
  map session_key (map (retitle t u s) l) = map session_key l.
Proof. rewrite map_map. apply map_ext. intros cs. apply retitle_key. Qed.

Lemma retitle_session_is (t : option string) (u u' : Z) (s s' : string) (cs : ChatSession) :
  session_is u' s' (retitle t u s cs) = session_is u' s' cs.
Proof. unfold retitle. destruct (session_is u s cs); reflexivity. Qed.

Lemma filter_retitle (t : option string) (u u' : Z) (s s' : string) (l : list ChatSession) :
  filter (session_is u' s') (map (retitle t u s) l)
  = map (retitle t u s) (filter (session_is u' s') l).
Proof.
  induction l as [|x l IH]; cbn; [reflexivity|].
  rewrite retitle_session_is. destruct (session_is u' s' x); cbn; rewrite IH; reflexivity.
Qed.

Lemma retitle_other (t : option string) (u : Z) (s : string) (l : list ChatSession) :
  filter (session_is u s) l = [] -> map (retitle t u s) l = l.
Proof.
  intros H. rewrite filter_nil_iff in H.
  induction l as [|x l IH]; cbn; [reflexivity|].
  unfold retitle at 1. rewrite (H x (or_introl eq_refl)).
  rewrite IH; [reflexivity|]. intros y Hy. apply H. right. exact Hy.
Qed.

Lemma existsb_retitle (t : option string) (u u' : Z) (s s' : string) (l : list ChatSession) :
  existsb (session_is u' s') (map (retitle t u s) l) = existsb (session_is u' s') l.
Proof.
  induction l as [|x l IH]; cbn; [reflexivity|].
  rewrite retitle_session_is, IH. reflexivity.
Qed.

(** The sessions of a pair after INSERT OR IGNORE: the row that was
    there, or else the new one. *)
Lemma add_session_selects (now u : Z) (s : string) (t : option string) (d : Database) :
  NoDup (map session_key (chat_sessions d)) ->
  exists row,
    filter (session_is u s) (chat_sessions (add_session now u s t d)) = [row]
    /\ (existsb (session_is u s) (chat_sessions d) = false ->
        row = mkChatSession (chat_sessions_seq d + 1) u s t now).
Proof.
  intros Hnd. unfold add_session.
  destruct (existsb (session_is u s) (chat_sessions d)) eqn:Hex.
  - destruct (unique_session u s _ Hnd) as [Hnil | (row & Hrow)].
    + apply existsb_false_filter in Hnil. congruence.
    + exists row. split; [exact Hrow|discriminate].
  - exists (mkChatSession (chat_sessions_seq d + 1) u s t now). split; [|reflexivity].
    cbn. rewrite filter_app. apply existsb_false_filter in Hex. rewrite Hex. cbn.
    unfold session_is. cbn. rewrite Z.eqb_refl, String.eqb_refl. reflexivity.
Qed.

(** ** The store functions keep the database well formed *)

Lemma well_formed_add_session (now u : Z) (s : string) (t : option string) (d : Database) :
  well_formed d -> u <> 0%Z -> s <> "" -> well_formed (add_session now u s t d).
Proof.
  intros [He Hn Hk Hs Hc] Hu Hs'. unfold add_session.
  destruct (existsb (session_is u s) (chat_sessions d)) eqn:Hex;
    [constructor; assumption|].
  constructor; cbn; try assumption.
  - rewrite map_app. cbn. apply NoDup_app.
    + exact Hk.
    + repeat constructor. intros [].
    + intros k Hin [<-|[]].
      apply existsb_session_key in Hin. unfold session_key in Hin. cbn in Hin. congruence.
  - apply Forall_app. split; [exact Hs|]. repeat constructor; assumption.
  - eapply Forall_impl; [|exact Hc]. cbn. intros c (H1 & H2 & H3).
    repeat split; try assumption. rewrite existsb_app, H3. reflexivity.
Qed.

Lemma well_formed_set_title (t : option string) (u : Z) (s : string) (d : Database) :
  well_formed d -> well_formed (set_title t u s d).
Proof.
  intros [He Hn Hk Hs Hc]. constructor; cbn; try assumption.
  - rewrite retitle_keys. exact Hk.
  - apply Forall_map. eapply Forall_impl; [|exact Hs]. cbn. intros cs H.
    unfold retitle. destruct (session_is u s cs); exact H.
  - eapply Forall_impl; [|exact Hc]. cbn. intros c (H1 & H2 & H3).
    rewrite existsb_retitle. auto.
Qed.

Lemma well_formed_save (t1 t2 u : Z) (s role m : string) (t : option string) (d : Database) :
  well_formed d -> u <> 0%Z -> s <> "" ->
  well_formed (add_session t2 u s t (add_chat t1 u s role m d)).
Proof.
  intros [He Hn Hk Hs Hc] Hu Hs'.
  assert (Hself : session_is u s (mkChatSession (chat_sessions_seq d + 1) u s t t2) = true).
  { unfold session_is. cbn. rewrite Z.eqb_refl, String.eqb_refl. reflexivity. }
  unfold add_session, add_chat. cbn.
  destruct (existsb (session_is u s) (chat_sessions d)) eqn:Hex; constructor; cbn;
    try assumption.
  - apply Forall_app. split; [exact Hc|]. repeat constructor; cbn; assumption.
  - rewrite map_app. cbn. apply NoDup_app.
    + exact Hk.
    + repeat constructor. intros [].
    + intros k Hin [<-|[]].
      apply existsb_session_key in Hin. unfold session_key in Hin. cbn in Hin. congruence.
  - apply Forall_app. split; [exact Hs|]. repeat constructor; assumption.
  - apply Forall_app. split.
    + eapply Forall_impl; [|exact Hc]. cbn. intros c (H1 & H2 & H3).
      repeat split; try assumption. rewrite existsb_app, H3. reflexivity.
    + repeat constructor; cbn; try assumption.
      rewrite existsb_app. cbn. rewrite Hself. apply orb_true_iff. right. reflexivity.
Qed.

Lemma NoDup_map_filter {Row Key : Type} (key : Row -> Key) (keep : Row -> bool)
    (rows : list Row) :
  NoDup (map key rows) -> NoDup (map key (filter keep rows)).
Proof.
  intros Hnd. induction rows as [|x rows IH]; cbn in *; [constructor|].
  inversion Hnd as [|k ks Hnotin Hnd']; subst.
  destruct (keep x); cbn; [constructor|]; auto.
  intros Hin. apply Hnotin. apply in_map_iff in Hin as (y & <- & Hy).
  apply in_map. apply filter_In in Hy. apply Hy.
Qed.

Lemma well_formed_remove (u : Z) (s : string) (d : Database) :
  well_formed d -> well_formed (remove_chat_session u s (remove_chats u s d)).
Proof.
  intros [He Hn Hk Hs Hc]. constructor; cbn; try assumption.
  - apply NoDup_map_filter. exact Hk.
  - apply Forall_forall. intros cs Hin. apply filter_In in Hin as [Hin _].
    exact (proj1 (Forall_forall _ _) Hs cs Hin).
  - apply Forall_forall. intros c Hin. apply filter_In in Hin as [Hin Hother].
    destruct (proj1 (Forall_forall _ _) Hc c Hin) as (H1 & H2 & H3).
    repeat split; try assumption.
    apply existsb_exists in H3 as (cs & Hcs & Hmatch).
    apply existsb_exists. exists cs. split; [|exact Hmatch].
    apply filter_In. split; [exact Hcs|].
    apply session_is_key in Hmatch. unfold session_key in Hmatch.
    injection Hmatch as Hmu Hms.
    unfold chat_in in Hother. unfold session_is. rewrite Hmu, Hms. exact Hother.
Qed.

Lemma taken_false (username email : string) (d : Database) :
  taken username email d = false ->
  ~ In username (map u_username (users d)) /\ ~ In email (map u_email (users d)).
Proof.
  unfold taken. intros H.
  split; intros Hin; apply in_map_iff in Hin as (x & Hx & Hin);
    assert (Hex : existsb (fun u => (u_username u =? username) || (u_email u =? email))
                    (users d) = true)
      by (apply existsb_exists; exists x; split; [exact Hin|];
          rewrite Hx, String.eqb_refl; auto using orb_true_r);
    congruence.
Qed.

Lemma well_formed_add_user (username email password : string) (d : Database) :
  well_formed d -> taken username email d = false ->
  well_formed (add_user username email password d).
Proof.
  intros [He Hn Hk Hs Hc] Htaken. apply taken_false in Htaken as [Hname Hmail].
  constructor; cbn; try assumption; rewrite map_app; cbn; apply NoDup_app;
    try assumption;
    solve [ repeat constructor; intros [] | intros k Hin [<-|[]]; contradiction ].
Qed.

(** What a call can leave on disk, whatever the environment does: the old
    database (a guard returned or a storage call raised before the
    commit), or the result of its statements. *)
Lemma save_message_disk (E : Env) (user_id : option Z) (session_id : option string)
    (role : string) (message : option string) (w : World) :
  disk (snd (save_message E user_id session_id role message w)) = disk w
  \/ exists u s m t1 t2,
       u <> 0%Z /\ s <> ""
       /\ disk (snd (save_message E user_id session_id role message w))
          = add_session t2 u s None (add_chat t1 u s role m (disk w)).
Proof.
  unfold save_message.
  destruct (present_int user_id) as [u|] eqn:Hu;
    [|left; destruct (present_str session_id), (present_str message); reflexivity].
  destruct (present_str session_id) as [s|] eqn:Hs;
    [|left; destruct (present_str message); reflexivity].
  destruct (present_str message) as [m|] eqn:Hm; [|left; reflexivity].
  apply present_int_some in Hu as [_ Hu]. apply present_str_some in Hs as [_ Hs].
  unfold_store; each_call E; try (left; reflexivity).
  right. do 5 eexists. repeat split; eauto.
Qed.

Lemma upsert_session_title_disk (E : Env) (user_id : option Z)
    (session_id title : option string) (w : World) :
  disk (snd (upsert_session_title E user_id session_id title w)) = disk w
  \/ exists u s t1,
       u <> 0%Z /\ s <> ""
       /\ disk (snd (upsert_session_title E user_id session_id title w))
          = set_title (present_str title) u s
              (add_session t1 u s (present_str title) (disk w)).
Proof.
  unfold upsert_session_title.
  destruct (present_int user_id) as [u|] eqn:Hu;
    [|left; destruct (present_str session_id); reflexivity].
  destruct (present_str session_id) as [s|] eqn:Hs; [|left; reflexivity].
  apply present_int_some in Hu as [_ Hu]. apply present_str_some in Hs as [_ Hs].
  unfold_store; each_call E; try (left; reflexivity).
  right. do 3 eexists. repeat split; eauto.
Qed.

(** The invariant: no call of a store function that writes can break
    well-formedness, storage failures included. *)
Lemma save_message_well_formed (E : Env) user_id session_id role message (w : World) :
  well_formed (disk w) ->
  well_formed (disk (snd (save_message E user_id session_id role message w))).
Proof.
  intros Hwf.
  destruct (save_message_disk E user_id session_id role message w)
    as [-> | (u & s & m & t1 & t2 & Hu & Hs & ->)]; [exact Hwf|].
  apply well_formed_save; assumption.
Qed.

Lemma upsert_session_title_well_formed (E : Env) user_id session_id title (w : World) :
  well_formed (disk w) ->
  well_formed (disk (snd (upsert_session_title E user_id session_id title w))).
Proof.
  intros Hwf.
  destruct (upsert_session_title_disk E user_id session_id title w)
    as [-> | (u & s & t1 & Hu & Hs & ->)]; [exact Hwf|].
  apply well_formed_set_title, well_formed_add_session; assumption.
Qed.

Lemma delete_session_well_formed (E : Env) user_id session_id (w : World) :
  well_formed (disk w) ->
  well_formed (disk (snd (delete_session E user_id session_id w))).
Proof.
  intros Hwf.
  destruct (delete_session_disk E user_id session_id w)
    as [-> | (u & s & _ & _ & ->)]; [exact Hwf|].
  apply well_formed_remove. exact Hwf.
Qed.

(** ** Runs without storage failure *)

Lemma save_message_run (E : Env) (u : Z) (s role m : string) (w : World) :
  no_faults E -> u <> 0%Z -> s <> "" -> m <> "" ->
  save_message E (Some u) (Some s) role (Some m) w
  = (Ok tt,
     mkWorld (add_session (clock E (2 + calls w)) u s None
                (add_chat (clock E (1 + calls w)) u s role m (disk w)))
       (open_connections w) (4 + calls w) (uuids w)).
Proof.
  intros HE Hu Hs Hm. unfold save_message.
  rewrite (present_int_nonzero u Hu), !present_str_nonempty by assumption.
  unfold_store. rewrite !HE. reflexivity.
Qed.

Lemma upsert_session_title_run (E : Env) (user_id : option Z)
    (session_id title : option string) (u : Z) (s : string) (w : World) :
  no_faults E ->
  present_int user_id = Some u -> present_str session_id = Some s ->
  upsert_session_title E user_id session_id title w
  = (Ok true,
     mkWorld (set_title (present_str title) u s
                (add_session (clock E (1 + calls w)) u s (present_str title) (disk w)))
       (open_connections w) (4 + calls w) (uuids w)).
Proof.
  intros HE Hu Hs. unfold upsert_session_title. rewrite Hu, Hs.
  unfold_store. rewrite !HE. reflexivity.
Qed.

Lemma get_chat_history_run (E : Env) (u : Z) (s : string) (w : World) :
  no_faults E -> u <> 0%Z -> s <> "" ->
  get_chat_history E (Some u) (Some s) w
  = (Ok (history_rows u s (disk w)),
     mkWorld (disk w) (open_connections w) (2 + calls w) (uuids w)).
Proof.
  intros HE Hu Hs. unfold get_chat_history.
  rewrite (present_int_nonzero u Hu), present_str_nonempty by assumption.
  unfold_store. rewrite !HE. reflexivity.
Qed.

Lemma get_sessions_run (E : Env) (user_id : option Z) (u : Z) (w : World) :
  no_faults E -> present_int user_id = Some u ->
  get_sessions E user_id w
  = (Ok (session_rows u (disk w)),
     mkWorld (disk w) (open_connections w) (2 + calls w) (uuids w)).
Proof.
  intros HE Hu. unfold get_sessions. rewrite Hu.
  unfold_store. rewrite !HE. reflexivity.
Qed.

(** ** C3: [upsert_session_title] *)

(** After INSERT OR IGNORE and UPDATE the pair selects one row, and it
    carries the title; when the pair selected none before, the table has
    gained that row and nothing else changed. *)
Lemma upsert_selects (now u : Z) (s : string) (t : option string) (d : Database) :
  NoDup (map session_key (chat_sessions d)) ->
  let after := chat_sessions (set_title t u s (add_session now u s t d)) in
  (exists row, filter (session_is u s) after = [row] /\ s_title row = t)
  /\ (filter (session_is u s) (chat_sessions d) = [] ->
      after = (chat_sessions d ++ [mkChatSession (chat_sessions_seq d + 1) u s t now])%list).
Proof.
  intros Hnd after. subst after. cbn [set_title chat_sessions]. split.
  - destruct (add_session_selects now u s t d Hnd) as (row & Hrow & _).
    rewrite filter_retitle, Hrow. cbn.
    assert (Hin : In row (filter (session_is u s) (chat_sessions (add_session now u s t d))))
      by (rewrite Hrow; left; reflexivity).
    apply filter_In in Hin as [_ Hmatch].
    exists (retitle t u s row). split; [reflexivity|].
    unfold retitle. rewrite Hmatch. reflexivity.
  - intros Hnone. unfold add_session.
    rewrite (proj2 (existsb_false_filter _ _) Hnone). cbn.
    rewrite map_app, (retitle_other t u s _ Hnone). cbn.
    unfold retitle, session_is. cbn. rewrite Z.eqb_refl, String.eqb_refl. reflexivity.
Qed.

(** What two calls of [upsert_session_title] in a row return and leave,
    in the terms of the guards of the code. *)
Lemma upsert_session_title_twice (E : Env) (w : World) (user_id : option Z)
    (session_id title title' : option string) :
  no_faults E -> well_formed (disk w) ->
  let first := upsert_session_title E user_id session_id title w in
  let second := upsert_session_title E user_id session_id title' (snd first) in
  let rows_of x := filter (session_of user_id session_id) (chat_sessions (disk (snd x))) in
  (fst first = Ok false <-> present_int user_id = None \/ present_str session_id = None)
  /\ (fst first = Ok false \/ fst first = Ok true)
  /\ (fst first = Ok false -> snd first = w)
  /\ (fst first = Ok true ->
      (exists row, rows_of first = [row] /\ s_title row = present_str title)
      /\ (filter (session_of user_id session_id) (chat_sessions (disk w)) = [] ->
          exists row,
            chat_sessions (disk (snd first)) = (chat_sessions (disk w) ++ [row])%list
            /\ Some (s_user_id row) = user_id /\ Some (s_session_id row) = session_id
            /\ s_title row = present_str title)
      /\ fst second = Ok true
      /\ (exists row, rows_of second = [row] /\ s_title row = present_str title')).
Proof.
  intros HE Hwf first second rows_of. subst first second rows_of.
  destruct (present_int user_id) as [u|] eqn:Hu.
  - destruct (present_str session_id) as [s|] eqn:Hs.
    + pose proof (upsert_session_title_well_formed E user_id session_id title w Hwf) as Hwf1.
      rewrite (upsert_session_title_run E _ _ title u s w HE Hu Hs) in *.
      cbn [fst snd] in *.
      rewrite (upsert_session_title_run E _ _ title' u s _ HE Hu Hs).
      cbn [fst snd disk] in *.
      apply present_int_some in Hu as [-> _]. apply present_str_some in Hs as [-> _].
      cbn [session_of].
      split; [split; [discriminate | intros [H|H]; discriminate]|].
      split; [right; reflexivity|]. split; [discriminate|]. intros _.
      destruct (upsert_selects (clock E (1 + calls w)) u s (present_str title) (disk w)
                  (wf_session_keys _ Hwf)) as [Hone Hnew].
      split; [exact Hone|]. split.
      * intros Hnone. rewrite (Hnew Hnone). eexists. split; [reflexivity|]. cbn. auto.
      * split; [reflexivity|].
        apply (upsert_selects _ u s (present_str title') _ (wf_session_keys _ Hwf1)).
    + unfold upsert_session_title. rewrite Hu, Hs. cbn.
      split; [split; auto|]. split; [left; reflexivity|]. split; [reflexivity|]. discriminate.
  - unfold upsert_session_title. rewrite Hu. cbn.
    split; [split; auto|]. split; [left; reflexivity|].
    split; [destruct (present_str session_id); reflexivity|].
    destruct (present_str session_id); discriminate.
Qed.

(** The guards, value by value: an integer is refused when it is [None]
    or 0, a string when it is [None] or empty, and [title or None] is NULL
    for these and the title itself otherwise. *)
Lemma present_int_none (x : option Z) :
  present_int x = None <-> x = None \/ x = Some 0%Z.
Proof.
  destruct x as [n|]; cbn; [|tauto].
  destruct (Z.eqb_spec n 0) as [->|Hn]; split; auto; try discriminate.
  intros [H|[= H]]; [discriminate|contradiction].
Qed.

Lemma present_str_none (x : option string) :
  present_str x = None <-> x = None \/ x = Some "".
Proof.
  destruct x as [s|]; cbn; [|tauto].
  destruct (String.eqb_spec s "") as [->|Hs]; split; auto; try discriminate.
  intros [H|[= H]]; [discriminate|contradiction].
Qed.

Lemma present_str_text (x : option string) (text : string) :
  x = Some text -> text <> "" -> present_str x = Some text.
Proof. intros -> H. apply present_str_nonempty. exact H. Qed.

(** C3: with no storage failure and a well-formed database,
    [upsert_session_title] returns false exactly when user_id is [None] or
    0 or session_id is [None] or the empty string, and then it writes
    nothing; otherwise it returns true.  After a call that returned true
    the pair has exactly one session row, whose title is NULL when the
    title given is [None] or the empty string and is the title given
    otherwise; a pair that had no row has gained one, with that title, at
    the end of the table; and a second call with another title returns
    true and leaves exactly one row again, carrying the second title, NULL
    again for [None] or the empty string. *)
Theorem C3_upsert_session_title (E : Env) (w : World) (user_id : option Z)
    (session_id title title' : option string) :
  no_faults E -> well_formed (disk w) ->
  let first := upsert_session_title E user_id session_id title w in
  let second := upsert_session_title E user_id session_id title' (snd first) in
  let rows_of x := filter (session_of user_id session_id) (chat_sessions (disk (snd x))) in
  (fst first = Ok false
   <-> user_id = None \/ user_id = Some 0%Z \/ session_id = None \/ session_id = Some "")
  /\ (fst first = Ok false \/ fst first = Ok true)
  /\ (fst first = Ok false -> snd first = w)
  /\ (fst first = Ok true ->
      (exists row,
         rows_of first = [row]
         /\ (title = None \/ title = Some "" -> s_title row = None)
         /\ (forall text, title = Some text -> text <> "" -> s_title row = Some text))
      /\ (filter (session_of user_id session_id) (chat_sessions (disk w)) = [] ->
          exists row,
            chat_sessions (disk (snd first)) = (chat_sessions (disk w) ++ [row])%list
            /\ Some (s_user_id row) = user_id /\ Some (s_session_id row) = session_id
            /\ (title = None \/ title = Some "" -> s_title row = None)
            /\ (forall text, title = Some text -> text <> "" -> s_title row = Some text))
      /\ fst second = Ok true
      /\ (exists row,
            rows_of second = [row]
            /\ (title' = None \/ title' = Some "" -> s_title row = None)
            /\ (forall text, title' = Some text -> text <> "" -> s_title row = Some text))).
Proof.
  intros HE Hwf first second rows_of.
  destruct (upsert_session_title_twice E w user_id session_id title title' HE Hwf)
    as (Hfalse & Hbool & Hsame & Htrue).
  fold first second in Hfalse, Hbool, Hsame, Htrue.
  assert (Hstored : forall (t : option string) (row : ChatSession),
            s_title row = present_str t ->
            (t = None \/ t = Some "" -> s_title row = None)
            /\ (forall text, t = Some text -> text <> "" -> s_title row = Some text)).
  { intros t row ->. split.
    - intros H. apply present_str_none. exact H.
    - intros text Ht Htext. apply present_str_text; assumption. }
  split.
  { rewrite Hfalse, present_int_none, present_str_none. tauto. }
  split; [exact Hbool|]. split; [exact Hsame|].
  intros Hok. destruct (Htrue Hok) as ((row & Hrow & Ht) & Hnew & Hsecond & (row2 & Hrow2 & Ht2)).
  split.
  { exists row. split; [exact Hrow|]. apply Hstored. exact Ht. }
  split.
  { intros Hnone. destruct (Hnew Hnone) as (r & Hr & Hu & Hs & Htitle).
    exists r. split; [exact Hr|]. split; [exact Hu|]. split; [exact Hs|].
    apply Hstored. exact Htitle. }
  split; [exact Hsecond|].
  exists row2. split; [exact Hrow2|]. apply Hstored. exact Ht2.
Qed.

(** C3 at the sample database: a session of the first user that does not
    exist yet is created with a title, which a second call, with the empty
    string, replaces by NULL. *)
Lemma C3_upsert_session_title_witness :
  let first := upsert_session_title Demo.env (Some 1%Z) (Some "s9") (Some "Fees") Demo.busy in
  let second := upsert_session_title Demo.env (Some 1%Z) (Some "s9") (Some "") (snd first) in
  let rows_of x :=
    filter (session_of (Some 1%Z) (Some "s9")) (chat_sessions (disk (snd x))) in
  (fst first = Ok false
   <-> Some 1%Z = None \/ Some 1%Z = Some 0%Z \/ Some "s9" = None \/ Some "s9" = Some "")
  /\ (fst first = Ok false \/ fst first = Ok true)
  /\ (fst first = Ok false -> snd first = Demo.busy)
  /\ (fst first = Ok true ->
      (exists row,
         rows_of first = [row]
         /\ (Some "Fees" = None \/ Some "Fees" = Some "" -> s_title row = None)
         /\ (forall text, Some "Fees" = Some text -> text <> "" -> s_title row = Some text))
      /\ (filter (session_of (Some 1%Z) (Some "s9")) (chat_sessions (disk Demo.busy)) = [] ->
          exists row,
            chat_sessions (disk (snd first)) = (chat_sessions (disk Demo.busy) ++ [row])%list
            /\ Some (s_user_id row) = Some 1%Z /\ Some (s_session_id row) = Some "s9"
            /\ (Some "Fees" = None \/ Some "Fees" = Some "" -> s_title row = None)
            /\ (forall text, Some "Fees" = Some text -> text <> "" ->
                  s_title row = Some text))
      /\ fst second = Ok true
      /\ (exists row,
            rows_of second = [row]
            /\ (@Some string "" = None \/ Some "" = Some "" -> s_title row = None)
            /\ (forall text, Some "" = Some text -> text <> "" -> s_title row = Some text))).
Proof.
  exact (C3_upsert_session_title Demo.env Demo.busy (Some 1%Z) (Some "s9") (Some "Fees")
           (Some "") demo_no_faults demo_busy_well_formed).
Defined.

(** ** C1: [save_message] twice on a new session *)

Lemma add_session_chats (now u : Z) (s : string) (t : option string) (d : Database) :
  chats (add_session now u s t d) = chats d
  /\ chats_seq (add_session now u s t d) = chats_seq d.
Proof.
  unfold add_session. destruct (existsb (session_is u s) (chat_sessions d)); auto.
Qed.

Lemma at_most_one_session (u : Z) (s : string) (l : list ChatSession) :
  NoDup (map session_key l) -> (List.length (filter (session_is u s) l) <= 1)%nat.
Proof.
  intros Hnd. destruct (unique_session u s l Hnd) as [-> | (row & ->)]; cbn; lia.
Qed.

(** A pair without a session row has no message either. *)
Lemma no_session_no_chat (u : Z) (s : string) (d : Database) :
  well_formed d ->
  filter (session_is u s) (chat_sessions d) = [] ->
  filter (chat_in u s) (chats d) = [].
Proof.
  intros Hwf Hnone. apply filter_nil_iff. intros c Hin.
  destruct (proj1 (Forall_forall _ _) (wf_chats d Hwf) c Hin) as (_ & _ & Hex).
  destruct (chat_in u s c) eqn:Hc; [|reflexivity].
  unfold chat_in in Hc. apply andb_true_iff in Hc as [Hcu Hcs].
  apply Z.eqb_eq in Hcu. apply String.eqb_eq in Hcs. rewrite Hcu, Hcs in Hex.
  apply existsb_false_filter in Hnone. congruence.
Qed.

(** C1: with no storage failure, in a well-formed database where the pair
    (user_id, session_id) has no session row, two calls of [save_message]
    with a user_id, a session_id and message texts that are not empty both
    return; afterwards the pair has exactly one session row and two
    messages, [get_chat_history] returns the two messages in the order of
    the calls, and no pair has more than one session row, after the first
    call as after the second: the database is still well formed. *)
Theorem C1_save_message_twice (E : Env) (w : World) (u : Z)
    (s role1 m1 role2 m2 : string) :
  no_faults E -> well_formed (disk w) ->
  u <> 0%Z -> s <> "" -> m1 <> "" -> m2 <> "" ->
  filter (session_is u s) (chat_sessions (disk w)) = [] ->
  let first := save_message E (Some u) (Some s) role1 (Some m1) w in
  let second := save_message E (Some u) (Some s) role2 (Some m2) (snd first) in
  let d := disk (snd second) in
  fst first = Ok tt /\ fst second = Ok tt
  /\ List.length (filter (session_is u s) (chat_sessions d)) = 1%nat
  /\ List.length (filter (chat_in u s) (chats d)) = 2%nat
  /\ fst (get_chat_history E (Some u) (Some s) (snd second)) = Ok [(role1, m1); (role2, m2)]
  /\ (forall u' s',
        (List.length (filter (session_is u' s') (chat_sessions (disk (snd first)))) <= 1)%nat
        /\ (List.length (filter (session_is u' s') (chat_sessions d)) <= 1)%nat)
  /\ well_formed d.
Proof.
  intros HE Hwf Hu Hs Hm1 Hm2 Hnone first second d. subst d second first.
  pose proof (save_message_well_formed E (Some u) (Some s) role1 (Some m1) w Hwf) as Hwf1.
  pose proof (save_message_well_formed E (Some u) (Some s) role2 (Some m2) _ Hwf1) as Hwf2.
  pose proof (no_session_no_chat u s _ Hwf Hnone) as Hnochat.
  rewrite (save_message_run E u s role1 m1 w HE Hu Hs Hm1) in *. cbn [fst snd] in *.
  rewrite (save_message_run E u s role2 m2 _ HE Hu Hs Hm2) in *. cbn [fst snd disk] in *.
  rewrite (get_chat_history_run E u s _ HE Hu Hs). cbn [fst snd disk calls].
  set (t1 := clock E (1 + calls w)) in *. set (t2 := clock E (2 + calls w)) in *.
  set (t3 := clock E (1 + (4 + calls w))) in *. set (t4 := clock E (2 + (4 + calls w))) in *.
  set (d1 := add_session t2 u s None (add_chat t1 u s role1 m1 (disk w))) in *.
  set (d2 := add_session t4 u s None (add_chat t3 u s role2 m2 d1)) in *.
  destruct (add_session_selects t4 u s None (add_chat t3 u s role2 m2 d1)
              (wf_session_keys _ Hwf1)) as (row & Hrow & _).
  assert (Hchats : filter (chat_in u s) (chats d2)
                   = [mkChat (chats_seq (disk w) + 1) u s role1 m1 t1;
                      mkChat (chats_seq (disk w) + 1 + 1) u s role2 m2 t3]).
  { subst d2 d1.
    rewrite (proj1 (add_session_chats _ _ _ _ _)). cbn [add_chat chats chats_seq].
    rewrite (proj1 (add_session_chats _ _ _ _ _)), (proj2 (add_session_chats _ _ _ _ _)).
    cbn [add_chat chats chats_seq].
    rewrite !filter_app, Hnochat. cbn.
    unfold chat_in. cbn. rewrite Z.eqb_refl, String.eqb_refl. reflexivity. }
  split; [reflexivity|]. split; [reflexivity|].
  split; [unfold d2; rewrite Hrow; reflexivity|].
  split; [rewrite Hchats; reflexivity|].
  split.
  { unfold history_rows. rewrite Hchats. cbn.
    replace (chats_seq (disk w) + 1 <=? chats_seq (disk w) + 1 + 1)%Z with true
      by (symmetry; apply Z.leb_le; lia).
    reflexivity. }
  split; [|exact Hwf2].
  intros u' s'. split; apply at_most_one_session.
  - apply (wf_session_keys _ Hwf1).
  - apply (wf_session_keys _ Hwf2).
Qed.

(** C1 at the sample database: the first user starts the session "s7". *)
Lemma C1_save_message_twice_witness :
  let first :=
    save_message Demo.env (Some 1%Z) (Some "s7") "user" (Some "Is there a library?")
      Demo.busy in
  let second :=
    save_message Demo.env (Some 1%Z) (Some "s7") "assistant" (Some "Yes, on campus.")
      (snd first) in
  let d := disk (snd second) in
  fst first = Ok tt /\ fst second = Ok tt
  /\ List.length (filter (session_is 1 "s7") (chat_sessions d)) = 1%nat
  /\ List.length (filter (chat_in 1 "s7") (chats d)) = 2%nat
  /\ fst (get_chat_history Demo.env (Some 1%Z) (Some "s7") (snd second))
     = Ok [("user", "Is there a library?"); ("assistant", "Yes, on campus.")]
  /\ (forall u' s',
        (List.length (filter (session_is u' s') (chat_sessions (disk (snd first)))) <= 1)%nat
        /\ (List.length (filter (session_is u' s') (chat_sessions d)) <= 1)%nat)
  /\ well_formed d.
Proof.
  refine (C1_save_message_twice Demo.env Demo.busy 1 "s7" "user" "Is there a library?"
            "assistant" "Yes, on campus." demo_no_faults demo_busy_well_formed
            _ _ _ _ _); try discriminate; reflexivity.
Defined.

(** ** ORDER BY *)

Section OrderBy.

Context {A : Type} (before : A -> A -> bool).
Hypothesis before_total : forall x y, before x y = false -> before y x = true.

Lemma insert_by_perm (x : A) (l : list A) : Permutation (insert_by before x l) (x :: l).
Proof.
  induction l as [|y l IH]; cbn; [reflexivity|].
  destruct (before x y); [reflexivity|].
  rewrite IH. apply perm_swap.
Qed.

Lemma order_by_perm (l : list A) : Permutation (order_by before l) l.
Proof.
  induction l as [|x l IH]; cbn; [reflexivity|].
  rewrite insert_by_perm. constructor. exact IH.
Qed.

Lemma insert_by_sorted (x : A) (l : list A) :
  Sorted (fun a b => before a b = true) l ->
  Sorted (fun a b => before a b = true) (insert_by before x l).
Proof.
  induction l as [|y l IH]; cbn; intros Hs; [repeat constructor|].
  destruct (before x y) eqn:Hxy.
  - constructor; [exact Hs|]. constructor. exact Hxy.
  - inversion Hs as [|? ? Hs' Hhd]; subst.
    constructor; [apply IH; exact Hs'|].
    destruct l as [|z l]; cbn.
    + constructor. apply before_total. exact Hxy.
    + destruct (before x z); constructor.
      * apply before_total. exact Hxy.
      * inversion Hhd; assumption.
Qed.

Lemma order_by_sorted (l : list A) :
  Sorted (fun a b => before a b = true) (order_by before l).
Proof.
  induction l as [|x l IH]; cbn; [constructor|].
  apply insert_by_sorted. exact IH.
Qed.

Lemma insert_by_map {B : Type} (f : B -> A) (x : B) (l : list B) :
  insert_by before (f x) (map f l)
  = map f (insert_by (fun a b => before (f a) (f b)) x l).
Proof.
  induction l as [|y l IH]; cbn; [reflexivity|].
  destruct (before (f x) (f y)); cbn; [reflexivity|]. rewrite IH. reflexivity.
Qed.

Lemma order_by_map {B : Type} (f : B -> A) (l : list B) :
  order_by before (map f l) = map f (order_by (fun a b => before (f a) (f b)) l).
Proof.
  induction l as [|x l IH]; cbn; [reflexivity|].
  change (fold_right (insert_by before) [] (map f l)) with (order_by before (map f l)).
  rewrite IH. apply insert_by_map.
Qed.

End OrderBy.

(** ** C4: [get_sessions] *)

Lemma key_eqb_refl (k : group_key) : key_eqb k k = true.
Proof.
  destruct k as [[s t] c]. unfold key_eqb. cbn.
  rewrite String.eqb_refl, Z.eqb_refl.
  destruct t; cbn; rewrite ?String.eqb_refl; reflexivity.
Qed.

Lemma key_eqb_session (a b : ChatSession) :
  key_eqb (group_of a) (group_of b) = true -> s_session_id a = s_session_id b.
Proof.
  unfold key_eqb, group_of. cbn. intros H.
  apply andb_true_iff in H as [H _]. apply andb_true_iff in H as [H _].
  apply String.eqb_eq. exact H.
Qed.

(** The rows the join makes for one session: at least one, all of that
    session. *)
Lemma join_row_fst (d : Database) (cs : ChatSession) :
  join_row d cs <> [] /\ forall r, In r (join_row d cs) -> fst r = cs.
Proof.
  unfold join_row.
  destruct (filter (chat_in (s_user_id cs) (s_session_id cs)) (chats d)) as [|c ms].
  - split; [discriminate|]. intros r [<-|[]]. reflexivity.
  - split; [discriminate|]. intros r Hin.
    apply in_map_iff in Hin as (x & <- & _). reflexivity.
Qed.

(** WHERE cs.user_id = ? keeps the joined rows of the sessions of the user. *)
Lemma where_left_join (d : Database) (p : ChatSession -> bool) (l : list ChatSession) :
  filter (fun r => p (fst r)) (flat_map (join_row d) l)
  = flat_map (join_row d) (filter p l).
Proof.
  induction l as [|cs l IH]; cbn; [reflexivity|].
  rewrite filter_app, IH.
  destruct (join_row_fst d cs) as [_ Hfst].
  destruct (p cs) eqn:Hp; cbn.
  - f_equal. apply forallb_filter_id. apply forallb_forall. intros r Hr.
    rewrite (Hfst r Hr). exact Hp.
  - replace (filter (fun r => p (fst r)) (join_row d cs)) with (@nil (ChatSession * option Chat));
      [reflexivity|].
    symmetry. apply filter_nil_iff. intros r Hr. rewrite (Hfst r Hr). exact Hp.
Qed.

(** GROUP BY: when the sessions listed have different session ids, the
    groups are the sessions, each with its own joined rows. *)
Lemma distinct_block (k : group_key) (block rest : list group_key) :
  block <> [] -> (forall x, In x block -> x = k) ->
  distinct (block ++ rest) = k :: filter (fun k' => negb (key_eqb k k')) (distinct rest).
Proof.
  induction block as [|x block IH]; [congruence|]. intros _ Hall.
  assert (Hx : x = k) by (apply Hall; left; reflexivity). subst x. cbn.
  destruct block as [|y block]; [reflexivity|].
  rewrite IH; [|discriminate|intros z Hz; apply Hall; right; exact Hz].
  cbn. rewrite key_eqb_refl. cbn. rewrite filter_idem. reflexivity.
Qed.

Lemma groups_of_sessions (d : Database) (l : list ChatSession) :
  NoDup (map s_session_id l) ->
  distinct (map key_of (flat_map (join_row d) l)) = map group_of l.
Proof.
  induction l as [|cs l IH]; cbn; intros Hnd; [reflexivity|].
  inversion Hnd as [|? ? Hnotin Hnd']; subst.
  destruct (join_row_fst d cs) as [Hne Hfst].
  rewrite map_app, (distinct_block (group_of cs)).
  - rewrite (IH Hnd'). f_equal.
    apply forallb_filter_id. apply forallb_forall. intros k Hk.
    apply in_map_iff in Hk as (cs' & <- & Hin).
    destruct (key_eqb (group_of cs) (group_of cs')) eqn:Heq; [|reflexivity].
    apply key_eqb_session in Heq. exfalso. apply Hnotin. rewrite Heq.
    apply in_map. exact Hin.
  - destruct (join_row d cs); [congruence|discriminate].
  - intros k Hk. apply in_map_iff in Hk as (r & <- & Hr).
    unfold key_of. rewrite (Hfst r Hr). reflexivity.
Qed.

Lemma group_rows (d : Database) (cs : ChatSession) (l : list ChatSession) :
  NoDup (map s_session_id l) -> In cs l ->
  filter (fun r => key_eqb (group_of cs) (key_of r)) (flat_map (join_row d) l)
  = join_row d cs.
Proof.
  induction l as [|x l IH]; cbn; intros Hnd Hin; [contradiction|].
  inversion Hnd as [|? ? Hnotin Hnd']; subst.
  rewrite filter_app.
  assert (Hother : forall a b, In b l -> s_session_id a = s_session_id x ->
            filter (fun r => key_eqb (group_of a) (key_of r)) (join_row d b) = []).
  { intros a b Hb Ha. apply filter_nil_iff. intros r Hr.
    unfold key_of. rewrite (proj2 (join_row_fst d b) r Hr).
    destruct (key_eqb (group_of a) (group_of b)) eqn:Heq; [|reflexivity].
    apply key_eqb_session in Heq. exfalso. apply Hnotin. rewrite <- Ha, Heq.
    apply in_map. exact Hb. }
  destruct Hin as [<- | Hin].
  - replace (filter (fun r => key_eqb (group_of x) (key_of r)) (flat_map (join_row d) l))
      with (@nil (ChatSession * option Chat)).
    + rewrite app_nil_r. apply forallb_filter_id. apply forallb_forall. intros r Hr.
      unfold key_of. rewrite (proj2 (join_row_fst d x) r Hr). apply key_eqb_refl.
    + symmetry. apply filter_nil_iff. intros r Hr.
      apply in_flat_map in Hr as (b & Hb & Hr).
      exact (proj1 (filter_nil_iff _ _) (Hother x b Hb eq_refl) r Hr).
  - rewrite (IH Hnd' Hin).
    replace (filter (fun r => key_eqb (group_of cs) (key_of r)) (join_row d x))
      with (@nil (ChatSession * option Chat)); [reflexivity|].
    symmetry. apply filter_nil_iff. intros r Hr.
    unfold key_of. rewrite (proj2 (join_row_fst d x) r Hr).
    destruct (key_eqb (group_of cs) (group_of x)) eqn:Heq; [|reflexivity].
    apply key_eqb_session in Heq. exfalso. apply Hnotin. rewrite <- Heq.
    apply in_map. exact Hin.
Qed.

(** COUNT and MAX over the rows of one session. *)
Lemma count_join (d : Database) (cs : ChatSession) :
  count_id (join_row d cs) = List.length (messages_of d cs).
Proof.
  unfold join_row, messages_of, count_id.
  destruct (filter (chat_in (s_user_id cs) (s_session_id cs)) (chats d)) as [|c ms];
    [reflexivity|].
  rewrite forallb_filter_id; [apply length_map|].
  apply forallb_forall. intros r Hr. apply in_map_iff in Hr as (x & <- & _). reflexivity.
Qed.

Lemma max_step_some (cs : ChatSession) (ms : list Chat) (a : Z) :
  fold_left max_step (map (fun c => (cs, Some c)) ms) (Some a)
  = Some (fold_left Z.max (map c_created_at ms) a).
Proof.
  revert a. induction ms as [|c ms IH]; intros a; cbn; [reflexivity|]. apply IH.
Qed.

Lemma max_join (d : Database) (cs : ChatSession) :
  max_created_at (join_row d cs) = latest (map c_created_at (messages_of d cs)).
Proof.
  unfold join_row, messages_of, max_created_at.
  destruct (filter (chat_in (s_user_id cs) (s_session_id cs)) (chats d)) as [|c ms];
    [reflexivity|].
  cbn. apply max_step_some.
Qed.

Lemma aggregate_summary (d : Database) (cs : ChatSession) (l : list ChatSession) :
  NoDup (map s_session_id l) -> In cs l ->
  aggregate (flat_map (join_row d) l) (group_of cs) = session_summary d cs.
Proof.
  intros Hnd Hin. unfold aggregate, session_summary.
  rewrite (group_rows d cs l Hnd Hin), count_join, max_join. reflexivity.
Qed.

Lemma NoDup_session_ids (u : Z) (l : list ChatSession) :
  NoDup (map session_key l) -> (forall cs, In cs l -> s_user_id cs = u) ->
  NoDup (map s_session_id l).
Proof.
  induction l as [|x l IH]; cbn; intros Hnd Hu; [constructor|].
  inversion Hnd as [|? ? Hnotin Hnd']; subst. constructor.
  - intros Hin. apply Hnotin. apply in_map_iff in Hin as (y & Hy & Hin).
    apply in_map_iff. exists y. split; [|exact Hin].
    unfold session_key. rewrite Hy, (Hu y (or_intror Hin)), (Hu x (or_introl eq_refl)).
    reflexivity.
  - apply IH; [exact Hnd'|]. intros cs Hcs. apply Hu. right. exact Hcs.
Qed.

(** The SELECT of [get_sessions] is the summaries of the sessions of the
    user, put in the order of their keys and then of their last activity. *)
Lemma session_rows_summaries (u : Z) (d : Database) :
  NoDup (map session_key (chat_sessions d)) ->
  session_rows u d
  = order_by (fun a b => (si_last_activity b <=? si_last_activity a)%Z)
      (map (session_summary d)
         (order_by (fun a b => key_leb (group_of a) (group_of b))
            (filter (fun cs => (s_user_id cs =? u)%Z) (chat_sessions d)))).
Proof.
  intros Hnd. unfold session_rows, left_join.
  rewrite (where_left_join d (fun cs => (s_user_id cs =? u)%Z)).
  set (owned := filter (fun cs => (s_user_id cs =? u)%Z) (chat_sessions d)).
  assert (Hids : NoDup (map s_session_id owned)).
  { apply (NoDup_session_ids u).
    - apply NoDup_map_filter. exact Hnd.
    - intros cs Hcs. apply filter_In in Hcs as [_ Hcs]. apply Z.eqb_eq. exact Hcs. }
  rewrite (groups_of_sessions d owned Hids), (order_by_map key_leb group_of), map_map.
  f_equal.
  apply map_ext_in. intros cs Hcs. apply aggregate_summary; [exact Hids|].
  eapply Permutation_in; [apply order_by_perm|exact Hcs].
Qed.

(** One entry per session of the user. *)
Lemma session_rows_perm (u : Z) (d : Database) :
  NoDup (map session_key (chat_sessions d)) ->
  Permutation (session_rows u d)
    (map (session_summary d) (filter (fun cs => (s_user_id cs =? u)%Z) (chat_sessions d))).
Proof.
  intros Hnd. rewrite (session_rows_summaries u d Hnd).
  etransitivity; [apply order_by_perm|]. apply Permutation_map. apply order_by_perm.
Qed.

(** The time of the latest message is the time of one of the messages and
    no message is later. *)
Lemma latest_is_max (times : list Z) (t : Z) :
  latest times = Some t -> In t times /\ forall x, In x times -> (x <= t)%Z.
Proof.
  destruct times as [|a rest]; cbn; [discriminate|]. intros [= <-].
  revert a. induction rest as [|b rest IH]; intros a; cbn.
  - split; [left; reflexivity|]. intros x [<-|[]]. lia.
  - destruct (IH (Z.max a b)) as [Hin Hmax]. split.
    + destruct Hin as [Heq|Hin]; [|right; right; exact Hin].
      destruct (Z.max_spec a b) as [[_ Hm]|[_ Hm]]; rewrite Hm in *;
        [right; left; exact Heq | left; exact Heq].
    + intros x [<-|[<-|Hx]].
      * specialize (Hmax (Z.max a b) (or_introl eq_refl)). lia.
      * specialize (Hmax (Z.max a b) (or_introl eq_refl)). lia.
      * apply Hmax. right. exact Hx.
Qed.

Lemma order_by_last_activity (l : list SessionInfo) :
  StronglySorted more_recent
    (order_by (fun a b => (si_last_activity b <=? si_last_activity a)%Z) l).
Proof.
  set (before := fun a b => (si_last_activity b <=? si_last_activity a)%Z).
  assert (Hsorted : Sorted (fun a b => before a b = true) (order_by before l)).
  { apply order_by_sorted. unfold before. intros x y H.
    apply Z.leb_gt in H. apply Z.leb_le. lia. }
  apply Sorted_StronglySorted in Hsorted.
  - induction Hsorted as [|x r _ IH Hall]; constructor; [exact IH|].
    eapply Forall_impl; [|exact Hall]. unfold before, more_recent. cbn.
    intros y Hy. apply Z.leb_le. exact Hy.
  - unfold before. intros x y z Hxy Hyz.
    apply Z.leb_le in Hxy, Hyz. apply Z.leb_le. lia.
Qed.

Lemma session_rows_sorted (u : Z) (d : Database) :
  NoDup (map session_key (chat_sessions d)) ->
  StronglySorted more_recent (session_rows u d).
Proof.
  intros Hnd. rewrite (session_rows_summaries u d Hnd). apply order_by_last_activity.
Qed.

(** C4: with no storage failure and a well-formed database,
    [get_sessions] returns one entry per session row of the user (the
    entries are the summaries of these rows, in some order), ordered by
    last_activity descending.  An entry carries the session_id and title
    of its row and the number of its messages; a session without messages
    is listed with messages_count 0 and the creation time of the row as
    last_activity; a session with messages has the time of its latest
    message as last_activity. *)
Theorem C4_get_sessions (E : Env) (w : World) (user_id : option Z) :
  no_faults E -> well_formed (disk w) ->
  let d := disk w in
  let owned := filter (owned_by user_id) (chat_sessions d) in
  exists rows,
    fst (get_sessions E user_id w) = Ok rows
    /\ disk (snd (get_sessions E user_id w)) = d
    /\ Permutation rows (map (session_summary d) owned)
    /\ List.length rows = List.length owned
    /\ StronglySorted more_recent rows
    /\ forall cs, In cs owned ->
         let entry := session_summary d cs in
         In entry rows
         /\ si_session_id entry = s_session_id cs
         /\ si_title entry = s_title cs
         /\ si_messages_count entry = List.length (messages_of d cs)
         /\ (messages_of d cs = [] ->
             si_messages_count entry = 0%nat /\ si_last_activity entry = s_created_at cs)
         /\ (messages_of d cs <> [] ->
             In (si_last_activity entry) (map c_created_at (messages_of d cs))
             /\ forall c, In c (messages_of d cs) ->
                  (c_created_at c <= si_last_activity entry)%Z).
Proof.
  intros HE Hwf d owned.
  assert (Hfacts : forall cs,
            let entry := session_summary d cs in
            si_session_id entry = s_session_id cs
            /\ si_title entry = s_title cs
            /\ si_messages_count entry = List.length (messages_of d cs)
            /\ (messages_of d cs = [] ->
                si_messages_count entry = 0%nat /\ si_last_activity entry = s_created_at cs)
            /\ (messages_of d cs <> [] ->
                In (si_last_activity entry) (map c_created_at (messages_of d cs))
                /\ forall c, In c (messages_of d cs) ->
                     (c_created_at c <= si_last_activity entry)%Z)).
  { intros cs. cbn.
    split; [reflexivity|]. split; [reflexivity|]. split; [reflexivity|]. split.
    - intros Hnone. rewrite Hnone. split; reflexivity.
    - intros Hsome.
      destruct (latest (map c_created_at (messages_of d cs))) as [t|] eqn:Ht.
      + destruct (latest_is_max _ _ Ht) as [Hin Hmax]. split; [exact Hin|].
        intros c Hc. apply Hmax. apply in_map. exact Hc.
      + destruct (messages_of d cs); [congruence|discriminate]. }
  destruct (present_int user_id) as [u|] eqn:Hu.
  - rewrite (get_sessions_run E user_id u w HE Hu). cbn [fst snd disk].
    apply present_int_some in Hu as [-> _].
    fold d.
    pose proof (session_rows_perm u d (wf_session_keys _ Hwf)) as Hperm.
    change (filter (fun cs => (s_user_id cs =? u)%Z) (chat_sessions d)) with owned in Hperm.
    eexists. split; [reflexivity|]. split; [reflexivity|]. split; [exact Hperm|].
    split; [rewrite (Permutation_length Hperm); apply length_map|].
    split; [apply session_rows_sorted; exact (wf_session_keys _ Hwf)|].
    intros cs Hcs. split; [|apply Hfacts].
    apply (Permutation_in _ (Permutation_sym Hperm)). apply in_map. exact Hcs.
  - assert (Hnone : owned = []).
    { subst owned. apply filter_nil_iff. intros cs Hcs.
      destruct user_id as [u|]; [|reflexivity]. cbn in *.
      destruct (Z.eqb_spec u 0); [subst u|discriminate].
      destruct (proj1 (Forall_forall _ _) (wf_sessions _ Hwf) cs Hcs) as [Hnz _].
      apply Z.eqb_neq. exact Hnz. }
    unfold get_sessions. rewrite Hu, Hnone. cbn.
    exists []. split; [reflexivity|]. split; [reflexivity|]. split; [constructor|].
    split; [reflexivity|]. split; [constructor|]. intros cs [].
Qed.

(** C4 at the sample database: the first user has a session with two
    messages and a newer one with none; the newer one is listed first. *)
Lemma C4_get_sessions_witness :
  exists rows,
    fst (get_sessions Demo.env (Some 1%Z) Demo.busy) = Ok rows
    /\ rows = [mkSessionInfo "s2" None 0 1700000300;
               mkSessionInfo "s1" (Some "Admission") 2 1700000103].
Proof.
  destruct (C4_get_sessions Demo.env Demo.busy (Some 1%Z) demo_no_faults
              demo_busy_well_formed) as (rows & Hrows & _).
  exists rows. split; [exact Hrows|].
  vm_compute in Hrows. injection Hrows as <-. reflexivity.
Defined.

(** ** The chat endpoint on requests of the documented shape *)

Lemma get_json_silent_object (l : list (string * json)) :
  get_json_silent (Some (JObj l)) = JObj l.
Proof. destruct l; reflexivity. Qed.

Lemma stripped_text (l : list (string * json)) (key : string) (v : option string) :
  lookup key l = option_map JStr v -> stripped (JObj l) key = Ok (normalized v).
Proof.
  intros H. unfold stripped, dict_get, normalized. rewrite H.
  destruct v as [s|]; cbn; [|reflexivity].
  unfold py_or, truthy, Str.truthy.
  destruct (String.eqb_spec s ""); subst; reflexivity.
Qed.

Lemma history_messages_entries (h : list (json * json)) :
  history_messages (map history_entry h) = Ok (map turn h).
Proof.
  induction h as [|e h IH]; cbn; [reflexivity|]. rewrite IH. reflexivity.
Qed.

Section ChatFields.

Variables (message : option string) (history : option (list (json * json)))
  (email session_id : option string).

Let fields : list (string * json) :=
  (field "message" (option_map JStr message)
   ++ field "history" (option_map (fun h => JArr (map history_entry h)) history)
   ++ field "email" (option_map JStr email)
   ++ field "session_id" (option_map JStr session_id))%list.

Lemma chat_fields :
  lookup "message" fields = option_map JStr message
  /\ lookup "history" fields
     = option_map (fun h => JArr (map history_entry h)) history
  /\ lookup "email" fields = option_map JStr email
  /\ lookup "session_id" fields = option_map JStr session_id.
Proof.
  subst fields. destruct message, history, email, session_id; cbn; auto.
Qed.

End ChatFields.

Lemma get_user_id_uuids (E : Env) (email : string) (w : World) :
  uuids (snd (get_user_id E email w)) = uuids w.
Proof.
  unfold get_user_id. destruct (Str.truthy email); cbn; [|reflexivity].
  unfold_store; each_call E; reflexivity.
Qed.

Lemma save_message_uuids (E : Env) user_id session_id role message (w : World) :
  uuids (snd (save_message E user_id session_id role message w)) = uuids w.
Proof.
  unfold save_message.
  destruct (present_int user_id), (present_str session_id), (present_str message);
    try reflexivity.
  unfold_store; each_call E; reflexivity.
Qed.

(** Storing the exchange, once the provider has answered, draws no uuid. *)
Lemma persist_uuids (E : Env) (email sid question answer : string) (w : World) :
  uuids (snd ((if Str.truthy email
               then
                 bind (get_user_id E email)
                   (fun user_id =>
                      match present_int user_id with
                      | Some _ =>
                          bind (save_message E user_id (Some sid) "user" (Some question))
                            (fun _ =>
                               save_message E user_id (Some sid) "assistant" (Some answer))
                      | None => ret tt
                      end)
               else ret tt) w)) = uuids w.
Proof.
  destruct (Str.truthy email); [|reflexivity].
  unfold bind at 1.
  pose proof (get_user_id_uuids E email w) as Hg.
  destruct (get_user_id E email w) as [[user_id|e] w'];
    cbn [snd] in Hg; [|exact Hg].
  destruct (present_int user_id); [|exact Hg].
  unfold bind.
  pose proof (save_message_uuids E user_id (Some sid) "user" (Some question) w') as H1.
  destruct (save_message E user_id (Some sid) "user" (Some question) w')
    as [[[]|e] w'']; cbn [snd] in H1; [|cbn [snd]; congruence].
  rewrite save_message_uuids. congruence.
Qed.

(** What [chat] answers to a request of the documented shape.  A message
    that is empty once stripped is answered at once.  Otherwise the view
    returns a JSON object with an answer and the session of the exchange,
    one [uuid4()] drawn if the request names no session: the stripped
    completion, or, when the provider or the storage raised, the text of
    the exception. *)
Lemma chat_outcome (E : Env) (w : World) (message : option string)
    (history : option (list (json * json))) (email session_id : option string) :
  let request := chat_request message history email session_id in
  (normalized message = "" ->
   chat E request w
   = (Ok (mkResponse 200 (JObj [("answer", JStr "Please enter your question.")])), w))
  /\ (normalized message <> "" ->
      let w1 := mkWorld (disk w) (open_connections w) (calls w)
                  (if normalized session_id =? "" then S (uuids w) else uuids w) in
      exists answer w2,
        chat E request w
        = (Ok (mkResponse 200
                 (JObj [("answer", JStr answer);
                        ("session_id", JStr (session_for E w session_id))])), w2)
        /\ uuids w2 = uuids w1
        /\ (forall e, completion E (prompt E message history) = Raise e ->
              answer = "Error during processing: " ++ text_of e /\ w2 = w1)
        /\ (forall content, completion E (prompt E message history) = Ok content ->
              answer = Str.strip content
              \/ exists e, answer = "Error during processing: " ++ text_of e)).
Proof.
  intros request. subst request.
  destruct (chat_fields message history email session_id) as (Hm & Hh & He & Hs).
  assert (Hchat : forall k : string -> json -> string -> string -> M Response,
            (bind (lift (stripped (JObj
                     (field "message" (option_map JStr message)
                      ++ field "history"
                           (option_map (fun h => JArr (map history_entry h)) history)
                      ++ field "email" (option_map JStr email)
                      ++ field "session_id" (option_map JStr session_id))%list) "message"))
               (fun question =>
                  bind (lift (dict_get (JObj
                     (field "message" (option_map JStr message)
                      ++ field "history"
                           (option_map (fun h => JArr (map history_entry h)) history)
                      ++ field "email" (option_map JStr email)
                      ++ field "session_id" (option_map JStr session_id))%list)
                                "history" (JArr [])))
                    (fun history0 =>
                       bind (lift (stripped (JObj
                     (field "message" (option_map JStr message)
                      ++ field "history"
                           (option_map (fun h => JArr (map history_entry h)) history)
                      ++ field "email" (option_map JStr email)
                      ++ field "session_id" (option_map JStr session_id))%list) "email"))
                         (fun user_email =>
                            bind (lift (stripped (JObj
                     (field "message" (option_map JStr message)
                      ++ field "history"
                           (option_map (fun h => JArr (map history_entry h)) history)
                      ++ field "email" (option_map JStr email)
                      ++ field "session_id" (option_map JStr session_id))%list)
                                          "session_id"))
                              (fun session_id0 =>
                                 k question history0 user_email session_id0))))) w
            = k (normalized message)
                (match history with
                 | Some h => JArr (map history_entry h)
                 | None => JArr []
                 end)
                (normalized email) (normalized session_id) w).
  { intros k. unfold bind, lift, dict_get.
    rewrite (stripped_text _ _ _ Hm), (stripped_text _ _ _ He), (stripped_text _ _ _ Hs), Hh.
    destruct history; reflexivity. }
  unfold chat, chat_request. rewrite get_json_silent_object. cbv zeta.
  rewrite (Hchat (fun question history0 user_email session_id0 => _)).
  clear Hchat.
  destruct (String.eqb_spec (normalized message) "") as [Hq|Hq].
  { rewrite Hq. split; [reflexivity | contradiction]. }
  assert (Htruthy : Str.truthy (normalized message) = true).
  { unfold Str.truthy. destruct (String.eqb_spec (normalized message) "");
      [contradiction|reflexivity]. }
  rewrite Htruthy. cbn [negb].
  split; [intros Hq'; contradiction|]. intros _.
  set (w1 := mkWorld (disk w) (open_connections w) (calls w)
               (if normalized session_id =? "" then S (uuids w) else uuids w)).
  assert (Hitems :
            iterate match history with
                    | Some h => JArr (map history_entry h)
                    | None => JArr []
                    end
            = Ok (map history_entry (match history with Some h => h | None => [] end))).
  { destruct history; reflexivity. }
  unfold session_for, prompt.
  set (sid := if normalized session_id =? "" then uuid4 E (uuids w)
              else normalized session_id).
  assert (Hstart :
            (if negb (Str.truthy (normalized session_id)) then new_uuid E
             else ret (normalized session_id)) w = (Ok sid, w1)).
  { subst sid w1. unfold Str.truthy.
    destruct (normalized session_id =? ""); cbn [negb]; [reflexivity|].
    unfold ret. destruct w; reflexivity. }
  unfold bind at 1. rewrite Hstart.
  unfold bind at 1. unfold lift at 1. rewrite Hitems.
  unfold bind at 1. unfold lift at 1. rewrite history_messages_entries.
  unfold try_except. unfold bind at 1. unfold lift at 1.
  destruct (completion E _) as [content|e] eqn:Hc.
  - unfold bind at 1.
    pose proof (persist_uuids E (normalized email) sid (normalized message)
                  (Str.strip content) w1) as Hu.
    match goal with
    | |- context [match ?p w1 with _ => _ end] => destruct (p w1) as [[[]|e] w2]
    end; cbn [snd] in Hu; unfold jsonify, ret.
    + exists (Str.strip content), w2. split; [reflexivity|]. split; [exact Hu|].
      split; [discriminate|]. intros c [= <-]. left. reflexivity.
    + exists ("Error during processing: " ++ text_of e), w2.
      split; [reflexivity|]. split; [exact Hu|].
      split; [discriminate|]. intros c _. right. exists e. reflexivity.
  - unfold jsonify, ret.
    exists ("Error during processing: " ++ text_of e), w1.
    split; [reflexivity|]. split; [reflexivity|].
    split; [intros e' [= <-]; auto | discriminate].
Qed.

(** ** C7 and C8: the chat endpoint *)

(** C7, as stated, fails: a message of blanks is not empty, and yet the
    view answers with the fixed text, draws no uuid and returns no
    session_id. *)
Lemma C7_blank_message_allocates_nothing :
  ~ chat_allocates_for_nonempty Demo.env Demo.fresh.
Proof.
  intros H. specialize (H "   " None None). cbv zeta in H.
  destruct H as [H _]; [discriminate|]. vm_compute in H. discriminate.
Qed.

(** C7, amended: a request whose message is absent, empty or blank (empty
    once stripped) is answered 200 with the fixed answer and nothing else,
    and the world is unchanged: no uuid is drawn.  A request whose message
    is not blank and whose session_id is absent, empty or blank draws one
    uuid and returns it as session_id, whether the provider answers or
    fails; one that names a session draws none and returns that
    session_id, stripped. *)
Theorem C7_chat_session_allocation (E : Env) (w : World) (message : option string)
    (history : option (list (json * json))) (email session_id : option string) :
  let out := serve (chat E (chat_request message history email session_id)) w in
  (normalized message = "" ->
   fst out = mkResponse 200 (JObj [("answer", JStr "Please enter your question.")])
   /\ response_field (fst out) "session_id" = None
   /\ snd out = w)
  /\ (normalized message <> "" -> normalized session_id = "" ->
      uuids (snd out) = S (uuids w)
      /\ response_field (fst out) "session_id" = Some (JStr (uuid4 E (uuids w))))
  /\ (normalized message <> "" -> normalized session_id <> "" ->
      uuids (snd out) = uuids w
      /\ response_field (fst out) "session_id" = Some (JStr (normalized session_id))).
Proof.
  intros out. subst out. unfold serve.
  destruct (chat_outcome E w message history email session_id) as [Hblank Hasked].
  split; [|split].
  - intros Hq. rewrite (Hblank Hq). cbn. auto.
  - intros Hq Hsid. destruct (Hasked Hq) as (answer & w2 & -> & Hu & _).
    unfold session_for in *. rewrite Hsid in *. cbn in *. auto.
  - intros Hq Hsid. destruct (Hasked Hq) as (answer & w2 & -> & Hu & _).
    unfold session_for in *.
    destruct (String.eqb_spec (normalized session_id) ""); [contradiction|].
    cbn in *. auto.
Qed.









(** Other bodies outside the documented shape that are answered 500: a
    history that is null (the default [[]] only replaces a missing key),
    and a message that is a number. *)
Remark chat_null_history :
  status (fst (serve (chat Demo.env
                        (Some (JObj [("message", JStr "Hello"); ("history", JNull)])))
                 Demo.fresh)) = 500%Z
  /\ status (fst (serve (chat Demo.env (Some (JObj [("message", JNum 5)])))
                    Demo.fresh)) = 500%Z.
Proof. split; reflexivity. Qed.

(** Bodies outside the documented shape that are answered 200 all the
    same: a message that is 0, which [or ""] replaces by the empty string,
    and a blank message beside a null history, which is answered before the
    loop over the history. *)
Remark chat_message_taken_for_false :
  fst (serve (chat Demo.env (Some (JObj [("message", JNum 0)]))) Demo.fresh)
  = mkResponse 200 (JObj [("answer", JStr "Please enter your question.")])
  /\ fst (serve (chat Demo.env
                   (Some (JObj [("message", JStr "  "); ("history", JNull)])))
            Demo.fresh)
     = mkResponse 200 (JObj [("answer", JStr "Please enter your question.")]).
Proof. split; reflexivity. Qed.

(** With the provider down the exchange is answered 200 all the same, the
    failure in the answer and a new session_id beside it. *)
Example chat_provider_down :
  fst (serve (chat Demo.offline (chat_request (Some "Hello") None None None)) Demo.fresh)
  = mkResponse 200
      (JObj [("answer", JStr "Error during processing: No API key provided.");
             ("session_id", JStr "6f1c2a9e-session-A")]).
Proof. reflexivity. Qed.

(** ** C5: login *)

(** Emails are unique, so a pair matches one stored row at most. *)
Lemma at_most_one_match (email digest : string) (l : list User) :
  NoDup (map u_email l) ->
  (List.length (filter (credentials email digest) l) <= 1)%nat.
Proof.
  induction l as [|x l IH]; cbn; intros Hnd; [lia|].
  inversion Hnd as [|k ks Hnotin Hnd']; subst.
  destruct (credentials email digest x) eqn:Hx; [|apply IH; exact Hnd'].
  replace (filter (credentials email digest) l) with (@nil User); [cbn; lia|].
  symmetry. apply filter_nil_iff. intros y Hy.
  destruct (credentials email digest y) eqn:Hcy; [|reflexivity].
  unfold credentials in Hx, Hcy.
  apply andb_true_iff in Hx as [Hx _]. apply andb_true_iff in Hcy as [Hcy _].
  apply String.eqb_eq in Hx, Hcy. exfalso. apply Hnotin. rewrite Hx, <- Hcy.
  apply in_map. exact Hy.
Qed.

(** The run of [login] on {email, password} when no storage call fails. *)
Lemma login_run (E : Env) (w : World) (email password : string) :
  no_faults E ->
  login E (login_request email password) w
  = if negb (Str.truthy (Str.strip email)) || negb (Str.truthy (Str.strip password))
    then (Ok (mkResponse 200 (reply false "Please enter both email and password.")), w)
    else
      (Ok (mkResponse 200
             match matching (disk w) (Str.strip email) (Str.strip password) with
             | _ :: _ => reply true "Login successful."
             | [] => reply false "UserName/Password incorrect."
             end),
       mkWorld (disk w) (open_connections w) (2 + calls w) (uuids w)).
Proof.
  intros HE. unfold login, login_request, get_json.
  unfold bind at 1. unfold ret at 1. cbn [py_or truthy List.length Nat.eqb negb].
  unfold bind at 1. unfold lift at 1.
  rewrite (stripped_text [("email", JStr email); ("password", JStr password)]
             "email" (Some email) eq_refl).
  unfold bind at 1. unfold lift at 1.
  rewrite (stripped_text [("email", JStr email); ("password", JStr password)]
             "password" (Some password) eq_refl).
  unfold normalized.
  destruct (negb (Str.truthy (Str.strip email)) || negb (Str.truthy (Str.strip password)));
    [reflexivity|].
  unfold try_except, select_login, matching. unfold_store. rewrite !HE.
  destruct (filter _ (users (disk w))); reflexivity.
Qed.

(** C5, as stated, fails on both counts.  The handler strips what it is
    sent: with a blank before the email the login succeeds although no
    stored row has that email.  And a failed login is not always answered
    with the same text: an empty password for a known email is answered
    "Please enter both email and password.", a wrong password for an
    unknown email "UserName/Password incorrect.". *)
Lemma C5_login_strips_and_guards :
  ~ login_iff_match Demo.env Demo.busy
  /\ ~ login_same_failure_message Demo.env Demo.busy.
Proof.
  split.
  - intros H. destruct (H " a@x.com" "pw1") as [H1 _].
    assert (Hlen : List.length (matching (disk Demo.busy) " a@x.com" "pw1") = 1%nat)
      by (apply H1; vm_compute; reflexivity).
    vm_compute in Hlen. discriminate.
  - intros H. specialize (H "nobody@x.com" "pw1" "a@x.com" "").
    assert (Heq : message_of (fst (serve (login Demo.env
                                            (login_request "nobody@x.com" "pw1")) Demo.busy))
                  = message_of (fst (serve (login Demo.env (login_request "a@x.com" ""))
                                       Demo.busy))).
    { apply H.
      - unfold known_email. cbn. intros [Ha|[Hb|[]]]; discriminate.
      - unfold known_email. cbn. left. reflexivity.
      - vm_compute. reflexivity. }
    vm_compute in Heq. discriminate.
Qed.

(** C5, amended: with no storage failure and a well-formed store, login
    succeeds if and only if the email and the password are not empty once
    stripped and exactly one stored row matches the stripped email and the
    hex SHA-256 digest of the stripped password; whenever both are not
    empty and the login fails, the message is "UserName/Password
    incorrect.", be the email unknown or the password wrong; an empty email
    or password is answered "Please enter both email and password.".  The
    response has status 200 and the store is unchanged. *)
Theorem C5_login (E : Env) (w : World) (email password : string) :
  no_faults E -> well_formed (disk w) ->
  let e := Str.strip email in
  let p := Str.strip password in
  let out := serve (login E (login_request email password)) w in
  status (fst out) = 200%Z
  /\ disk (snd out) = disk w
  /\ (succeeded (fst out) = true
      <-> e <> "" /\ p <> "" /\ List.length (matching (disk w) e p) = 1%nat)
  /\ (e <> "" -> p <> "" -> succeeded (fst out) = false ->
      message_of (fst out) = "UserName/Password incorrect.")
  /\ (e = "" \/ p = "" ->
      succeeded (fst out) = false
      /\ message_of (fst out) = "Please enter both email and password.").
Proof.
  intros HE Hwf e p out. subst out. unfold serve.
  rewrite (login_run E w email password HE). fold e p.
  pose proof (at_most_one_match e (hash_password p) _ (wf_emails _ Hwf)) as Hone.
  fold (matching (disk w) e p) in Hone.
  destruct (Str.truthy e) eqn:He; cbn [negb orb].
  - destruct (Str.truthy p) eqn:Hp; cbn [negb orb].
    + apply truthy_nonempty in He, Hp.
      destruct (matching (disk w) e p) as [|u [|u' l]] eqn:Hm; cbn in *.
      * split; [reflexivity|]. split; [reflexivity|].
        split; [split; [discriminate | intros (_ & _ & H); discriminate]|].
        split; [reflexivity|]. intros [H|H]; contradiction.
      * split; [reflexivity|]. split; [reflexivity|].
        split; [split; auto|]. split; [discriminate|]. intros [H|H]; contradiction.
      * lia.
    + apply truthy_empty in Hp. cbn.
      split; [reflexivity|]. split; [reflexivity|].
      split; [split; [discriminate | intros (_ & H & _); contradiction]|].
      split; [intros _ H; contradiction|]. auto.
  - apply truthy_empty in He. cbn.
    split; [reflexivity|]. split; [reflexivity|].
    split; [split; [discriminate | intros (H & _); contradiction]|].
    split; [intros H; contradiction|]. auto.
Qed.

(** C5 at the sample store: the first user logs in, blanks around the
    email and the password. *)
Lemma C5_login_witness :
  let e := Str.strip " a@x.com" in
  let p := Str.strip "pw1 " in
  let out := serve (login Demo.env (login_request " a@x.com" "pw1 ")) Demo.busy in
  status (fst out) = 200%Z
  /\ disk (snd out) = disk Demo.busy
  /\ (succeeded (fst out) = true
      <-> e <> "" /\ p <> "" /\ List.length (matching (disk Demo.busy) e p) = 1%nat)
  /\ (e <> "" -> p <> "" -> succeeded (fst out) = false ->
      message_of (fst out) = "UserName/Password incorrect.")
  /\ (e = "" \/ p = "" ->
      succeeded (fst out) = false
      /\ message_of (fst out) = "Please enter both email and password.").
Proof.
  exact (C5_login Demo.env Demo.busy " a@x.com" "pw1 " demo_no_faults
           demo_busy_well_formed).
Defined.

(** ** Stripping twice *)

Module StrFacts.

Import Str.

Lemma by_length (P : list N -> Prop) :
  (forall l, (forall l', (List.length l' < List.length l)%nat -> P l') -> P l) ->
  forall l, P l.
Proof.
  intros step l.
  assert (H : forall n l', (List.length l' < n)%nat -> P l').
  { induction n as [|n IH]; intros l' Hlen; [lia|].
    apply step. intros l'' Hlt. apply IH. lia. }
  apply (H (S (List.length l))). lia.
Qed.

(** What is dropped is the front of the sequence. *)
Lemma drop_space_suffix (back : bool) (l : list N) :
  exists front, l = (front ++ drop_space back l)%list.
Proof.
  induction l as [l IH] using by_length.
  destruct l as [|a t]; [exists []; reflexivity|]. cbn [drop_space].
  destruct (space1 a).
  { destruct (IH t) as [f Hf]; [cbn; lia|]. exists (a :: f). cbn. congruence. }
  destruct t as [|b t1]; [exists []; reflexivity|].
  destruct (if back then space2 b a else space2 a b).
  { destruct (IH t1) as [f Hf]; [cbn; lia|]. exists (a :: b :: f). cbn. congruence. }
  destruct t1 as [|c t2]; [exists []; reflexivity|].
  destruct (if back then space3 c b a else space3 a b c).
  { destruct (IH t2) as [f Hf]; [cbn; lia|]. exists (a :: b :: c :: f). cbn. congruence. }
  exists []. reflexivity.
Qed.

Lemma drop_space_length (back : bool) (l : list N) :
  (List.length (drop_space back l) <= List.length l)%nat.
Proof.
  destruct (drop_space_suffix back l) as [f Hf].
  rewrite Hf at 2. rewrite length_app. lia.
Qed.

Lemma starts_clean_fixed (back : bool) (l : list N) :
  starts_clean back l <-> drop_space back l = l.
Proof.
  split.
  - destruct l as [|a [|b [|c t2]]]; cbn; intros H; try reflexivity.
    + destruct H as [-> _]. reflexivity.
    + destruct H as (-> & -> & _). reflexivity.
    + destruct H as (-> & -> & ->). reflexivity.
  - intros H.
    assert (Hshort : forall t, (List.length t < List.length l)%nat ->
                       drop_space back t <> l).
    { intros t Ht Heq. pose proof (drop_space_length back t) as Hle.
      rewrite Heq in Hle. lia. }
    destruct l as [|a t]; [exact I|]. cbn [drop_space starts_clean] in *.
    destruct (space1 a); [exfalso; apply (Hshort t); [cbn; lia|exact H]|].
    split; [reflexivity|].
    destruct t as [|b t1]; [exact I|].
    destruct (if back then space2 b a else space2 a b);
      [exfalso; apply (Hshort t1); [cbn; lia|exact H]|].
    split; [reflexivity|].
    destruct t1 as [|c t2]; [exact I|].
    destruct (if back then space3 c b a else space3 a b c);
      [exfalso; apply (Hshort t2); [cbn; lia|exact H]|].
    reflexivity.
Qed.

Lemma drop_space_clean (back : bool) (l : list N) :
  starts_clean back (drop_space back l).
Proof.
  induction l as [l IH] using by_length.
  destruct l as [|a t]; [exact I|]. cbn [drop_space].
  destruct (space1 a) eqn:Ha; [apply IH; cbn; lia|].
  destruct t as [|b t1]; [cbn; auto|].
  destruct (if back then space2 b a else space2 a b) eqn:Hb; [apply IH; cbn; lia|].
  destruct t1 as [|c t2]; [cbn; auto|].
  destruct (if back then space3 c b a else space3 a b c) eqn:Hc; [apply IH; cbn; lia|].
  cbn. auto.
Qed.

(** A clean start stays clean when the end of the sequence is cut. *)
Lemma starts_clean_prefix (back : bool) (l rest : list N) :
  starts_clean back (l ++ rest) -> starts_clean back l.
Proof.
  destruct l as [|a [|b [|c t2]]]; cbn; try tauto; destruct rest; tauto.
Qed.

Lemma bytes_of_bytes (l : list N) :
  Forall (fun n => (n < 256)%N) l -> bytes (of_bytes l) = l.
Proof.
  intros H. unfold bytes, of_bytes.
  rewrite list_ascii_of_string_of_list_ascii, map_map.
  induction H as [|n l Hn _ IH]; cbn; [reflexivity|].
  rewrite N_ascii_embedding by exact Hn. congruence.
Qed.

Lemma bytes_bounded (s : string) : Forall (fun n => (n < 256)%N) (bytes s).
Proof.
  unfold bytes. apply Forall_map. apply Forall_forall. intros a _.
  apply N_ascii_bounded.
Qed.

Lemma drop_space_bounded (back : bool) (l : list N) :
  Forall (fun n => (n < 256)%N) l -> Forall (fun n => (n < 256)%N) (drop_space back l).
Proof.
  intros H. destruct (drop_space_suffix back l) as [f Hf].
  rewrite Hf in H. apply Forall_app in H. apply H.
Qed.

(** [s.strip().strip()] is [s.strip()]. *)
Lemma strip_idempotent (s : string) : strip (strip s) = strip s.
Proof.
  unfold strip at 1.
  set (front := drop_space false (bytes s)).
  set (kept := rev (drop_space true (rev front))).
  assert (Hstrip : strip s = of_bytes kept) by reflexivity.
  assert (Hbytes : bytes (strip s) = kept).
  { rewrite Hstrip. apply bytes_of_bytes. subst kept front.
    apply Forall_rev, drop_space_bounded, Forall_rev, drop_space_bounded, bytes_bounded. }
  rewrite Hbytes, Hstrip.
  assert (Hfront : drop_space false kept = kept).
  { apply starts_clean_fixed.
    destruct (drop_space_suffix true (rev front)) as [f Hf].
    apply (starts_clean_prefix false kept (rev f)).
    replace (kept ++ rev f)%list with front; [apply drop_space_clean|].
    subst kept. rewrite <- rev_app_distr, <- Hf, rev_involutive. reflexivity. }
  rewrite Hfront.
  assert (Hback : drop_space true (rev kept) = rev kept).
  { subst kept. rewrite rev_involutive.
    apply starts_clean_fixed, drop_space_clean. }
  rewrite Hback, rev_involutive. reflexivity.
Qed.

End StrFacts.

(** ** C6: register *)

Lemma hash_password_length (password : string) :
  String.length (hash_password password) = 64%nat.
Proof. reflexivity. Qed.

Lemma taken_iff (username email : string) (d : Database) :
  taken username email d = true
  <-> In username (map u_username (users d)) \/ In email (map u_email (users d)).
Proof.
  unfold taken. rewrite existsb_exists. split.
  - intros (x & Hx & H). apply orb_true_iff in H as [H|H]; apply String.eqb_eq in H.
    + left. rewrite <- H. apply in_map. exact Hx.
    + right. rewrite <- H. apply in_map. exact Hx.
  - intros [H|H]; apply in_map_iff in H as (x & <- & Hx); exists x;
      (split; [exact Hx|]); rewrite String.eqb_refl; auto using orb_true_r.
Qed.

Lemma taken_add_user (username email password username' email' : string) (d : Database) :
  username' = username \/ email' = email ->
  taken username' email' (add_user username email password d) = true.
Proof.
  intros H. apply taken_iff. cbn. rewrite !map_app, !in_app_iff. cbn.
  destruct H as [->| ->]; auto.
Qed.

(** What [register] answers to {username, email, password}, in every
    environment: status 200 always; success only when the three fields are
    not empty once stripped, the names are free and no storage call failed,
    and then the store has gained the stripped names with the digest of
    the stripped password; otherwise the store is unchanged. *)
Lemma register_outcome (E : Env) (w : World) (username email password : string) :
  let u := Str.strip username in
  let e := Str.strip email in
  let p := Str.strip password in
  exists r w',
    register E (register_request username email password) w = (Ok r, w')
    /\ status r = 200%Z
    /\ ((succeeded r = true
         /\ u <> "" /\ e <> "" /\ p <> "" /\ taken u e (disk w) = false
         /\ disk w' = add_user u e (hash_password p) (disk w))
        \/ (succeeded r = false /\ disk w' = disk w))
    /\ (u = "" \/ e = "" \/ p = "" -> w' = w).
Proof.
  intros u e p.
  unfold register, register_request, get_json.
  unfold bind at 1. unfold ret at 1. cbn [py_or truthy List.length Nat.eqb negb].
  unfold bind at 1. unfold lift at 1.
  rewrite (stripped_text [("username", JStr username); ("email", JStr email);
                          ("password", JStr password)] "username" (Some username) eq_refl).
  unfold bind at 1. unfold lift at 1.
  rewrite (stripped_text [("username", JStr username); ("email", JStr email);
                          ("password", JStr password)] "email" (Some email) eq_refl).
  unfold bind at 1. unfold lift at 1.
  rewrite (stripped_text [("username", JStr username); ("email", JStr email);
                          ("password", JStr password)] "password" (Some password) eq_refl).
  unfold normalized. fold u e p.
  destruct (Str.truthy u) eqn:Hu; cbn [negb orb].
  2:{ apply truthy_empty in Hu. do 2 eexists. split; [reflexivity|].
      split; [reflexivity|]. split; [right; split; reflexivity|]. reflexivity. }
  destruct (Str.truthy e) eqn:He; cbn [negb orb].
  2:{ apply truthy_empty in He. do 2 eexists. split; [reflexivity|].
      split; [reflexivity|]. split; [right; split; reflexivity|]. reflexivity. }
  destruct (Str.truthy p) eqn:Hp; cbn [negb orb].
  2:{ apply truthy_empty in Hp. do 2 eexists. split; [reflexivity|].
      split; [reflexivity|]. split; [right; split; reflexivity|]. reflexivity. }
  apply truthy_nonempty in Hu, He, Hp.
  assert (Hnot : u = "" \/ e = "" \/ p = "" -> False) by (intros [H|[H|H]]; contradiction).
  unfold try_except, insert_user. unfold_store.
  destruct (fault E (calls w)) as [x|] eqn:F0; cbn.
  { destruct (class_of x); do 2 eexists; (split; [reflexivity|]); cbn;
      (split; [reflexivity|]); (split; [right; split; reflexivity|]);
      intros H; destruct (Hnot H). }
  destruct (fault E (S (calls w))) as [x|] eqn:F1; cbn.
  { destruct (class_of x); do 2 eexists; (split; [reflexivity|]); cbn;
      (split; [reflexivity|]); (split; [right; split; reflexivity|]);
      intros H; destruct (Hnot H). }
  destruct (taken u e (disk w)) eqn:Htaken; cbn.
  { do 2 eexists. split; [reflexivity|]. cbn. split; [reflexivity|].
    split; [right; split; reflexivity|]. intros H; destruct (Hnot H). }
  destruct (fault E (S (S (calls w)))) as [x|] eqn:F2; cbn.
  { destruct (class_of x); do 2 eexists; (split; [reflexivity|]); cbn;
      (split; [reflexivity|]); (split; [right; split; reflexivity|]);
      intros H; destruct (Hnot H). }
  do 2 eexists. split; [reflexivity|]. cbn. split; [reflexivity|].
  split; [left; auto 10|]. intros H; destruct (Hnot H).
Qed.

Lemma register_well_formed (E : Env) (w : World) (username email password : string) :
  well_formed (disk w) ->
  well_formed (disk (snd (serve (register E (register_request username email password)) w))).
Proof.
  intros Hwf. unfold serve.
  destruct (register_outcome E w username email password)
    as (r & w' & -> & _ & [(_ & _ & _ & _ & Hfree & Hdisk)|[_ Hdisk]] & _);
    cbn [snd]; rewrite Hdisk.
  - apply well_formed_add_user; assumption.
  - exact Hwf.
Qed.

(** C6, as stated, fails: the password is stripped before it is hashed, so
    for a password sent with a blank in front the digest stored is not the
    digest of the password sent. *)
Lemma C6_register_hashes_stripped_password :
  ~ register_stores_digest Demo.env Demo.busy.
Proof.
  intros H. specialize (H "carol" "c@x.com" " pw3"). cbv zeta in H.
  destruct H as (row & Hin & _ & Hpw); [vm_compute; reflexivity|].
  vm_compute in Hin.
  destruct Hin as [<-|[<-|[<-|[]]]]; vm_compute in Hpw; discriminate.
Qed.

(** C6, amended: register answers with status 200 and success=false when
    any of the three fields is empty (as sent, or once stripped) or when
    the stripped username or the stripped email is already stored (so, the
    stored names being stripped, when the username or the email as sent is
    already stored), and then the store is unchanged; on success the store
    has gained one row with the stripped username, the stripped email and,
    as password, the hex SHA-256 digest of the stripped password, 64
    hexadecimal characters and so not a plaintext of another length; after
    a success any registration with the same email, or with the same
    username and another email, fails, whatever the environment does. *)
Theorem C6_register (E : Env) (w : World) (username email password : string) :
  let u := Str.strip username in
  let e := Str.strip email in
  let p := Str.strip password in
  let out := serve (register E (register_request username email password)) w in
  status (fst out) = 200%Z
  /\ (username = "" \/ email = "" \/ password = "" \/ u = "" \/ e = "" \/ p = "" ->
      succeeded (fst out) = false /\ snd out = w)
  /\ (In u (map u_username (users (disk w))) \/ In e (map u_email (users (disk w))) ->
      succeeded (fst out) = false /\ disk (snd out) = disk w)
  /\ (names_stripped (disk w) ->
      names_stripped (disk (snd out))
      /\ (In username (map u_username (users (disk w)))
          \/ In email (map u_email (users (disk w))) ->
          succeeded (fst out) = false /\ disk (snd out) = disk w))
  /\ (succeeded (fst out) = false -> disk (snd out) = disk w)
  /\ (succeeded (fst out) = true ->
      disk (snd out) = add_user u e (hash_password p) (disk w)
      /\ String.length (hash_password p) = 64%nat
      /\ (String.length p <> 64%nat -> hash_password p <> p)
      /\ forall E' username' email' password',
           Str.strip email' = e \/ Str.strip username' = u ->
           succeeded (fst (serve (register E' (register_request username' email' password'))
                             (snd out))) = false).
Proof.
  intros u e p out. subst out. unfold serve.
  destruct (register_outcome E w username email password)
    as (r & w' & -> & Hstatus & Hcases & Hempty).
  fold u e p in Hcases, Hempty. cbn [fst snd].
  split; [exact Hstatus|].
  split.
  { intros Hblank.
    assert (Hstripped : u = "" \/ e = "" \/ p = "").
    { subst u e p.
      destruct Hblank as [->|[->|[->|H]]]; auto using strip_empty. }
    split; [|apply Hempty; exact Hstripped].
    destruct Hcases as [(_ & Hu & He & Hp & _)|[Hfalse _]]; [|exact Hfalse].
    destruct Hstripped as [H|[H|H]]; contradiction. }
  split.
  { intros Hexists. apply taken_iff in Hexists.
    destruct Hcases as [(_ & _ & _ & _ & Hfree & _)|Hfalse]; [congruence|exact Hfalse]. }
  split.
  { intros Hnames. split.
    - destruct Hcases as [(_ & _ & _ & _ & _ & ->)|[_ ->]]; [|exact Hnames].
      unfold names_stripped, add_user. cbn. apply Forall_app. split; [exact Hnames|].
      repeat constructor; cbn; apply StrFacts.strip_idempotent.
    - intros Hexists.
      assert (Hstored : In u (map u_username (users (disk w)))
                        \/ In e (map u_email (users (disk w)))).
      { subst u e.
        destruct Hexists as [H|H]; [left|right];
          apply in_map_iff in H as (row & Hrow & Hin);
          destruct (proj1 (Forall_forall _ _) Hnames row Hin) as [Hname Hmail];
          rewrite <- Hrow; [rewrite Hname|rewrite Hmail]; apply in_map; exact Hin. }
      apply taken_iff in Hstored.
      destruct Hcases as [(_ & _ & _ & _ & Hfree & _)|Hfalse]; [congruence|exact Hfalse]. }
  split.
  { intros Hfalse.
    destruct Hcases as [(Htrue & _)|[_ Hdisk]]; [congruence|exact Hdisk]. }
  intros Htrue.
  destruct Hcases as [(_ & _ & _ & _ & _ & Hdisk)|[Hfalse _]]; [|congruence].
  split; [exact Hdisk|]. split; [apply hash_password_length|].
  split.
  { intros Hlen Heq. apply Hlen. rewrite <- Heq at 1. apply hash_password_length. }
  intros E' username' email' password' Hsame.
  destruct (register_outcome E' w' username' email' password')
    as (r' & w'' & -> & _ & Hcases' & _). cbn [fst].
  destruct Hcases' as [(_ & _ & _ & _ & Hfree & _)|[Hfalse _]]; [|exact Hfalse].
  rewrite Hdisk in Hfree.
  rewrite taken_add_user in Hfree; [discriminate|].
  destruct Hsame as [H|H]; auto.
Qed.

(** The example of the specification, end to end: register, log in, and
    fail to log in with another password. *)
Example register_then_login :
  let registered :=
    serve (register Demo.env (register_request "alice" "a@x.com" "pw1")) Demo.fresh in
  succeeded (fst registered) = true
  /\ succeeded (fst (serve (login Demo.env (login_request "a@x.com" "pw1"))
                       (snd registered))) = true
  /\ succeeded (fst (serve (login Demo.env (login_request "a@x.com" "wrong"))
                       (snd registered))) = false
  /\ succeeded (fst (serve (register Demo.env (register_request "alice2" "a@x.com" "pw2"))
                       (snd registered))) = false.
Proof. vm_compute. auto. Qed.

(** * Further properties of the store and of the endpoints *)

(** ** Guards, exceptions and frames of the store functions *)

(** What a call of [save_message] leaves behind, by outcome. *)
Lemma save_message_outcome (E : Env) (w : World) (user_id : option Z)
    (session_id : option string) (role : string) (message : option string) :
  match save_message E user_id session_id role message w with
  | (Raise _, w') => disk w' = disk w
  | (Ok _, w') =>
      w' = w
      \/ exists u s m t1 t2,
           present_int user_id = Some u /\ present_str session_id = Some s
           /\ present_str message = Some m
           /\ disk w' = add_session t2 u s None (add_chat t1 u s role m (disk w))
  end.
Proof.
  unfold save_message.
  destruct (present_int user_id) as [u|];
    [|destruct (present_str session_id), (present_str message); left; reflexivity].
  destruct (present_str session_id) as [s|];
    [|destruct (present_str message); left; reflexivity].
  destruct (present_str message) as [m|]; [|left; reflexivity].
  unfold_store; each_call E; try reflexivity.
  right. do 5 eexists. repeat (split; [reflexivity|]). reflexivity.
Qed.

(** X2: the writes of a store function reach the file in one commit, so a
    call that raises has stored nothing, whichever storage call failed;
    a call of [save_message] that returns has done nothing at all (the
    guard) or has stored, for a user id that is not 0 and a session id and
    a message that are not empty, the message at the end of its table
    together with its session row, the AUTOINCREMENT sequences of both
    tables moved on by one, that of the sessions also when the row was
    there and the INSERT OR IGNORE is ignored. *)
Theorem X2_raise_stores_nothing (E : Env) (w : World) :
  (forall user_id session_id role message,
      match save_message E user_id session_id role message w with
      | (Raise _, w') => disk w' = disk w
      | (Ok _, w') =>
          w' = w
          \/ exists u s m t1 t2,
               user_id = Some u /\ u <> 0%Z
               /\ session_id = Some s /\ s <> ""
               /\ message = Some m /\ m <> ""
               /\ disk w' = add_session t2 u s None (add_chat t1 u s role m (disk w))
               /\ chats (disk w')
                  = (chats (disk w) ++ [mkChat (chats_seq (disk w) + 1) u s role m t1])%list
               /\ chats_seq (disk w') = (chats_seq (disk w) + 1)%Z
               /\ chat_sessions_seq (disk w') = (chat_sessions_seq (disk w) + 1)%Z
      end)
  /\ (forall user_id session_id title e w',
        upsert_session_title E user_id session_id title w = (Raise e, w') ->
        disk w' = disk w)
  /\ (forall user_id session_id e w',
        delete_session E user_id session_id w = (Raise e, w') -> disk w' = disk w).
Proof.
  split; [|split].
  - intros user_id session_id role message.
    pose proof (save_message_outcome E w user_id session_id role message) as H.
    destruct (save_message E user_id session_id role message w) as [[[]|e] w'];
      [|exact H].
    destruct H as [H|(u & s & m & t1 & t2 & Hu & Hs & Hm & Hdisk)]; [left; exact H|].
    right. exists u, s, m, t1, t2.
    apply present_int_some in Hu as [Hu Hu0]. apply present_str_some in Hs as [Hs Hs0].
    apply present_str_some in Hm as [Hm Hm0].
    repeat (split; [assumption|]).
    rewrite Hdisk. unfold add_session.
    destruct (existsb _ _); cbn; repeat split.
  - intros user_id session_id title e w'. unfold upsert_session_title.
    destruct (present_int user_id) as [u|];
      [|destruct (present_str session_id); discriminate].
    destruct (present_str session_id) as [s|]; [|discriminate].
    unfold_store; each_call E; intros [= _ <-]; reflexivity.
  - intros user_id session_id e w'. unfold delete_session.
    destruct (present_int user_id) as [u|];
      [|destruct (present_str session_id); discriminate].
    destruct (present_str session_id) as [s|]; [|discriminate].
    unfold_store; each_call E; intros [= _ <-]; reflexivity.
Qed.

(** X3: [save_message] only appends.  Whatever the environment does, the
    users are untouched, the messages are the old ones followed by at most
    one new message, and the sessions are the old rows, unchanged, followed
    by at most one new row without title: the title and the creation time
    of a session that exists are never overwritten. *)
Theorem X3_save_message_appends (E : Env) (w : World) (user_id : option Z)
    (session_id : option string) (role : string) (message : option string) :
  let d := disk w in
  let d' := disk (snd (save_message E user_id session_id role message w)) in
  users d' = users d
  /\ (exists new, chats d' = (chats d ++ new)%list /\ (List.length new <= 1)%nat
                  /\ Forall (fun c => Some (c_user_id c) = user_id
                                      /\ Some (c_session_id c) = session_id
                                      /\ c_role c = role
                                      /\ Some (c_message c) = message) new)
  /\ (exists new, chat_sessions d' = (chat_sessions d ++ new)%list
                  /\ (List.length new <= 1)%nat
                  /\ Forall (fun cs => Some (s_user_id cs) = user_id
                                       /\ Some (s_session_id cs) = session_id
                                       /\ s_title cs = None) new).
Proof.
  intros d d'. subst d d'.
  pose proof (save_message_outcome E w user_id session_id role message) as Hsave.
  destruct (save_message E user_id session_id role message w) as [[[]|e] w'];
    cbn [snd].
  - destruct Hsave as [->|(u & s & m & t1 & t2 & Hu & Hs & Hm & ->)].
    + split; [reflexivity|].
      split; exists []; rewrite app_nil_r; repeat split; auto.
    + apply present_int_some in Hu as [-> _].
      apply present_str_some in Hs as [-> _]. apply present_str_some in Hm as [-> _].
      unfold add_session, add_chat. cbn.
      destruct (existsb (session_is u s) (chat_sessions (disk w))); cbn.
      * split; [reflexivity|]. split.
        -- eexists. split; [reflexivity|]. split; [cbn; lia|].
           repeat constructor.
        -- exists []. rewrite app_nil_r. repeat split; auto.
      * split; [reflexivity|]. split.
        -- eexists. split; [reflexivity|]. split; [cbn; lia|].
           repeat constructor.
        -- eexists. split; [reflexivity|]. split; [cbn; lia|].
           repeat constructor.
  - rewrite Hsave. split; [reflexivity|].
    split; exists []; rewrite app_nil_r; repeat split; auto.
Qed.

(** What a call of [upsert_session_title] leaves on disk, by arguments. *)
Lemma upsert_session_title_outcome (E : Env) (w : World) (user_id : option Z)
    (session_id title : option string) :
  disk (snd (upsert_session_title E user_id session_id title w)) = disk w
  \/ exists u s t1,
       user_id = Some u /\ session_id = Some s
       /\ disk (snd (upsert_session_title E user_id session_id title w))
          = set_title (present_str title) u s
              (add_session t1 u s (present_str title) (disk w)).
Proof.
  unfold upsert_session_title.
  destruct (present_int user_id) as [u|] eqn:Hu;
    [|left; destruct (present_str session_id); reflexivity].
  destruct (present_str session_id) as [s|] eqn:Hs; [|left; reflexivity].
  apply present_int_some in Hu as [-> _]. apply present_str_some in Hs as [-> _].
  unfold_store; each_call E; try (left; reflexivity).
  right. do 3 eexists. repeat split; eauto.
Qed.

Lemma retitle_leaves_others (t : option string) (u : Z) (s : string)
    (l : list ChatSession) :
  filter (fun cs => negb (session_is u s cs)) (map (retitle t u s) l)
  = filter (fun cs => negb (session_is u s cs)) l.
Proof.
  induction l as [|x l IH]; cbn; [reflexivity|].
  rewrite retitle_session_is, IH.
  destruct (session_is u s x) eqn:Hx; cbn; [reflexivity|].
  unfold retitle. rewrite Hx. reflexivity.
Qed.

(** X4: [upsert_session_title] touches one session row.  Whatever the
    environment does, users and messages are untouched, the session rows of
    every other (user_id, session_id) pair are the same rows in the same
    order, and a row of the pair that was there keeps its rowid, its pair
    and its creation time. *)
Theorem X4_upsert_session_title_frame (E : Env) (w : World) (user_id : option Z)
    (session_id title : option string) :
  let d := disk w in
  let d' := disk (snd (upsert_session_title E user_id session_id title w)) in
  users d' = users d
  /\ chats d' = chats d
  /\ filter (fun cs => negb (session_of user_id session_id cs)) (chat_sessions d')
     = filter (fun cs => negb (session_of user_id session_id cs)) (chat_sessions d)
  /\ forall row, In row (chat_sessions d) ->
       exists row', In row' (chat_sessions d')
                    /\ s_id row' = s_id row
                    /\ session_key row' = session_key row
                    /\ s_created_at row' = s_created_at row.
Proof.
  intros d d'. subst d d'.
  destruct (upsert_session_title_outcome E w user_id session_id title)
    as [-> | (u & s & t1 & -> & -> & ->)].
  - repeat (split; [reflexivity|]). intros row Hrow. exists row. auto.
  - cbn [session_of set_title users chats chat_sessions].
    assert (Hkeep : users (add_session t1 u s (present_str title) (disk w)) = users (disk w)
                    /\ chats (add_session t1 u s (present_str title) (disk w))
                       = chats (disk w)
                    /\ exists new,
                         chat_sessions (add_session t1 u s (present_str title) (disk w))
                         = (chat_sessions (disk w) ++ new)%list
                         /\ Forall (fun cs => session_is u s cs = true) new).
    { unfold add_session.
      destruct (existsb (session_is u s) (chat_sessions (disk w))); cbn.
      - repeat (split; [reflexivity|]). exists []. rewrite app_nil_r. auto.
      - repeat (split; [reflexivity|]). eexists. split; [reflexivity|].
        repeat constructor. unfold session_is. cbn.
        rewrite Z.eqb_refl, String.eqb_refl. reflexivity. }
    destruct Hkeep as (Hu & Hc & new & Hs & Hnew).
    split; [exact Hu|]. split; [exact Hc|]. split.
    + rewrite retitle_leaves_others, Hs, filter_app.
      replace (filter (fun cs => negb (session_is u s cs)) new) with (@nil ChatSession);
        [apply app_nil_r|].
      symmetry. apply filter_nil_iff. intros x Hx.
      rewrite (proj1(Forall_forall _ _) Hnew x Hx). reflexivity.
    + intros row Hrow. exists (retitle (present_str title) u s row). split.
      * apply in_map. rewrite Hs. apply in_or_app. left. exact Hrow.
      * unfold retitle. destruct (session_is u s row); auto.
Qed.

(** ** Rowids and the order of a history *)

Lemma sorted_snoc {A : Type} (R : A -> A -> Prop) (l : list A) (x : A) :
  StronglySorted R l -> Forall (fun a => R a x) l -> StronglySorted R (l ++ [x]).
Proof.
  induction 1 as [|a l Hs IH Ha]; intros Hall; cbn; [repeat constructor|].
  inversion Hall as [|? ? Hax Hall']; subst.
  constructor; [apply IH; exact Hall'|].
  apply Forall_app. split; [exact Ha|]. repeat constructor. exact Hax.
Qed.

Lemma sorted_filter {A : Type} (R : A -> A -> Prop) (keep : A -> bool) (l : list A) :
  StronglySorted R l -> StronglySorted R (filter keep l).
Proof.
  induction 1 as [|a l Hs IH Ha]; cbn; [constructor|].
  destruct (keep a); [|exact IH].
  constructor; [exact IH|].
  apply Forall_forall. intros x Hx. apply filter_In in Hx as [Hx _].
  exact (proj1 (Forall_forall _ _) Ha x Hx).
Qed.

(** ORDER BY leaves a list alone that is in order already. *)
Lemma order_by_fixed {A : Type} (before : A -> A -> bool) (l : list A) :
  StronglySorted (fun a b => before a b = true) l -> order_by before l = l.
Proof.
  induction 1 as [|a l Hs IH Ha]; [reflexivity|].
  change (insert_by before a (order_by before l) = a :: l).
  rewrite IH. destruct l as [|b l]; [reflexivity|]. cbn.
  inversion Ha as [|? ? Hab _]; subst. rewrite Hab. reflexivity.
Qed.

(** With rowids in order, [get_chat_history] lists the messages of the
    session as they lie in the table. *)
Lemma history_rows_transcript (d : Database) (u : Z) (s : string) :
  chats_in_order d -> history_rows u s d = transcript d u s.
Proof.
  intros [Hsorted _]. unfold history_rows, transcript. f_equal.
  apply order_by_fixed. apply sorted_filter.
  clear - Hsorted. induction Hsorted as [|a l Hs IH Ha]; constructor; [exact IH|].
  eapply Forall_impl; [|exact Ha]. cbn. intros b Hab. apply Z.leb_le. lia.
Qed.

Lemma chats_in_order_add_chat (now u : Z) (s role m : string) (d : Database) :
  chats_in_order d -> chats_in_order (add_chat now u s role m d).
Proof.
  intros [Hsorted Hbound]. unfold chats_in_order, add_chat. cbn. split.
  - apply sorted_snoc; [exact Hsorted|].
    eapply Forall_impl; [|exact Hbound]. cbn. intros c Hc. lia.
  - apply Forall_app. split.
    + eapply Forall_impl; [|exact Hbound]. cbn. intros c Hc. lia.
    + repeat constructor. cbn. lia.
Qed.

Lemma chats_in_order_same_chats (d d' : Database) :
  chats d' = chats d -> chats_seq d' = chats_seq d ->
  chats_in_order d -> chats_in_order d'.
Proof. unfold chats_in_order. intros -> ->. auto. Qed.

Lemma chats_in_order_remove (u : Z) (s : string) (d : Database) :
  chats_in_order d -> chats_in_order (remove_chat_session u s (remove_chats u s d)).
Proof.
  intros [Hsorted Hbound]. unfold chats_in_order. cbn. split.
  - apply sorted_filter. exact Hsorted.
  - apply Forall_forall. intros c Hc. apply filter_In in Hc as [Hc _].
    exact (proj1 (Forall_forall _ _) Hbound c Hc).
Qed.

Lemma demo_busy_in_order : chats_in_order (disk Demo.busy).
Proof. split; cbn; repeat constructor; cbn; lia. Qed.

(** X5: a history grows at its end.  With no storage failure and rowids in
    order, after [save_message] the history of the session is the history
    before followed by the new message, the history of every other session
    is what it was, and the rowids are still in order. *)
Theorem X5_history_grows_at_the_end (E : Env) (w : World) (u : Z)
    (s role m : string) :
  no_faults E -> chats_in_order (disk w) ->
  u <> 0%Z -> s <> "" -> m <> "" ->
  let w1 := snd (save_message E (Some u) (Some s) role (Some m) w) in
  fst (get_chat_history E (Some u) (Some s) w) = Ok (transcript (disk w) u s)
  /\ fst (get_chat_history E (Some u) (Some s) w1)
     = Ok (transcript (disk w) u s ++ [(role, m)])%list
  /\ (forall u' s', u' <> 0%Z -> s' <> "" -> (u', s') <> (u, s) ->
        fst (get_chat_history E (Some u') (Some s') w1)
        = fst (get_chat_history E (Some u') (Some s') w))
  /\ chats_in_order (disk w1).
Proof.
  intros HE Hord Hu Hs Hm w1. subst w1.
  rewrite (save_message_run E u s role m w HE Hu Hs Hm). cbn [snd].
  set (t1 := clock E (1 + calls w)). set (t2 := clock E (2 + calls w)).
  assert (Hchats : chats (add_session t2 u s None (add_chat t1 u s role m (disk w)))
                   = (chats (disk w)
                      ++ [mkChat (chats_seq (disk w) + 1) u s role m t1])%list).
  { rewrite (proj1 (add_session_chats _ _ _ _ _)). reflexivity. }
  assert (Hord1 : chats_in_order (add_session t2 u s None (add_chat t1 u s role m (disk w)))).
  { apply (chats_in_order_same_chats (add_chat t1 u s role m (disk w))).
    - apply add_session_chats.
    - apply add_session_chats.
    - apply chats_in_order_add_chat. exact Hord. }
  split.
  { rewrite (get_chat_history_run E u s w HE Hu Hs). cbn [fst].
    rewrite (history_rows_transcript _ u s Hord). reflexivity. }
  split.
  { rewrite (get_chat_history_run E u s _ HE Hu Hs). cbn [fst disk].
    rewrite (history_rows_transcript _ u s Hord1). unfold transcript.
    rewrite Hchats, filter_app, map_app. cbn.
    unfold chat_in at 2. cbn. rewrite Z.eqb_refl, String.eqb_refl. reflexivity. }
  split; [|exact Hord1].
  intros u' s' Hu' Hs' Hother.
  rewrite (get_chat_history_run E u' s' _ HE Hu' Hs'),
          (get_chat_history_run E u' s' w HE Hu' Hs'). cbn [fst disk].
  rewrite (history_rows_transcript _ u' s' Hord1), (history_rows_transcript _ u' s' Hord).
  unfold transcript. rewrite Hchats, filter_app. cbn.
  unfold chat_in at 2. cbn.
  destruct (Z.eqb_spec u u'), (String.eqb_spec s s'); cbn;
    rewrite ?app_nil_r; try reflexivity.
  subst. contradiction.
Qed.

(** X5 at the sample database: the first user adds a question to "s1". *)
Lemma X5_history_grows_at_the_end_witness :
  let w1 := snd (save_message Demo.env (Some 1%Z) (Some "s1") "user" (Some "And fees?")
                   Demo.busy) in
  fst (get_chat_history Demo.env (Some 1%Z) (Some "s1") Demo.busy)
  = Ok (transcript (disk Demo.busy) 1 "s1")
  /\ fst (get_chat_history Demo.env (Some 1%Z) (Some "s1") w1)
     = Ok (transcript (disk Demo.busy) 1 "s1" ++ [("user", "And fees?")])%list
  /\ (forall u' s', u' <> 0%Z -> s' <> "" -> (u', s') <> (1%Z, "s1") ->
        fst (get_chat_history Demo.env (Some u') (Some s') w1)
        = fst (get_chat_history Demo.env (Some u') (Some s') Demo.busy))
  /\ chats_in_order (disk w1).
Proof.
  refine (X5_history_grows_at_the_end Demo.env Demo.busy 1 "s1" "user" "And fees?"
            demo_no_faults demo_busy_in_order _ _ _); discriminate.
Defined.

(** X6: rowids of messages are never reused.  Whatever the environment
    does, every store function that writes keeps the rowids of the
    messages increasing along the table and below the AUTOINCREMENT
    sequence, and the sequence never goes down, not even when
    [delete_session] removes the newest messages. *)
Theorem X6_message_ids_never_reused (E : Env) (w : World) :
  chats_in_order (disk w) ->
  (forall user_id session_id role message,
      let d' := disk (snd (save_message E user_id session_id role message w)) in
      chats_in_order d' /\ (chats_seq (disk w) <= chats_seq d')%Z)
  /\ (forall user_id session_id title,
        let d' := disk (snd (upsert_session_title E user_id session_id title w)) in
        chats_in_order d' /\ chats_seq d' = chats_seq (disk w))
  /\ (forall user_id session_id,
        let d' := disk (snd (delete_session E user_id session_id w)) in
        chats_in_order d' /\ chats_seq d' = chats_seq (disk w)).
Proof.
  intros Hord. split; [|split].
  - intros user_id session_id role message d'. subst d'.
    destruct (save_message_disk E user_id session_id role message w)
      as [-> | (u & s & m & t1 & t2 & _ & _ & ->)]; [split; [exact Hord|lia]|].
    split.
    + apply (chats_in_order_same_chats (add_chat t1 u s role m (disk w))).
      * apply add_session_chats.
      * apply add_session_chats.
      * apply chats_in_order_add_chat. exact Hord.
    + rewrite (proj2 (add_session_chats _ _ _ _ _)). cbn. lia.
  - intros user_id session_id title d'. subst d'.
    destruct (upsert_session_title_outcome E w user_id session_id title)
      as [-> | (u & s & t1 & _ & _ & ->)]; [split; [exact Hord|reflexivity]|].
    cbn [set_title chats_seq].
    split; [|apply add_session_chats].
    apply (chats_in_order_same_chats (disk w)); [| |exact Hord]; cbn;
      apply add_session_chats.
  - intros user_id session_id d'. subst d'.
    destruct (delete_session_disk E user_id session_id w)
      as [-> | (u & s & _ & _ & ->)]; [split; [exact Hord|reflexivity]|].
    split; [apply chats_in_order_remove; exact Hord|reflexivity].
Qed.

(** X6 at the sample database. *)
Lemma X6_message_ids_never_reused_witness :
  (forall user_id session_id role message,
      let d' := disk (snd (save_message Demo.env user_id session_id role message
                             Demo.busy)) in
      chats_in_order d' /\ (chats_seq (disk Demo.busy) <= chats_seq d')%Z)
  /\ (forall user_id session_id title,
        let d' := disk (snd (upsert_session_title Demo.env user_id session_id title
                               Demo.busy)) in
        chats_in_order d' /\ chats_seq d' = chats_seq (disk Demo.busy))
  /\ (forall user_id session_id,
        let d' := disk (snd (delete_session Demo.env user_id session_id Demo.busy)) in
        chats_in_order d' /\ chats_seq d' = chats_seq (disk Demo.busy)).
Proof.
  exact (X6_message_ids_never_reused Demo.env Demo.busy demo_busy_in_order).
Defined.

(** ** Reading *)

Lemma get_user_id_disk (E : Env) (email : string) (w : World) :
  disk (snd (get_user_id E email w)) = disk w.
Proof.
  unfold get_user_id. destruct (Str.truthy email); cbn; [|reflexivity].
  unfold_store; each_call E; reflexivity.
Qed.

Lemma get_chat_history_disk (E : Env) user_id session_id (w : World) :
  disk (snd (get_chat_history E user_id session_id w)) = disk w.
Proof.
  unfold get_chat_history.
  destruct (present_int user_id), (present_str session_id); try reflexivity.
  unfold_store; each_call E; reflexivity.
Qed.

Lemma get_sessions_disk (E : Env) user_id (w : World) :
  disk (snd (get_sessions E user_id w)) = disk w.
Proof.
  unfold get_sessions. destruct (present_int user_id); try reflexivity.
  unfold_store; each_call E; reflexivity.
Qed.

(** X7: reading never writes.  In every environment and for every input,
    [init_db] on a file that has its tables, [get_user_id],
    [get_chat_history], [get_sessions], the login endpoint and the two GET
    endpoints leave the database as it was, whether they return or raise. *)
Theorem X7_reading_never_writes (E : Env) (w : World) :
  disk (snd (init_db E w)) = disk w
  /\ (forall email, disk (snd (get_user_id E email w)) = disk w)
  /\ (forall user_id session_id,
        disk (snd (get_chat_history E user_id session_id w)) = disk w)
  /\ (forall user_id, disk (snd (get_sessions E user_id w)) = disk w)
  /\ (forall body, disk (snd (login E body w)) = disk w)
  /\ (forall args, disk (snd (get_history E args w)) = disk w)
  /\ (forall args, disk (snd (sessions E args w)) = disk w).
Proof.
  split.
  { unfold init_db. unfold_store; each_call E; reflexivity. }
  split; [intros; apply get_user_id_disk|].
  split; [intros; apply get_chat_history_disk|].
  split; [intros; apply get_sessions_disk|].
  split.
  { intros body. unfold login, get_json.
    destruct body as [v|]; [|reflexivity].
    unfold bind at 1. unfold ret at 1.
    unfold bind at 1. unfold lift at 1.
    destruct (stripped (py_or v (JObj [])) "email") as [email|e]; [|reflexivity].
    unfold bind at 1. unfold lift at 1.
    destruct (stripped (py_or v (JObj [])) "password") as [password|e]; [|reflexivity].
    destruct (negb (Str.truthy email) || negb (Str.truthy password)); [reflexivity|].
    unfold try_except, select_login. unfold_store; each_call E; try reflexivity.
    destruct (filter _ _); reflexivity. }
  split.
  { intros args. unfold get_history. cbv zeta. unfold bind at 1.
    pose proof (get_user_id_disk E (query_arg args "email") w) as Hg.
    destruct (get_user_id E (query_arg args "email") w) as [[user_id|e] w1];
      cbn [snd] in Hg; [|exact Hg].
    destruct (present_int user_id); [|exact Hg].
    destruct (present_str (Some (query_arg args "session_id"))); [|exact Hg].
    unfold bind, jsonify, ret.
    pose proof (get_chat_history_disk E user_id (Some (query_arg args "session_id")) w1)
      as Hh.
    destruct (get_chat_history E user_id (Some (query_arg args "session_id")) w1)
      as [[rows|e] w2]; cbn [snd] in *; congruence. }
  intros args. unfold sessions. cbv zeta. unfold bind at 1.
  pose proof (get_user_id_disk E (query_arg args "email") w) as Hg.
  destruct (get_user_id E (query_arg args "email") w) as [[user_id|e] w1];
    cbn [snd] in Hg; [|exact Hg].
  destruct (present_int user_id); [|exact Hg].
  unfold bind, jsonify, ret.
  pose proof (get_sessions_disk E user_id w1) as Hh.
  destruct (get_sessions E user_id w1) as [[rows|e] w2]; cbn [snd] in *; congruence.
Qed.

(** Emails are unique, so an email selects the row that carries it. *)
Lemma unique_email (email : string) (row : User) (l : list User) :
  NoDup (map u_email l) -> In row l -> u_email row = email ->
  filter (fun u => u_email u =? email) l = [row].
Proof.
  induction l as [|x l IH]; cbn; intros Hnd Hin Hrow; [contradiction|].
  inversion Hnd as [|k ks Hnotin Hnd']; subst.
  destruct Hin as [->|Hin].
  - rewrite String.eqb_refl. f_equal. apply filter_nil_iff. intros y Hy.
    destruct (String.eqb_spec (u_email y) (u_email row)) as [Heq|]; [|reflexivity].
    exfalso. apply Hnotin. rewrite <- Heq. apply in_map. exact Hy.
  - destruct (String.eqb_spec (u_email x) (u_email row)) as [Heq|].
    + exfalso. apply Hnotin. rewrite Heq. apply in_map. exact Hin.
    + apply IH; auto.
Qed.

Lemma get_user_id_run (E : Env) (email : string) (w : World) :
  no_faults E -> email <> "" ->
  get_user_id E email w
  = (Ok (user_id_of (disk w) email),
     mkWorld (disk w) (open_connections w) (2 + calls w) (uuids w)).
Proof.
  intros HE Hemail. unfold get_user_id.
  rewrite (proj2 (truthy_nonempty email) Hemail). cbn [negb].
  unfold user_id_of. unfold_store. rewrite !HE. reflexivity.
Qed.

(** X8: [get_user_id] finds the user of an email.  With no storage failure
    and a well-formed store, it returns the id of the stored row whose
    email is the argument, and [None] for an email that no row carries;
    the comparison is exact (no stripping, no case folding). *)
Theorem X8_get_user_id_finds_the_user (E : Env) (w : World) (email : string) :
  no_faults E -> well_formed (disk w) ->
  (forall row, In row (users (disk w)) -> u_email row = email -> email <> "" ->
     fst (get_user_id E email w) = Ok (Some (u_id row)))
  /\ (~ known_email (disk w) email -> fst (get_user_id E email w) = Ok None)
  /\ (forall id, fst (get_user_id E email w) = Ok (Some id) ->
        exists row, In row (users (disk w)) /\ u_email row = email /\ u_id row = id).
Proof.
  intros HE Hwf.
  destruct (String.eqb_spec email "") as [->|Hemail].
  - split; [intros row _ _ H; contradiction|]. split; [reflexivity|].
    intros id H. discriminate.
  - rewrite (get_user_id_run E email w HE Hemail). cbn [fst]. unfold user_id_of.
    split; [|split].
    + intros row Hin Hrow _.
      rewrite (unique_email email row _ (wf_emails _ Hwf) Hin Hrow). reflexivity.
    + intros Hunknown.
      replace (filter (fun u => u_email u =? email) (users (disk w))) with (@nil User);
        [reflexivity|].
      symmetry. apply filter_nil_iff. intros y Hy.
      destruct (String.eqb_spec (u_email y) email) as [Heq|]; [|reflexivity].
      exfalso. apply Hunknown. unfold known_email. rewrite <- Heq. apply in_map. exact Hy.
    + intros id H.
      destruct (filter (fun u => u_email u =? email) (users (disk w))) as [|x l] eqn:Hf;
        [discriminate|].
      injection H as <-. exists x.
      assert (Hx : In x (filter (fun u => u_email u =? email) (users (disk w))))
        by (rewrite Hf; left; reflexivity).
      apply filter_In in Hx as [Hx Hmail]. apply String.eqb_eq in Hmail. auto.
Qed.

(** X8 at the sample store. *)
Lemma X8_get_user_id_finds_the_user_witness :
  (forall row, In row (users (disk Demo.busy)) -> u_email row = "b@x.com" ->
     "b@x.com" <> "" ->
     fst (get_user_id Demo.env "b@x.com" Demo.busy) = Ok (Some (u_id row)))
  /\ (~ known_email (disk Demo.busy) "b@x.com" ->
      fst (get_user_id Demo.env "b@x.com" Demo.busy) = Ok None)
  /\ (forall id, fst (get_user_id Demo.env "b@x.com" Demo.busy) = Ok (Some id) ->
        exists row, In row (users (disk Demo.busy))
                    /\ u_email row = "b@x.com" /\ u_id row = id).
Proof.
  exact (X8_get_user_id_finds_the_user Demo.env Demo.busy "b@x.com" demo_no_faults
           demo_busy_well_formed).
Defined.

(** ** Users *)

(** The run of [register] on {username, email, password} when no storage
    call fails. *)
Lemma register_run (E : Env) (w : World) (username email password : string) :
  no_faults E ->
  let u := Str.strip username in
  let e := Str.strip email in
  let p := Str.strip password in
  register E (register_request username email password) w
  = if negb (Str.truthy u) || negb (Str.truthy e) || negb (Str.truthy p)
    then (Ok (mkResponse 200 (reply false "All fields are required.")), w)
    else if taken u e (disk w)
    then (Ok (mkResponse 200 (reply false "Username or email already exists.")),
          mkWorld (disk w) (S (open_connections w)) (2 + calls w) (uuids w))
    else (Ok (mkResponse 200 (reply true "Registration successful.")),
          mkWorld (add_user u e (hash_password p) (disk w))
            (open_connections w) (3 + calls w) (uuids w)).
Proof.
  intros HE u e p.
  unfold register, register_request, get_json.
  unfold bind at 1. unfold ret at 1. cbn [py_or truthy List.length Nat.eqb negb].
  unfold bind at 1. unfold lift at 1.
  rewrite (stripped_text [("username", JStr username); ("email", JStr email);
                          ("password", JStr password)] "username" (Some username) eq_refl).
  unfold bind at 1. unfold lift at 1.
  rewrite (stripped_text [("username", JStr username); ("email", JStr email);
                          ("password", JStr password)] "email" (Some email) eq_refl).
  unfold bind at 1. unfold lift at 1.
  rewrite (stripped_text [("username", JStr username); ("email", JStr email);
                          ("password", JStr password)] "password" (Some password) eq_refl).
  unfold normalized. fold u e p.
  destruct (negb (Str.truthy u) || negb (Str.truthy e) || negb (Str.truthy p));
    [reflexivity|].
  unfold try_except, insert_user. unfold_store. rewrite !HE.
  destruct (taken u e (disk w)); cbn; rewrite ?HE; reflexivity.
Qed.

Lemma ids_identify (l : list User) (a b : User) :
  StronglySorted (fun x y => (u_id x < u_id y)%Z) l ->
  In a l -> In b l -> u_id a = u_id b -> a = b.
Proof.
  induction 1 as [|x l Hs IH Hx]; cbn; [contradiction|].
  intros [->|Ha] [->|Hb] Heq; auto.
  - pose proof (proj1 (Forall_forall _ _) Hx b Hb) as Hlt. cbn in Hlt. lia.
  - pose proof (proj1 (Forall_forall _ _) Hx a Ha) as Hlt. cbn in Hlt. lia.
Qed.

Lemma user_id_of_row (d : Database) (email : string) (id : Z) :
  user_id_of d email = Some id ->
  exists row, In row (users d) /\ u_email row = email /\ u_id row = id.
Proof.
  unfold user_id_of.
  destruct (filter (fun u => u_email u =? email) (users d)) as [|x l] eqn:Hf;
    [discriminate|].
  intros [= <-]. exists x.
  assert (Hx : In x (filter (fun u => u_email u =? email) (users d)))
    by (rewrite Hf; left; reflexivity).
  apply filter_In in Hx as [Hx Hmail]. apply String.eqb_eq in Hmail. auto.
Qed.

Lemma users_in_order_add_user (username email password : string) (d : Database) :
  users_in_order d -> users_in_order (add_user username email password d).
Proof.
  intros (Hsorted & Hbound & Hseq). unfold users_in_order, add_user. cbn.
  split; [|split; [|lia]].
  - apply sorted_snoc; [exact Hsorted|].
    eapply Forall_impl; [|exact Hbound]. cbn. intros x Hx. lia.
  - apply Forall_app. split.
    + eapply Forall_impl; [|exact Hbound]. cbn. intros x Hx. lia.
    + repeat constructor; cbn; lia.
Qed.

Lemma demo_busy_users_in_order : users_in_order (disk Demo.busy).
Proof. repeat split; cbn; repeat constructor; cbn; lia. Qed.

(** X9: user ids identify users.  AUTOINCREMENT hands out ids that grow
    with the table and start above 0: when the ids of the store are in
    order, [register] keeps them in order in every environment, a
    successful registration gets the id after the sequence, which no
    stored row has, and resolves to it; the id of a stored email is never
    0, so the [if not user_id] guards reject no stored user; and two
    emails never resolve to the same id. *)
Theorem X9_user_ids_identify_users (E : Env) (w : World)
    (username email password : string) :
  users_in_order (disk w) ->
  let out := serve (register E (register_request username email password)) w in
  users_in_order (disk (snd out))
  /\ (succeeded (fst out) = true ->
      user_id_of (disk (snd out)) (Str.strip email) = Some (users_seq (disk w) + 1)%Z
      /\ forall row, In row (users (disk w)) -> u_id row <> (users_seq (disk w) + 1)%Z)
  /\ (forall e id, user_id_of (disk w) e = Some id -> present_int (Some id) = Some id)
  /\ (forall e1 e2 id,
        user_id_of (disk w) e1 = Some id -> user_id_of (disk w) e2 = Some id -> e1 = e2).
Proof.
  intros Hord out. subst out. unfold serve.
  destruct (register_outcome E w username email password)
    as (r & w' & -> & _ & Hcases & _). cbn [fst snd].
  destruct Hord as (Hsorted & Hbound & Hseq).
  split.
  { destruct Hcases as [(_ & _ & _ & _ & _ & ->)|[_ ->]].
    - apply users_in_order_add_user. repeat split; assumption.
    - repeat split; assumption. }
  split.
  { intros Htrue.
    destruct Hcases as [(_ & _ & _ & _ & Hfree & ->)|[Hfalse _]]; [|congruence].
    split.
    - unfold user_id_of, add_user. cbn. rewrite filter_app.
      replace (filter (fun u => u_email u =? Str.strip email) (users (disk w)))
        with (@nil User).
      + cbn. rewrite String.eqb_refl. reflexivity.
      + symmetry. apply filter_nil_iff. intros y Hy.
        destruct (String.eqb_spec (u_email y) (Str.strip email)) as [Heq|]; [|reflexivity].
        apply taken_false in Hfree as [_ Hmail]. exfalso. apply Hmail.
        rewrite <- Heq. apply in_map. exact Hy.
    - intros row Hrow.
      pose proof (proj1 (Forall_forall _ _) Hbound row Hrow) as Hle. cbn in Hle. lia. }
  split.
  { intros e id Hid. apply user_id_of_row in Hid as (row & Hrow & _ & <-).
    pose proof (proj1 (Forall_forall _ _) Hbound row Hrow) as Hle. cbn in Hle.
    apply present_int_nonzero. lia. }
  intros e1 e2 id H1 H2.
  apply user_id_of_row in H1 as (r1 & Hr1 & <- & Hid1).
  apply user_id_of_row in H2 as (r2 & Hr2 & <- & Hid2).
  rewrite (ids_identify _ r1 r2 Hsorted Hr1 Hr2); congruence.
Qed.

(** X9 at the sample store. *)
Lemma X9_user_ids_identify_users_witness :
  let out := serve (register Demo.env (register_request "carol" "c@x.com" "pw3"))
               Demo.busy in
  users_in_order (disk (snd out))
  /\ (succeeded (fst out) = true ->
      user_id_of (disk (snd out)) (Str.strip "c@x.com")
      = Some (users_seq (disk Demo.busy) + 1)%Z
      /\ forall row, In row (users (disk Demo.busy)) ->
           u_id row <> (users_seq (disk Demo.busy) + 1)%Z)
  /\ (forall e id, user_id_of (disk Demo.busy) e = Some id ->
        present_int (Some id) = Some id)
  /\ (forall e1 e2 id,
        user_id_of (disk Demo.busy) e1 = Some id ->
        user_id_of (disk Demo.busy) e2 = Some id -> e1 = e2).
Proof.
  exact (X9_user_ids_identify_users Demo.env Demo.busy "carol" "c@x.com" "pw3"
           demo_busy_users_in_order).
Defined.

(** X10: what is registered can log in.  After a successful registration,
    and as long as storage does not fail, [get_user_id] of the stripped
    email returns the new user's id, and a login succeeds with any email
    and password that strip to the registered ones. *)
Theorem X10_registered_user_can_log_in (E E' : Env) (w : World)
    (username email password email' password' : string) :
  no_faults E' ->
  let out := serve (register E (register_request username email password)) w in
  succeeded (fst out) = true ->
  Str.strip email' = Str.strip email -> Str.strip password' = Str.strip password ->
  fst (get_user_id E' (Str.strip email) (snd out)) = Ok (Some (users_seq (disk w) + 1)%Z)
  /\ fst (serve (login E' (login_request email' password')) (snd out))
     = mkResponse 200 (reply true "Login successful.").
Proof.
  intros HE' out. subst out. unfold serve.
  destruct (register_outcome E w username email password)
    as (r & w' & -> & _ & Hcases & _). cbn [fst snd].
  intros Htrue Hmail Hpw.
  destruct Hcases as [(_ & _ & He & Hp & Hfree & Hdisk)|[Hfalse _]]; [|congruence].
  split.
  - rewrite (get_user_id_run E' _ w' HE' He). cbn [fst]. rewrite Hdisk.
    unfold user_id_of, add_user. cbn. rewrite filter_app.
    replace (filter (fun u => u_email u =? Str.strip email) (users (disk w)))
      with (@nil User).
    + cbn. rewrite String.eqb_refl. reflexivity.
    + symmetry. apply filter_nil_iff. intros y Hy.
      destruct (String.eqb_spec (u_email y) (Str.strip email)) as [Heq|]; [|reflexivity].
      apply taken_false in Hfree as [_ Hfree]. exfalso. apply Hfree.
      rewrite <- Heq. apply in_map. exact Hy.
  - rewrite (login_run E' w' email' password' HE'), Hmail, Hpw.
    rewrite (proj2 (truthy_nonempty _) He), (proj2 (truthy_nonempty _) Hp).
    cbn [negb orb fst].
    assert (Hin : In (mkUser (users_seq (disk w) + 1) (Str.strip username)
                        (Str.strip email) (hash_password (Str.strip password)))
                    (matching (disk w') (Str.strip email) (Str.strip password))).
    { unfold matching. apply filter_In. split.
      - rewrite Hdisk. unfold add_user. cbn. apply in_or_app. right. left. reflexivity.
      - unfold credentials. cbn. rewrite !String.eqb_refl. reflexivity. }
    destruct (matching (disk w') (Str.strip email) (Str.strip password));
      [contradiction|reflexivity].
Qed.

(** X10 at the sample store: registered with blanks, logged in without. *)
Lemma X10_registered_user_can_log_in_witness :
  let out := serve (register Demo.env (register_request " carol" "c@x.com " " pw3"))
               Demo.busy in
  fst (get_user_id Demo.env (Str.strip "c@x.com ") (snd out))
  = Ok (Some (users_seq (disk Demo.busy) + 1)%Z)
  /\ fst (serve (login Demo.env (login_request "c@x.com" "pw3")) (snd out))
     = mkResponse 200 (reply true "Login successful.").
Proof.
  refine (X10_registered_user_can_log_in Demo.env Demo.env Demo.busy " carol" "c@x.com "
            " pw3" "c@x.com" "pw3" demo_no_faults _ _ _); vm_compute; reflexivity.
Defined.

(** ** The session endpoints *)

(** The user a request names: the stored row that carries the email. *)
Lemma resolve_user (E : Env) (w : World) (email : string) (row : User) :
  no_faults E -> well_formed (disk w) ->
  In row (users (disk w)) -> u_email row = email -> email <> "" ->
  get_user_id E email w
  = (Ok (Some (u_id row)),
     mkWorld (disk w) (open_connections w) (2 + calls w) (uuids w)).
Proof.
  intros HE Hwf Hin Hrow Hemail. rewrite (get_user_id_run E email w HE Hemail).
  unfold user_id_of. rewrite (unique_email email row _ (wf_emails _ Hwf) Hin Hrow).
  reflexivity.
Qed.

Lemma resolve_nobody (E : Env) (w : World) (email : string) :
  no_faults E -> email = "" \/ ~ known_email (disk w) email ->
  exists w', get_user_id E email w = (Ok None, w') /\ disk w' = disk w.
Proof.
  intros HE Hunknown. destruct (String.eqb_spec email "") as [->|Hemail].
  - exists w. split; reflexivity.
  - destruct Hunknown as [|Hunknown]; [contradiction|].
    exists (mkWorld (disk w) (open_connections w) (2 + calls w) (uuids w)).
    rewrite (get_user_id_run E email w HE Hemail). split; [|reflexivity].
    unfold user_id_of.
    replace (filter (fun u => u_email u =? email) (users (disk w))) with (@nil User);
      [reflexivity|].
    symmetry. apply filter_nil_iff. intros y Hy.
    destruct (String.eqb_spec (u_email y) email) as [Heq|]; [|reflexivity].
    exfalso. apply Hunknown. unfold known_email. rewrite <- Heq. apply in_map. exact Hy.
Qed.

(** Whoever the email resolves to, a blank session id is refused. *)
Lemma resolve_anyone (E : Env) (w : World) (email : string) :
  no_faults E ->
  exists user_id w', get_user_id E email w = (Ok user_id, w') /\ disk w' = disk w.
Proof.
  intros HE. destruct (String.eqb_spec email "") as [->|Hemail].
  - exists None, w. split; reflexivity.
  - do 2 eexists. rewrite (get_user_id_run E email w HE Hemail). split; reflexivity.
Qed.

Lemma remove_session_fields (E : Env) (w : World) (email session_id : string) :
  remove_session E (session_request email session_id) w
  = bind (get_user_id E (Str.strip email))
      (fun user_id =>
         match present_int user_id, present_str (Some (Str.strip session_id)) with
         | Some _, Some _ =>
             bind (delete_session E user_id (Some (Str.strip session_id)))
               (fun deleted =>
                  jsonify (JObj [("success", JBool true);
                                 ("deleted_messages", JNum (Z.of_nat deleted))]))
         | _, _ => jsonify (reply false "Missing email or session ID.")
         end) w.
Proof.
  unfold remove_session, session_request, get_json.
  unfold bind at 1. unfold ret at 1. cbn [py_or truthy List.length Nat.eqb negb].
  unfold bind at 1. unfold lift at 1.
  rewrite (stripped_text [("email", JStr email); ("session_id", JStr session_id)]
             "email" (Some email) eq_refl).
  unfold bind at 1. unfold lift at 1.
  rewrite (stripped_text [("email", JStr email); ("session_id", JStr session_id)]
             "session_id" (Some session_id) eq_refl).
  reflexivity.
Qed.

Lemma rename_session_fields (E : Env) (w : World) (email session_id title : string) :
  rename_session E (title_request email session_id title) w
  = bind (get_user_id E (Str.strip email))
      (fun user_id =>
         match present_int user_id, present_str (Some (Str.strip session_id)) with
         | Some _, Some _ =>
             bind (upsert_session_title E user_id (Some (Str.strip session_id))
                     (Some (Str.strip title)))
               (fun ok => jsonify (JObj [("success", JBool ok)]))
         | _, _ => jsonify (reply false "Missing email or session ID.")
         end) w.
Proof.
  unfold rename_session, title_request, get_json.
  unfold bind at 1. unfold ret at 1. cbn [py_or truthy List.length Nat.eqb negb].
  unfold bind at 1. unfold lift at 1.
  rewrite (stripped_text [("email", JStr email); ("session_id", JStr session_id);
                          ("title", JStr title)] "email" (Some email) eq_refl).
  unfold bind at 1. unfold lift at 1.
  rewrite (stripped_text [("email", JStr email); ("session_id", JStr session_id);
                          ("title", JStr title)] "session_id" (Some session_id) eq_refl).
  unfold bind at 1. unfold lift at 1.
  rewrite (stripped_text [("email", JStr email); ("session_id", JStr session_id);
                          ("title", JStr title)] "title" (Some title) eq_refl).
  reflexivity.
Qed.

(** The history of a session that was deleted is empty. *)
Lemma history_rows_removed (u : Z) (s : string) (d : Database) :
  history_rows u s (remove_chat_session u s (remove_chats u s d)) = [].
Proof. unfold history_rows. cbn. rewrite filter_none. reflexivity. Qed.

(** [get_history] for a stored user and a session id that is not blank. *)
Lemma get_history_run (E : Env) (w : World) (args : list (string * string)) (row : User) :
  no_faults E -> well_formed (disk w) ->
  In row (users (disk w)) -> u_email row = query_arg args "email" ->
  query_arg args "email" <> "" -> u_id row <> 0%Z -> query_arg args "session_id" <> "" ->
  get_history E args w
  = (Ok (mkResponse 200
           (history_json (history_rows (u_id row) (query_arg args "session_id") (disk w)))),
     mkWorld (disk w) (open_connections w) (4 + calls w) (uuids w)).
Proof.
  intros HE Hwf Hin Hrow He Hid Hs. unfold get_history. cbv zeta. unfold bind at 1.
  rewrite (resolve_user E w _ row HE Hwf Hin Hrow He).
  rewrite (present_int_nonzero _ Hid), (present_str_nonempty _ Hs).
  unfold bind at 1. rewrite (get_chat_history_run E _ _ _ HE Hid Hs). reflexivity.
Qed.

(** X11: the DELETE /session endpoint.  With no storage failure and a
    well-formed store: for the email of a stored user and a session id that
    is not blank (both stripped), the answer is success with the number of
    messages that user had in the session, these messages and the session
    row are gone while the messages of every other user are kept, and
    GET /history for the same email and session then answers the empty
    list; for an email that is blank or not stored, or a blank session id,
    the answer is the failure message and nothing is deleted. *)
Theorem X11_remove_session_endpoint (E : Env) (w : World) (email session_id : string) :
  no_faults E -> well_formed (disk w) ->
  let e := Str.strip email in
  let s := Str.strip session_id in
  let out := serve (remove_session E (session_request email session_id)) w in
  (forall row, In row (users (disk w)) -> u_email row = e ->
     e <> "" -> u_id row <> 0%Z -> s <> "" ->
     fst out
     = mkResponse 200
         (JObj [("success", JBool true);
                ("deleted_messages",
                 JNum (Z.of_nat (List.length (filter (chat_in (u_id row) s)
                                                (chats (disk w))))))])
     /\ disk (snd out) = remove_chat_session (u_id row) s (remove_chats (u_id row) s (disk w))
     /\ (forall c, In c (chats (disk w)) -> c_user_id c <> u_id row ->
           In c (chats (disk (snd out))))
     /\ fst (serve (get_history E [("email", email); ("session_id", session_id)]) (snd out))
        = mkResponse 200 (JArr []))
  /\ (e = "" \/ ~ known_email (disk w) e \/ s = "" ->
      fst out = mkResponse 200 (reply false "Missing email or session ID.")
      /\ disk (snd out) = disk w).
Proof.
  intros HE Hwf e s out. split.
  - intros row Hin Hrow He Hid Hs.
    assert (Hout : out
                   = (mkResponse 200
                        (JObj [("success", JBool true);
                               ("deleted_messages",
                                JNum (Z.of_nat (List.length (filter (chat_in (u_id row) s)
                                                               (chats (disk w))))))]),
                      mkWorld (remove_chat_session (u_id row) s
                                 (remove_chats (u_id row) s (disk w)))
                        (open_connections w) (4 + (2 + calls w)) (uuids w))).
    { subst out. unfold serve. rewrite (remove_session_fields E w email session_id).
      fold e s. unfold bind at 1.
      rewrite (resolve_user E w e row HE Hwf Hin Hrow He).
      rewrite (present_int_nonzero _ Hid), (present_str_nonempty _ Hs).
      unfold bind.
      rewrite (delete_session_run E (Some (u_id row)) (Some s) (u_id row) s _ HE
                 (present_int_nonzero _ Hid) (present_str_nonempty _ Hs)).
      reflexivity. }
    rewrite Hout. cbn [fst snd disk].
    split; [reflexivity|]. split; [reflexivity|]. split.
    + intros c Hc Hother. cbn. apply filter_In. split; [exact Hc|].
      unfold chat_in. destruct (Z.eqb_spec (c_user_id c) (u_id row)); [contradiction|].
      reflexivity.
    + unfold serve.
      rewrite (get_history_run E _ [("email", email); ("session_id", session_id)] row HE).
      * cbn [fst disk]. change (query_arg _ "session_id") with s.
        rewrite history_rows_removed. reflexivity.
      * cbn [disk]. apply well_formed_remove. exact Hwf.
      * exact Hin.
      * exact Hrow.
      * exact He.
      * exact Hid.
      * exact Hs.
  - intros Hno.
    assert (Hout : exists w', out = (mkResponse 200 (reply false "Missing email or session ID."),
                                     w') /\ disk w' = disk w).
    { subst out. unfold serve.
      rewrite (remove_session_fields E w email session_id). fold e s. unfold bind at 1.
      destruct Hno as [Hno|[Hno|Hno]].
      - destruct (resolve_nobody E w e HE (or_introl Hno)) as (w' & -> & Hdisk).
        exists w'. split; [reflexivity|exact Hdisk].
      - destruct (resolve_nobody E w e HE (or_intror Hno)) as (w' & -> & Hdisk).
        exists w'. split; [reflexivity|exact Hdisk].
      - destruct (resolve_anyone E w e HE) as (user_id & w' & -> & Hdisk).
        exists w'. rewrite Hno. destruct (present_int user_id); split; auto. }
    destruct Hout as (w' & -> & Hdisk). split; [reflexivity|exact Hdisk].
Qed.

(** X11 at the sample store: the first user deletes the session "s1". *)
Lemma X11_remove_session_endpoint_witness :
  let e := Str.strip " a@x.com" in
  let s := Str.strip "s1 " in
  let out := serve (remove_session Demo.env (session_request " a@x.com" "s1 ")) Demo.busy in
  (forall row, In row (users (disk Demo.busy)) -> u_email row = e ->
     e <> "" -> u_id row <> 0%Z -> s <> "" ->
     fst out
     = mkResponse 200
         (JObj [("success", JBool true);
                ("deleted_messages",
                 JNum (Z.of_nat (List.length (filter (chat_in (u_id row) s)
                                                (chats (disk Demo.busy))))))])
     /\ disk (snd out)
        = remove_chat_session (u_id row) s (remove_chats (u_id row) s (disk Demo.busy))
     /\ (forall c, In c (chats (disk Demo.busy)) -> c_user_id c <> u_id row ->
           In c (chats (disk (snd out))))
     /\ fst (serve (get_history Demo.env [("email", " a@x.com"); ("session_id", "s1 ")])
               (snd out))
        = mkResponse 200 (JArr []))
  /\ (e = "" \/ ~ known_email (disk Demo.busy) e \/ s = "" ->
      fst out = mkResponse 200 (reply false "Missing email or session ID.")
      /\ disk (snd out) = disk Demo.busy).
Proof.
  exact (X11_remove_session_endpoint Demo.env Demo.busy " a@x.com" "s1 " demo_no_faults
           demo_busy_well_formed).
Defined.

(** [sessions] for a stored user. *)
Lemma sessions_run (E : Env) (w : World) (args : list (string * string)) (row : User) :
  no_faults E -> well_formed (disk w) ->
  In row (users (disk w)) -> u_email row = query_arg args "email" ->
  query_arg args "email" <> "" -> u_id row <> 0%Z ->
  sessions E args w
  = (Ok (mkResponse 200 (JArr (map session_json (session_rows (u_id row) (disk w))))),
     mkWorld (disk w) (open_connections w) (4 + calls w) (uuids w)).
Proof.
  intros HE Hwf Hin Hrow He Hid. unfold sessions. cbv zeta. unfold bind at 1.
  rewrite (resolve_user E w _ row HE Hwf Hin Hrow He).
  rewrite (present_int_nonzero _ Hid).
  unfold bind at 1.
  rewrite (get_sessions_run E _ (u_id row) _ HE (present_int_nonzero _ Hid)). reflexivity.
Qed.

(** A session row of the user has its entry in the list. *)
Lemma session_rows_lists (u : Z) (d : Database) (cs : ChatSession) :
  NoDup (map session_key (chat_sessions d)) ->
  In cs (chat_sessions d) -> s_user_id cs = u ->
  In (session_summary d cs) (session_rows u d).
Proof.
  intros Hnd Hin Hu.
  eapply Permutation_in; [apply Permutation_sym, session_rows_perm; exact Hnd|].
  apply in_map. apply filter_In. split; [exact Hin|]. apply Z.eqb_eq. exact Hu.
Qed.

(** X12: the POST /session/title endpoint.  With no storage failure and a
    well-formed store: for the email of a stored user and a session id that
    is not blank (both stripped), the answer is success, users and messages
    are untouched, the user has exactly one row for the session and its
    title is the stripped title, or NULL when that is empty, and
    GET /sessions for the same email then lists the session with this
    title; for an email that is blank or not stored, or a blank session id,
    the answer is the failure message and nothing is written. *)
Theorem X12_rename_session_endpoint (E : Env) (w : World)
    (email session_id title : string) :
  no_faults E -> well_formed (disk w) ->
  let e := Str.strip email in
  let s := Str.strip session_id in
  let t := present_str (Some (Str.strip title)) in
  let out := serve (rename_session E (title_request email session_id title)) w in
  (forall row, In row (users (disk w)) -> u_email row = e ->
     e <> "" -> u_id row <> 0%Z -> s <> "" ->
     fst out = mkResponse 200 (JObj [("success", JBool true)])
     /\ users (disk (snd out)) = users (disk w)
     /\ chats (disk (snd out)) = chats (disk w)
     /\ (exists cs, filter (session_is (u_id row) s) (chat_sessions (disk (snd out))) = [cs]
                    /\ s_title cs = t)
     /\ exists rows entry,
          fst (serve (sessions E [("email", email)]) (snd out))
          = mkResponse 200 (JArr (map session_json rows))
          /\ In entry rows /\ si_session_id entry = s /\ si_title entry = t)
  /\ (e = "" \/ ~ known_email (disk w) e \/ s = "" ->
      fst out = mkResponse 200 (reply false "Missing email or session ID.")
      /\ disk (snd out) = disk w).
Proof.
  intros HE Hwf e s t out. split.
  - intros row Hin Hrow He Hid Hs.
    set (now := clock E (1 + (2 + calls w))).
    set (d' := set_title t (u_id row) s (add_session now (u_id row) s t (disk w))).
    assert (Hout : out
                   = (mkResponse 200 (JObj [("success", JBool true)]),
                      mkWorld d' (open_connections w) (4 + (2 + calls w)) (uuids w))).
    { subst out. unfold serve. rewrite (rename_session_fields E w email session_id title).
      fold e s. unfold bind at 1.
      rewrite (resolve_user E w e row HE Hwf Hin Hrow He).
      rewrite (present_int_nonzero _ Hid), (present_str_nonempty _ Hs).
      unfold bind.
      rewrite (upsert_session_title_run E (Some (u_id row)) (Some s)
                 (Some (Str.strip title)) (u_id row) s _ HE
                 (present_int_nonzero _ Hid) (present_str_nonempty _ Hs)).
      reflexivity. }
    rewrite Hout. cbn [fst snd disk].
    assert (Hwf' : well_formed d').
    { apply well_formed_set_title. apply well_formed_add_session; assumption. }
    destruct (upsert_selects now (u_id row) s t (disk w) (wf_session_keys _ Hwf))
      as [(cs & Hcs & Htitle) _].
    fold d' in Hcs.
    assert (Husers : users d' = users (disk w)).
    { subst d'. unfold set_title, add_session. cbn.
      destruct (existsb _ _); reflexivity. }
    split; [reflexivity|]. split; [exact Husers|]. split.
    { subst d'. cbn. apply add_session_chats. }
    split; [exists cs; split; assumption|].
    exists (session_rows (u_id row) d'), (session_summary d' cs).
    assert (Hin_cs : In cs (filter (session_is (u_id row) s) (chat_sessions d')))
      by (rewrite Hcs; left; reflexivity).
    apply filter_In in Hin_cs as [Hin_cs Hkey].
    apply session_is_key in Hkey. injection Hkey as Hcu Hcsid.
    split.
    + unfold serve.
      rewrite (sessions_run E _ [("email", email)] row HE); cbn [disk fst];
        [reflexivity|exact Hwf'|rewrite Husers; exact Hin|exact Hrow|exact He|exact Hid].
    + split; [|split; [exact Hcsid|exact Htitle]].
      apply session_rows_lists; [exact (wf_session_keys _ Hwf')|exact Hin_cs|exact Hcu].
  - intros Hno.
    assert (Hout : exists w', out = (mkResponse 200 (reply false "Missing email or session ID."),
                                     w') /\ disk w' = disk w).
    { subst out. unfold serve.
      rewrite (rename_session_fields E w email session_id title). fold e s.
      unfold bind at 1.
      destruct Hno as [Hno|[Hno|Hno]].
      - destruct (resolve_nobody E w e HE (or_introl Hno)) as (w' & -> & Hdisk).
        exists w'. split; [reflexivity|exact Hdisk].
      - destruct (resolve_nobody E w e HE (or_intror Hno)) as (w' & -> & Hdisk).
        exists w'. split; [reflexivity|exact Hdisk].
      - destruct (resolve_anyone E w e HE) as (user_id & w' & -> & Hdisk).
        exists w'. rewrite Hno. destruct (present_int user_id); split; auto. }
    destruct Hout as (w' & -> & Hdisk). split; [reflexivity|exact Hdisk].
Qed.

(** X12 at the sample store: the second user clears the title of "s1". *)
Lemma X12_rename_session_endpoint_witness :
  let e := Str.strip "b@x.com" in
  let s := Str.strip " s1" in
  let t := present_str (Some (Str.strip "  ")) in
  let out := serve (rename_session Demo.env (title_request "b@x.com" " s1" "  "))
               Demo.busy in
  (forall row, In row (users (disk Demo.busy)) -> u_email row = e ->
     e <> "" -> u_id row <> 0%Z -> s <> "" ->
     fst out = mkResponse 200 (JObj [("success", JBool true)])
     /\ users (disk (snd out)) = users (disk Demo.busy)
     /\ chats (disk (snd out)) = chats (disk Demo.busy)
     /\ (exists cs, filter (session_is (u_id row) s) (chat_sessions (disk (snd out))) = [cs]
                    /\ s_title cs = t)
     /\ exists rows entry,
          fst (serve (sessions Demo.env [("email", "b@x.com")]) (snd out))
          = mkResponse 200 (JArr (map session_json rows))
          /\ In entry rows /\ si_session_id entry = s /\ si_title entry = t)
  /\ (e = "" \/ ~ known_email (disk Demo.busy) e \/ s = "" ->
      fst out = mkResponse 200 (reply false "Missing email or session ID.")
      /\ disk (snd out) = disk Demo.busy).
Proof.
  exact (X12_rename_session_endpoint Demo.env Demo.busy "b@x.com" " s1" "  "
           demo_no_faults demo_busy_well_formed).
Defined.

(** X13: the GET /history endpoint.  With no storage failure, a
    well-formed store and rowids in order: for the email of a stored user
    and a session id that is not blank (both stripped), the answer is the
    list of the messages stored for that user in that session, and no
    other, in the order they were stored; for an email that is blank or not
    stored, or a blank session id, and so for a request without the email
    or the session_id parameter, the answer is the empty list. *)
Theorem X13_get_history_endpoint (E : Env) (w : World) (args : list (string * string)) :
  no_faults E -> well_formed (disk w) -> chats_in_order (disk w) ->
  let e := query_arg args "email" in
  let s := query_arg args "session_id" in
  let out := serve (get_history E args) w in
  (forall row, In row (users (disk w)) -> u_email row = e ->
     e <> "" -> u_id row <> 0%Z -> s <> "" ->
     fst out = mkResponse 200 (history_json (transcript (disk w) (u_id row) s)))
  /\ (e = "" \/ ~ known_email (disk w) e \/ s = "" -> fst out = mkResponse 200 (JArr []))
  /\ (args_get "email" args = None \/ args_get "session_id" args = None ->
      fst out = mkResponse 200 (JArr [])).
Proof.
  intros HE Hwf Hord e s out.
  assert (Hblank : e = "" \/ ~ known_email (disk w) e \/ s = "" ->
                   fst out = mkResponse 200 (JArr [])).
  { intros Hno. subst out. unfold serve, get_history. cbv zeta. fold e s.
    unfold bind at 1.
    destruct Hno as [Hno|[Hno|Hno]].
    - destruct (resolve_nobody E w e HE (or_introl Hno)) as (w' & -> & _). reflexivity.
    - destruct (resolve_nobody E w e HE (or_intror Hno)) as (w' & -> & _). reflexivity.
    - destruct (resolve_anyone E w e HE) as (user_id & w' & -> & _).
      rewrite Hno. destruct (present_int user_id); reflexivity. }
  split; [|split; [exact Hblank|]].
  - intros row Hin Hrow He Hid Hs. subst out. unfold serve.
    rewrite (get_history_run E w args row HE Hwf Hin Hrow He Hid Hs). cbn [fst].
    fold s. rewrite (history_rows_transcript _ _ _ Hord). reflexivity.
  - intros [Hnone|Hnone]; apply Hblank.
    + left. subst e. unfold query_arg. rewrite Hnone. apply strip_empty.
    + right. right. subst s. unfold query_arg. rewrite Hnone. apply strip_empty.
Qed.

(** X13 at the sample store: the history of "s1" of the first user. *)
Lemma X13_get_history_endpoint_witness :
  let args := [("email", "a@x.com "); ("session_id", "s1")] in
  let e := query_arg args "email" in
  let s := query_arg args "session_id" in
  let out := serve (get_history Demo.env args) Demo.busy in
  (forall row, In row (users (disk Demo.busy)) -> u_email row = e ->
     e <> "" -> u_id row <> 0%Z -> s <> "" ->
     fst out = mkResponse 200 (history_json (transcript (disk Demo.busy) (u_id row) s)))
  /\ (e = "" \/ ~ known_email (disk Demo.busy) e \/ s = "" ->
      fst out = mkResponse 200 (JArr []))
  /\ (args_get "email" args = None \/ args_get "session_id" args = None ->
      fst out = mkResponse 200 (JArr [])).
Proof.
  exact (X13_get_history_endpoint Demo.env Demo.busy
           [("email", "a@x.com "); ("session_id", "s1")]
           demo_no_faults demo_busy_well_formed demo_busy_in_order).
Defined.

(** ** Counting the messages of a user *)

Lemma list_sum_perm (l l' : list nat) : Permutation l l' -> list_sum l = list_sum l'.
Proof. unfold list_sum. induction 1; cbn in *; lia. Qed.

(** A message with a recorded session is a message of one session of its
    user, and of no session of another user. *)
Lemma sessions_of_chat (u : Z) (c : Chat) (l : list ChatSession) :
  NoDup (map session_key l) ->
  existsb (session_is (c_user_id c) (c_session_id c)) l = true ->
  List.length (filter (fun cs => chat_in (s_user_id cs) (s_session_id cs) c)
                 (filter (fun cs => (s_user_id cs =? u)%Z) l))
  = if (c_user_id c =? u)%Z then 1%nat else 0%nat.
Proof.
  intros Hnd Hex.
  assert (Hsame : forall cs, chat_in (s_user_id cs) (s_session_id cs) c
                             = session_is (c_user_id c) (c_session_id c) cs).
  { intros cs. unfold chat_in, session_is.
    rewrite (Z.eqb_sym (c_user_id c)), (String.eqb_sym (c_session_id c)). reflexivity. }
  rewrite (filter_ext _ _ Hsame).
  destruct (Z.eqb_spec (c_user_id c) u) as [Hu|Hu].
  - assert (Hall : filter (session_is (c_user_id c) (c_session_id c))
                     (filter (fun cs => (s_user_id cs =? u)%Z) l)
                   = filter (session_is (c_user_id c) (c_session_id c)) l).
    { clear Hnd Hex. induction l as [|x l IH]; cbn; [reflexivity|].
      destruct (Z.eqb_spec (s_user_id x) u) as [Hx|Hx]; cbn; rewrite IH; [reflexivity|].
      unfold session_is. destruct (Z.eqb_spec (s_user_id x) (c_user_id c)); [|reflexivity].
      congruence. }
    rewrite Hall.
    pose proof (at_most_one_session (c_user_id c) (c_session_id c) l Hnd) as Hle.
    destruct (filter (session_is (c_user_id c) (c_session_id c)) l) as [|x rest] eqn:Hf.
    + apply existsb_false_filter in Hf. congruence.
    + cbn in *. lia.
  - replace (filter (session_is (c_user_id c) (c_session_id c))
               (filter (fun cs => (s_user_id cs =? u)%Z) l)) with (@nil ChatSession);
      [reflexivity|].
    symmetry. apply filter_nil_iff. intros x Hx. apply filter_In in Hx as [_ Hx].
    apply Z.eqb_eq in Hx. unfold session_is.
    destruct (Z.eqb_spec (s_user_id x) (c_user_id c)); [congruence|reflexivity].
Qed.

Lemma list_sum_one_more {A B : Type} (q : A -> B -> bool) (c : B) (ms : list B)
    (l : list A) :
  list_sum (map (fun a => List.length (filter (q a) (c :: ms))) l)
  = (List.length (filter (fun a => q a c) l)
     + list_sum (map (fun a => List.length (filter (q a) ms)) l))%nat.
Proof.
  unfold list_sum. induction l as [|x l IH]; cbn in *; [reflexivity|].
  rewrite IH. destruct (q x c); cbn; lia.
Qed.

Lemma list_sum_zero {A : Type} (l : list A) : list_sum (map (fun _ => 0%nat) l) = 0%nat.
Proof. unfold list_sum. induction l as [|x l IH]; cbn; [reflexivity|exact IH]. Qed.

(** The messages of the sessions of a user, counted session by session,
    are the messages of the user. *)
Lemma count_by_session (u : Z) (l : list ChatSession) (ms : list Chat) :
  NoDup (map session_key l) ->
  Forall (fun c => existsb (session_is (c_user_id c) (c_session_id c)) l = true) ms ->
  list_sum (map (fun cs => List.length (filter (chat_in (s_user_id cs) (s_session_id cs)) ms))
              (filter (fun cs => (s_user_id cs =? u)%Z) l))
  = List.length (filter (fun c => (c_user_id c =? u)%Z) ms).
Proof.
  intros Hnd. induction 1 as [|c ms Hc Hms IH].
  - cbn. apply list_sum_zero.
  - rewrite (list_sum_one_more (fun cs => chat_in (s_user_id cs) (s_session_id cs))).
    rewrite IH, (sessions_of_chat u c l Hnd Hc). cbn [filter].
    destruct (c_user_id c =? u)%Z; cbn; lia.
Qed.

(** X14: the GET /sessions endpoint.  With no storage failure and a
    well-formed store, for the email of a stored user (stripped) the answer
    lists the sessions of that user, each once, the one active last first;
    every stored message of the user is counted in one of them, so the
    message counts add up to the number of the user's messages.  For an
    email that is blank, missing or not stored the answer is the empty
    list. *)
Theorem X14_sessions_endpoint (E : Env) (w : World) (args : list (string * string)) :
  no_faults E -> well_formed (disk w) ->
  let d := disk w in
  let e := query_arg args "email" in
  let out := serve (sessions E args) w in
  (forall row, In row (users d) -> u_email row = e -> e <> "" -> u_id row <> 0%Z ->
     exists rows,
       fst out = mkResponse 200 (JArr (map session_json rows))
       /\ Permutation rows
            (map (session_summary d) (filter (owned_by (Some (u_id row))) (chat_sessions d)))
       /\ NoDup (map si_session_id rows)
       /\ StronglySorted more_recent rows
       /\ list_sum (map si_messages_count rows)
          = List.length (filter (fun c => (c_user_id c =? u_id row)%Z) (chats d)))
  /\ (e = "" \/ ~ known_email d e \/ args_get "email" args = None ->
      fst out = mkResponse 200 (JArr [])).
Proof.
  intros HE Hwf d e out. split.
  - intros row Hin Hrow He Hid. exists (session_rows (u_id row) d).
    assert (Hperm : Permutation (session_rows (u_id row) d)
                      (map (session_summary d)
                         (filter (owned_by (Some (u_id row))) (chat_sessions d)))).
    { apply session_rows_perm. exact (wf_session_keys _ Hwf). }
    split.
    { subst out. unfold serve.
      rewrite (sessions_run E w args row HE Hwf Hin Hrow He Hid). reflexivity. }
    split; [exact Hperm|]. split.
    { eapply Permutation_NoDup.
      - apply Permutation_sym, Permutation_map. exact Hperm.
      - rewrite map_map. cbn [session_summary si_session_id].
        apply (NoDup_session_ids (u_id row)).
        + apply NoDup_map_filter. exact (wf_session_keys _ Hwf).
        + intros cs Hcs. apply filter_In in Hcs as [_ Hcs]. apply Z.eqb_eq. exact Hcs. }
    split.
    { apply session_rows_sorted. exact (wf_session_keys _ Hwf). }
    rewrite (list_sum_perm _ _ (Permutation_map si_messages_count Hperm)), map_map.
    cbn [session_summary si_messages_count]. unfold messages_of, owned_by.
    apply count_by_session; [exact (wf_session_keys _ Hwf)|].
    eapply Forall_impl; [|exact (wf_chats _ Hwf)]. cbn. intros c (_ & _ & Hc). exact Hc.
  - intros Hno. subst out. unfold serve, sessions. cbv zeta. fold e. unfold bind at 1.
    assert (Hnobody : e = "" \/ ~ known_email (disk w) e).
    { destruct Hno as [Hno|[Hno|Hno]]; [left; exact Hno|right; exact Hno|].
      left. subst e. unfold query_arg. rewrite Hno. apply strip_empty. }
    destruct (resolve_nobody E w e HE Hnobody) as (w' & -> & _). reflexivity.
Qed.

(** X14 at the sample store: the sessions of the first user. *)
Lemma X14_sessions_endpoint_witness :
  let args := [("email", " a@x.com")] in
  let d := disk Demo.busy in
  let e := query_arg args "email" in
  let out := serve (sessions Demo.env args) Demo.busy in
  (forall row, In row (users d) -> u_email row = e -> e <> "" -> u_id row <> 0%Z ->
     exists rows,
       fst out = mkResponse 200 (JArr (map session_json rows))
       /\ Permutation rows
            (map (session_summary d) (filter (owned_by (Some (u_id row))) (chat_sessions d)))
       /\ NoDup (map si_session_id rows)
       /\ StronglySorted more_recent rows
       /\ list_sum (map si_messages_count rows)
          = List.length (filter (fun c => (c_user_id c =? u_id row)%Z) (chats d)))
  /\ (e = "" \/ ~ known_email d e \/ args_get "email" args = None ->
      fst out = mkResponse 200 (JArr [])).
Proof.
  exact (X14_sessions_endpoint Demo.env Demo.busy [("email", " a@x.com")]
           demo_no_faults demo_busy_well_formed).
Defined.

(** ** What the chat endpoint stores *)



Lemma chats_in_order_saved (t1 t2 u : Z) (s role m : string) (title : option string)
    (d : Database) :
  chats_in_order d -> chats_in_order (add_session t2 u s title (add_chat t1 u s role m d)).
Proof.
  intros Hord. apply (chats_in_order_same_chats (add_chat t1 u s role m d)).
  - apply add_session_chats.
  - apply add_session_chats.
  - apply chats_in_order_add_chat. exact Hord.
Qed.








(** ** The digest *)

Lemma hex_digit_is_hex (x : N) : (x < 16)%N -> is_hex (SHA256.hex_digit x) = true.
Proof.
  intros Hx.
  assert (H : In x [0; 1; 2; 3; 4; 5; 6; 7; 8; 9; 10; 11; 12; 13; 14; 15]%N).
  { cbn. lia. }
  cbn in H. repeat (destruct H as [<-|H]; [reflexivity|]). contradiction.
Qed.

Lemma nibble_is_hex (k x : N) : is_hex (SHA256.nibble k x) = true.
Proof.
  unfold SHA256.nibble. apply hex_digit_is_hex.
  change 15%N with (N.ones 4). rewrite N.land_ones. apply N.mod_lt. discriminate.
Qed.

(** X16: the digest [hash_password] returns is, for every password, 64
    characters long and made of the digits and the letters a to f only; so
    a password with any other character in it (an upper-case letter, a
    blank, a sign) is never stored as it is. *)
Theorem X16_hash_password_is_hex (password : string) :
  String.length (hash_password password) = 64%nat
  /\ Forall (fun c => is_hex c = true) (list_ascii_of_string (hash_password password))
  /\ (Exists (fun c => is_hex c = false) (list_ascii_of_string password) ->
      hash_password password <> password).
Proof.
  assert (Hhex : Forall (fun c => is_hex c = true)
                   (list_ascii_of_string (hash_password password))).
  { unfold hash_password, SHA256.hexdigest, SHA256.hex_word. cbn [list_ascii_of_string].
    repeat constructor; apply nibble_is_hex. }
  split; [reflexivity|]. split; [exact Hhex|].
  intros Hother Heq. rewrite Heq in Hhex.
  apply Exists_exists in Hother as (c & Hc & Hno).
  rewrite (proj1 (Forall_forall _ _) Hhex c Hc) in Hno. discriminate.
Qed.

(** ** What every request keeps *)

Section Keeps.

Context {A B : Type} (P : Database -> Prop).

Lemma keeps_same (m : M A) : (forall w, disk (snd (m w)) = disk w) -> keeps P m.
Proof. intros H w Hw. rewrite H. exact Hw. Qed.

Lemma keeps_ret (a : A) : keeps P (ret a).
Proof. intros w Hw. exact Hw. Qed.

Lemma keeps_lift (r : result A) : keeps P (lift r).
Proof. intros w Hw. exact Hw. Qed.

Lemma keeps_bind (m : M A) (k : A -> M B) :
  keeps P m -> (forall a, keeps P (k a)) -> keeps P (bind m k).
Proof.
  intros Hm Hk w Hw. unfold bind. specialize (Hm w Hw).
  destruct (m w) as [[a|e] w']; cbn [snd] in *; [apply Hk; exact Hm|exact Hm].
Qed.

Lemma keeps_try_except (m : M A) (handler : exn -> M A) :
  keeps P m -> (forall e, keeps P (handler e)) -> keeps P (try_except m handler).
Proof.
  intros Hm Hh w Hw. unfold try_except. specialize (Hm w Hw).
  destruct (m w) as [[a|e] w']; cbn [snd] in *; [exact Hm|apply Hh; exact Hm].
Qed.

End Keeps.

Lemma keeps_jsonify (P : Database -> Prop) (v : json) : keeps P (jsonify v).
Proof. intros w Hw. exact Hw. Qed.

Lemma keeps_get_json (P : Database -> Prop) (body : option json) : keeps P (get_json body).
Proof. intros w Hw. destruct body; exact Hw. Qed.

Lemma keeps_get_user_id (P : Database -> Prop) (E : Env) (email : string) :
  keeps P (get_user_id E email).
Proof. apply keeps_same. apply get_user_id_disk. Qed.

Lemma serve_disk (view : M Response) (w : World) :
  disk (snd (serve view w)) = disk (snd (view w)).
Proof. unfold serve. destruct (view w) as [[r|e] w']; reflexivity. Qed.

Lemma add_session_users (now u : Z) (s : string) (t : option string) (d : Database) :
  users (add_session now u s t d) = users d
  /\ users_seq (add_session now u s t d) = users_seq d.
Proof. unfold add_session. destruct (existsb _ _); split; reflexivity. Qed.

Lemma users_in_order_same_users (d d' : Database) :
  users d' = users d -> users_seq d' = users_seq d ->
  users_in_order d -> users_in_order d'.
Proof. unfold users_in_order. intros -> ->. auto. Qed.

Lemma consistent_saved (t1 t2 u : Z) (s role m : string) (t : option string)
    (d : Database) :
  consistent d -> u <> 0%Z -> s <> "" ->
  consistent (add_session t2 u s t (add_chat t1 u s role m d)).
Proof.
  intros (Hwf & Hc & Hu) Hid Hs. split; [|split].
  - apply well_formed_save; assumption.
  - apply chats_in_order_saved. exact Hc.
  - apply (users_in_order_same_users d); [| |exact Hu];
      rewrite (fun x => proj1 (add_session_users t2 u s t x))
      || rewrite (fun x => proj2 (add_session_users t2 u s t x)); reflexivity.
Qed.

Lemma consistent_titled (now u : Z) (s : string) (t : option string) (d : Database) :
  consistent d -> u <> 0%Z -> s <> "" ->
  consistent (set_title t u s (add_session now u s t d)).
Proof.
  intros (Hwf & Hc & Hu) Hid Hs. split; [|split].
  - apply well_formed_set_title. apply well_formed_add_session; assumption.
  - apply (chats_in_order_same_chats d); [| |exact Hc]; cbn; apply add_session_chats.
  - apply (users_in_order_same_users d); [| |exact Hu]; cbn; apply add_session_users.
Qed.

Lemma consistent_removed (u : Z) (s : string) (d : Database) :
  consistent d -> consistent (remove_chat_session u s (remove_chats u s d)).
Proof.
  intros (Hwf & Hc & Hu). split; [|split].
  - apply well_formed_remove. exact Hwf.
  - apply chats_in_order_remove. exact Hc.
  - exact Hu.
Qed.

Lemma consistent_add_user (username email password : string) (d : Database) :
  consistent d -> taken username email d = false ->
  consistent (add_user username email password d).
Proof.
  intros (Hwf & Hc & Hu) Hfree. split; [|split].
  - apply well_formed_add_user; assumption.
  - exact Hc.
  - apply users_in_order_add_user. exact Hu.
Qed.

Lemma save_message_keeps (E : Env) user_id session_id role message :
  keeps consistent (save_message E user_id session_id role message).
Proof.
  intros w Hw.
  destruct (save_message_disk E user_id session_id role message w)
    as [-> | (u & s & m & t1 & t2 & Hu & Hs & ->)]; [exact Hw|].
  apply consistent_saved; assumption.
Qed.

Lemma upsert_session_title_keeps (E : Env) user_id session_id title :
  keeps consistent (upsert_session_title E user_id session_id title).
Proof.
  intros w Hw.
  destruct (upsert_session_title_disk E user_id session_id title w)
    as [-> | (u & s & t1 & Hu & Hs & ->)]; [exact Hw|].
  apply consistent_titled; assumption.
Qed.

Lemma delete_session_keeps (E : Env) user_id session_id :
  keeps consistent (delete_session E user_id session_id).
Proof.
  intros w Hw.
  destruct (delete_session_disk E user_id session_id w)
    as [-> | (u & s & _ & _ & ->)]; [exact Hw|].
  apply consistent_removed. exact Hw.
Qed.

Lemma chat_keeps (E : Env) (body : option json) : keeps consistent (chat E body).
Proof.
  unfold chat. cbv zeta.
  apply keeps_bind; [apply keeps_lift|intros question].
  apply keeps_bind; [apply keeps_lift|intros history].
  apply keeps_bind; [apply keeps_lift|intros user_email].
  apply keeps_bind; [apply keeps_lift|intros session_id].
  destruct (negb (Str.truthy question)); [apply keeps_jsonify|].
  apply keeps_bind.
  { destruct (negb (Str.truthy session_id)); [|apply keeps_ret].
    intros w Hw. exact Hw. }
  intros sid.
  apply keeps_bind; [apply keeps_lift|intros items].
  apply keeps_bind; [apply keeps_lift|intros turns].
  apply keeps_try_except; [|intros e; apply keeps_jsonify].
  apply keeps_bind; [apply keeps_lift|intros content].
  apply keeps_bind; [|intros _; apply keeps_jsonify].
  destruct (Str.truthy user_email); [|apply keeps_ret].
  apply keeps_bind; [apply keeps_get_user_id|intros user_id].
  destruct (present_int user_id); [|apply keeps_ret].
  apply keeps_bind; [apply save_message_keeps|intros _; apply save_message_keeps].
Qed.

Lemma register_keeps (E : Env) (body : option json) : keeps consistent (register E body).
Proof.
  unfold register.
  apply keeps_bind; [apply keeps_get_json|intros data].
  apply keeps_bind; [apply keeps_lift|intros username].
  apply keeps_bind; [apply keeps_lift|intros email].
  apply keeps_bind; [apply keeps_lift|intros password].
  destruct (negb (Str.truthy username) || negb (Str.truthy email)
            || negb (Str.truthy password)); [apply keeps_jsonify|].
  cbv zeta. apply keeps_try_except;
    [|intros e; destruct (class_of e); apply keeps_jsonify].
  intros w Hw. unfold insert_user. unfold_store.
  destruct (fault E (calls w)); cbn; [exact Hw|].
  destruct (fault E (S (calls w))); cbn; [exact Hw|].
  destruct (taken username email (disk w)) eqn:Hfree; cbn; [exact Hw|].
  destruct (fault E (S (S (calls w)))); cbn; [exact Hw|].
  apply consistent_add_user; assumption.
Qed.

Lemma login_keeps (P : Database -> Prop) (E : Env) (body : option json) :
  keeps P (login E body).
Proof.
  unfold login.
  apply keeps_bind; [apply keeps_get_json|intros data].
  apply keeps_bind; [apply keeps_lift|intros email].
  apply keeps_bind; [apply keeps_lift|intros password].
  destruct (negb (Str.truthy email) || negb (Str.truthy password));
    [apply keeps_jsonify|].
  cbv zeta. apply keeps_try_except; [|intros e; apply keeps_jsonify].
  apply keeps_same. intros w. unfold select_login. unfold_store; each_call E;
    try reflexivity.
  destruct (filter _ _); reflexivity.
Qed.

Lemma rename_session_keeps (E : Env) (body : option json) :
  keeps consistent (rename_session E body).
Proof.
  unfold rename_session.
  apply keeps_bind; [apply keeps_get_json|intros data].
  apply keeps_bind; [apply keeps_lift|intros email].
  apply keeps_bind; [apply keeps_lift|intros session_id].
  apply keeps_bind; [apply keeps_lift|intros title].
  apply keeps_bind; [apply keeps_get_user_id|intros user_id].
  destruct (present_int user_id); [|apply keeps_jsonify].
  destruct (present_str (Some session_id)); [|apply keeps_jsonify].
  apply keeps_bind; [apply upsert_session_title_keeps|intros ok; apply keeps_jsonify].
Qed.

Lemma remove_session_keeps (E : Env) (body : option json) :
  keeps consistent (remove_session E body).
Proof.
  unfold remove_session.
  apply keeps_bind; [apply keeps_get_json|intros data].
  apply keeps_bind; [apply keeps_lift|intros email].
  apply keeps_bind; [apply keeps_lift|intros session_id].
  apply keeps_bind; [apply keeps_get_user_id|intros user_id].
  destruct (present_int user_id); [|apply keeps_jsonify].
  destruct (present_str (Some session_id)); [|apply keeps_jsonify].
  apply keeps_bind; [apply delete_session_keeps|intros n; apply keeps_jsonify].
Qed.

Lemma get_history_keeps (P : Database -> Prop) (E : Env) (args : list (string * string)) :
  keeps P (get_history E args).
Proof.
  unfold get_history. cbv zeta.
  apply keeps_bind; [apply keeps_get_user_id|intros user_id].
  destruct (present_int user_id); [|apply keeps_jsonify].
  destruct (present_str _); [|apply keeps_jsonify].
  apply keeps_bind; [|intros rows; apply keeps_jsonify].
  apply keeps_same. apply get_chat_history_disk.
Qed.

Lemma sessions_keeps (P : Database -> Prop) (E : Env) (args : list (string * string)) :
  keeps P (sessions E args).
Proof.
  unfold sessions. cbv zeta.
  apply keeps_bind; [apply keeps_get_user_id|intros user_id].
  destruct (present_int user_id); [|apply keeps_jsonify].
  apply keeps_bind; [|intros rows; apply keeps_jsonify].
  apply keeps_same. apply get_sessions_disk.
Qed.

Lemma consistent_empty : consistent empty_db.
Proof.
  split; [|split].
  - split; cbn; constructor.
  - split; cbn; constructor.
  - split; [|split]; cbn; [constructor|constructor|lia].
Qed.

(** X17: the store stays consistent.  The empty database [init_db]
    starts from is consistent: emails, usernames and (user, session) pairs
    are unique, no row carries an empty identifier, every message belongs
    to a recorded session, and rowids grow along the tables of users and of
    messages, above 0 and below their sequences.  Every endpoint keeps the
    store consistent, for every request body or query string, of the
    documented shape or not, and in every environment, whether it answers
    or raises; so does [init_db] when the server starts again. *)
Theorem X17_store_stays_consistent :
  consistent empty_db
  /\ forall (E : Env) (w : World),
       consistent (disk w) ->
       consistent (disk (snd (init_db E w)))
       /\ (forall body, consistent (disk (snd (serve (chat E body) w))))
       /\ (forall body, consistent (disk (snd (serve (register E body) w))))
       /\ (forall body, consistent (disk (snd (serve (login E body) w))))
       /\ (forall body, consistent (disk (snd (serve (rename_session E body) w))))
       /\ (forall body, consistent (disk (snd (serve (remove_session E body) w))))
       /\ (forall args, consistent (disk (snd (serve (get_history E args) w))))
       /\ (forall args, consistent (disk (snd (serve (sessions E args) w)))).
Proof.
  split; [exact consistent_empty|].
  intros E w Hw. split.
  { replace (disk (snd (init_db E w))) with (disk w); [exact Hw|].
    unfold init_db. unfold_store; each_call E; reflexivity. }
  split; [intros body; rewrite serve_disk; apply chat_keeps; exact Hw|].
  split; [intros body; rewrite serve_disk; apply register_keeps; exact Hw|].
  split; [intros body; rewrite serve_disk; apply login_keeps; exact Hw|].
  split; [intros body; rewrite serve_disk; apply rename_session_keeps; exact Hw|].
  split; [intros body; rewrite serve_disk; apply remove_session_keeps; exact Hw|].
  split; [intros args; rewrite serve_disk; apply get_history_keeps; exact Hw|].
  intros args. rewrite serve_disk. apply sessions_keeps. exact Hw.
Qed.

(** ** Connections of the two handlers that open their own *)

(** X18: [register] and [login] open a connection of their own and call
    [close] only on the way without exception.  With no storage failure:
    a registration that is refused because the username or the email is
    taken returns with the connection it opened still open, the INSERT
    having raised before [conn.close()]; a registration that succeeds, one
    that is refused for a blank field, and every login return with as many
    open connections as before. *)
Theorem X18_register_leaves_connection_open (E : Env) (w : World)
    (username email password : string) :
  no_faults E ->
  let u := Str.strip username in
  let e := Str.strip email in
  let p := Str.strip password in
  let registered := snd (register E (register_request username email password) w) in
  (u <> "" -> e <> "" -> p <> "" ->
   In u (map u_username (users (disk w))) \/ In e (map u_email (users (disk w))) ->
   open_connections registered = S (open_connections w))
  /\ (u = "" \/ e = "" \/ p = ""
      \/ (~ In u (map u_username (users (disk w))) /\ ~ In e (map u_email (users (disk w)))) ->
      open_connections registered = open_connections w)
  /\ open_connections (snd (login E (login_request email password) w)) = open_connections w.
Proof.
  intros HE u e p registered. subst registered.
  rewrite (register_run E w username email password HE),
          (login_run E w email password HE).
  fold u e p. split; [|split].
  - intros Hu He Hp Htaken.
    rewrite (proj2 (truthy_nonempty _) Hu), (proj2 (truthy_nonempty _) He),
            (proj2 (truthy_nonempty _) Hp). cbn [negb orb].
    rewrite (proj2 (taken_iff u e (disk w)) Htaken). reflexivity.
  - intros Hfree.
    destruct (Str.truthy u) eqn:Hu; [|reflexivity].
    destruct (Str.truthy e) eqn:He; [|reflexivity].
    destruct (Str.truthy p) eqn:Hp; [|reflexivity].
    cbn [negb orb].
    apply truthy_nonempty in Hu, He, Hp.
    destruct Hfree as [Hno|[Hno|[Hno|[Hnu Hne]]]]; try contradiction.
    destruct (taken u e (disk w)) eqn:Ht; [|reflexivity].
    apply taken_iff in Ht. tauto.
  - destruct (negb (Str.truthy e) || negb (Str.truthy p)); reflexivity.
Qed.

(** X18 at the sample store: the email of the first user is taken. *)
Lemma X18_register_leaves_connection_open_witness :
  let u := Str.strip "carol" in
  let e := Str.strip "a@x.com" in
  let p := Str.strip "pw3" in
  let registered :=
    snd (register Demo.env (register_request "carol" "a@x.com" "pw3") Demo.busy) in
  (u <> "" -> e <> "" -> p <> "" ->
   In u (map u_username (users (disk Demo.busy)))
   \/ In e (map u_email (users (disk Demo.busy))) ->
   open_connections registered = S (open_connections Demo.busy))
  /\ (u = "" \/ e = "" \/ p = ""
      \/ (~ In u (map u_username (users (disk Demo.busy)))
          /\ ~ In e (map u_email (users (disk Demo.busy)))) ->
      open_connections registered = open_connections Demo.busy)
  /\ open_connections (snd (login Demo.env (login_request "a@x.com" "pw3") Demo.busy))
     = open_connections Demo.busy.
Proof.
  exact (X18_register_leaves_connection_open Demo.env Demo.busy "carol" "a@x.com" "pw3"
           demo_no_faults).
Defined.

(** ** The chat endpoint in every environment *)

Lemma save_message_guarded (E : Env) (w : World) user_id session_id role message :
  present_int user_id = None \/ present_str session_id = None
  \/ present_str message = None ->
  save_message E user_id session_id role message w = (Ok tt, w).
Proof.
  intros H. unfold save_message. destruct H as [->|[->| ->]]; [reflexivity| |].
  - destruct (present_int user_id); reflexivity.
  - destruct (present_int user_id), (present_str session_id); reflexivity.
Qed.

Lemma save_message_present (E : Env) (w : World) user_id session_id role message
    (u : Z) (s m : string) :
  present_int user_id = Some u -> present_str session_id = Some s ->
  present_str message = Some m ->
  match save_message E user_id session_id role message w with
  | (Raise _, w') => disk w' = disk w
  | (Ok _, w') =>
      exists t1 t2, disk w' = add_session t2 u s None (add_chat t1 u s role m (disk w))
  end.
Proof.
  intros Hu Hs Hm. unfold save_message. rewrite Hu, Hs, Hm.
  unfold_store; each_call E; try reflexivity. do 2 eexists. reflexivity.
Qed.

Lemma add_session_rows (now u : Z) (s : string) (t : option string) (d : Database) :
  existsb (session_is u s) (chat_sessions (add_session now u s t d)) = true
  /\ exists rows,
       chat_sessions (add_session now u s t d) = (chat_sessions d ++ rows)%list
       /\ (List.length rows <= 1)%nat /\ Forall (fun cs => s_title cs = t) rows.
Proof.
  unfold add_session. destruct (existsb (session_is u s) (chat_sessions d)) eqn:Hex.
  - split; [exact Hex|]. exists []. rewrite app_nil_r. repeat split; auto.
  - cbn. split.
    + rewrite existsb_app. cbn. unfold session_is at 2. cbn.
      rewrite Z.eqb_refl, String.eqb_refl. apply orb_true_r.
    + eexists. split; [reflexivity|]. split; [cbn; lia|]. repeat constructor.
Qed.

Lemma after_chat_same (d d' : Database) : d' = d -> after_chat d d'.
Proof.
  intros ->. split; [reflexivity|].
  split; exists []; rewrite app_nil_r; repeat split; auto. left. reflexivity.
Qed.

(** The storing step of [chat], in every environment. *)
Lemma persist_exchange (E : Env) (w : World) (email sid q a : string) :
  q <> "" ->
  after_chat (disk w)
    (disk (snd ((if Str.truthy email
                 then
                   bind (get_user_id E email)
                     (fun user_id =>
                        match present_int user_id with
                        | Some _ =>
                            bind (save_message E user_id (Some sid) "user" (Some q))
                              (fun _ =>
                                 save_message E user_id (Some sid) "assistant" (Some a))
                        | None => ret tt
                        end)
                 else ret tt) w))).
Proof.
  intros Hq. destruct (Str.truthy email); [|apply after_chat_same; reflexivity].
  unfold bind at 1. pose proof (get_user_id_disk E email w) as Hg.
  destruct (get_user_id E email w) as [[user_id|e] w1]; cbn [snd] in Hg;
    [|apply after_chat_same; exact Hg].
  rewrite <- Hg. clear Hg.
  destruct (present_int user_id) as [u|] eqn:Hu; [|apply after_chat_same; reflexivity].
  unfold bind.
  destruct (present_str (Some sid)) as [s|] eqn:Hs.
  2:{ rewrite (save_message_guarded E w1 user_id (Some sid) "user" (Some q));
        [|right; left; exact Hs].
      rewrite (save_message_guarded E w1 user_id (Some sid) "assistant" (Some a));
        [|right; left; exact Hs].
      apply after_chat_same. reflexivity. }
  pose proof (save_message_present E w1 user_id (Some sid) "user" (Some q) u s q
                Hu Hs (present_str_nonempty q Hq)) as H1.
  destruct (save_message E user_id (Some sid) "user" (Some q) w1) as [[[]|e] w2];
    [|apply after_chat_same; exact H1].
  destruct H1 as (t1 & t2 & H1).
  set (c1 := mkChat (chats_seq (disk w1) + 1) u s "user" q t1).
  assert (Hchats1 : chats (disk w2) = (chats (disk w1) ++ [c1])%list
                    /\ chats_seq (disk w2) = (chats_seq (disk w1) + 1)%Z
                    /\ users (disk w2) = users (disk w1)).
  { rewrite H1. rewrite (proj1 (add_session_chats _ _ _ _ _)),
                        (proj2 (add_session_chats _ _ _ _ _)),
                        (proj1 (add_session_users _ _ _ _ _)).
    repeat split. }
  destruct Hchats1 as (Hc1 & Hseq1 & Hu1).
  destruct (add_session_rows t2 u s None (add_chat t1 u s "user" q (disk w1)))
    as (Hex & rows & Hrows & Hlen & Hnone).
  rewrite <- H1 in Hex, Hrows. cbn [chat_sessions add_chat] in Hrows.
  assert (Hone : after_chat (disk w1) (disk w2)).
  { split; [exact Hu1|]. split.
    - exists [c1]. split; [exact Hc1|]. right. left. exists c1. repeat split. exact Hq.
    - exists rows. repeat split; assumption. }
  destruct (present_str (Some a)) as [m|] eqn:Ha.
  2:{ rewrite (save_message_guarded E w2 user_id (Some sid) "assistant" (Some a));
        [exact Hone|right; right; exact Ha]. }
  pose proof (save_message_present E w2 user_id (Some sid) "assistant" (Some a) u s m
                Hu Hs Ha) as H2.
  destruct (save_message E user_id (Some sid) "assistant" (Some a) w2) as [[[]|e] w3];
    cbn [snd]; [|rewrite H2; exact Hone].
  destruct H2 as (t3 & t4 & H2).
  apply present_str_some in Ha as [_ Hm].
  split; [|split].
  - rewrite H2, (proj1 (add_session_users _ _ _ _ _)). exact Hu1.
  - exists [c1; mkChat (chats_seq (disk w2) + 1) u s "assistant" m t3]. split.
    + rewrite H2, (proj1 (add_session_chats _ _ _ _ _)). cbn [chats add_chat].
      rewrite Hc1, <- app_assoc. reflexivity.
    + right. right. do 2 eexists. split; [reflexivity|]. cbn.
      repeat split; auto. lia.
  - exists rows. split; [|split; assumption].
    rewrite H2. unfold add_session at 1. cbn [chat_sessions add_chat].
    rewrite Hex. cbn [chat_sessions add_chat]. exact Hrows.
Qed.

(** X19: the chat endpoint never stores an answer without its question.
    For every request body and in every environment, whether storage or
    the provider fail or not, a call of [chat] leaves the users untouched
    and adds to the messages nothing, or one question, or one question
    followed by its answer, both not empty, of the same user and session;
    the session rows that were there stay as they are, followed by at most
    one new row without title.  (A question can stay without its answer:
    the two messages are stored in two transactions.) *)
Theorem X19_chat_stores_question_before_answer (E : Env) (w : World)
    (body : option json) :
  after_chat (disk w) (disk (snd (serve (chat E body) w))).
Proof.
  rewrite serve_disk. unfold chat. cbv zeta.
  unfold bind at 1. unfold lift at 1.
  destruct (stripped (get_json_silent body) "message") as [question|e];
    [|apply after_chat_same; reflexivity].
  unfold bind at 1. unfold lift at 1.
  destruct (dict_get (get_json_silent body) "history" (JArr [])) as [history|e];
    [|apply after_chat_same; reflexivity].
  unfold bind at 1. unfold lift at 1.
  destruct (stripped (get_json_silent body) "email") as [user_email|e];
    [|apply after_chat_same; reflexivity].
  unfold bind at 1. unfold lift at 1.
  destruct (stripped (get_json_silent body) "session_id") as [session_id|e];
    [|apply after_chat_same; reflexivity].
  destruct (Str.truthy question) eqn:Hq; cbn [negb];
    [|apply after_chat_same; reflexivity].
  apply truthy_nonempty in Hq.
  unfold bind at 1.
  assert (Hstart : exists sid w1,
            (if negb (Str.truthy session_id) then new_uuid E else ret session_id) w
            = (Ok sid, w1) /\ disk w1 = disk w).
  { destruct (negb (Str.truthy session_id)); do 2 eexists; split; reflexivity. }
  destruct Hstart as (sid & w1 & -> & Hw1). rewrite <- Hw1. clear Hw1.
  unfold bind at 1. unfold lift at 1.
  destruct (iterate history) as [items|e]; [|apply after_chat_same; reflexivity].
  unfold bind at 1. unfold lift at 1.
  destruct (history_messages items) as [turns|e]; [|apply after_chat_same; reflexivity].
  unfold try_except. unfold bind at 1. unfold lift at 1.
  destruct (completion E _) as [content|e]; [|apply after_chat_same; reflexivity].
  unfold bind at 1.
  pose proof (persist_exchange E w1 user_email sid question (Str.strip content) Hq) as HP.
  match goal with
  | |- context [match ?p w1 with _ => _ end] => destruct (p w1) as [[[]|e] w2]
  end; exact HP.
Qed.

(** The middle case happens: when the connection of the second
    [save_message] fails, the question stays without its answer and the
    reply carries the error. *)
Example chat_question_without_answer :
  let locked :=
    mkEnv (clock Demo.env)
      (fun n => if Nat.eqb n 6 then Some (Exn OperationalError "database is locked")
                else None)
      (uuid4 Demo.env) (completion Demo.env) None in
  let out :=
    serve (chat locked (chat_request (Some "Hello") None (Some "a@x.com") (Some "s9")))
      Demo.busy in
  transcript (disk (snd out)) 1 "s9" = [("user", "Hello")]
  /\ response_field (fst out) "answer"
     = Some (JStr "Error during processing: database is locked").
Proof. vm_compute. auto. Qed.

(** ** The guards of the store functions *)

(** A call whose arguments pass the guard makes a storage call; any other
    returns at once. *)
Lemma get_user_id_touch (E : Env) (w : World) (email : string) :
  if Str.truthy email
  then (calls w < calls (snd (get_user_id E email w)))%nat
  else get_user_id E email w = (Ok None, w).
Proof.
  unfold get_user_id. destruct (Str.truthy email); cbn [negb]; [|reflexivity].
  unfold_store; each_call E; cbn; lia.
Qed.

Lemma save_message_touch (E : Env) (w : World) user_id session_id role message :
  match present_int user_id, present_str session_id, present_str message with
  | Some _, Some _, Some _ =>
      (calls w < calls (snd (save_message E user_id session_id role message w)))%nat
  | _, _, _ => save_message E user_id session_id role message w = (Ok tt, w)
  end.
Proof.
  unfold save_message.
  destruct (present_int user_id), (present_str session_id), (present_str message);
    try reflexivity.
  unfold_store; each_call E; cbn; lia.
Qed.

Lemma get_chat_history_touch (E : Env) (w : World) user_id session_id :
  match present_int user_id, present_str session_id with
  | Some _, Some _ =>
      (calls w < calls (snd (get_chat_history E user_id session_id w)))%nat
  | _, _ => get_chat_history E user_id session_id w = (Ok [], w)
  end.
Proof.
  unfold get_chat_history.
  destruct (present_int user_id), (present_str session_id); try reflexivity.
  unfold_store; each_call E; cbn; lia.
Qed.

Lemma get_sessions_touch (E : Env) (w : World) user_id :
  match present_int user_id with
  | Some _ => (calls w < calls (snd (get_sessions E user_id w)))%nat
  | None => get_sessions E user_id w = (Ok [], w)
  end.
Proof.
  unfold get_sessions. destruct (present_int user_id); try reflexivity.
  unfold_store; each_call E; cbn; lia.
Qed.

Lemma upsert_session_title_touch (E : Env) (w : World) user_id session_id title :
  match present_int user_id, present_str session_id with
  | Some _, Some _ =>
      (calls w < calls (snd (upsert_session_title E user_id session_id title w)))%nat
  | _, _ => upsert_session_title E user_id session_id title w = (Ok false, w)
  end.
Proof.
  unfold upsert_session_title.
  destruct (present_int user_id), (present_str session_id); try reflexivity.
  unfold_store; each_call E; cbn; lia.
Qed.

Lemma delete_session_touch (E : Env) (w : World) user_id session_id :
  match present_int user_id, present_str session_id with
  | Some _, Some _ =>
      (calls w < calls (snd (delete_session E user_id session_id w)))%nat
  | _, _ => delete_session E user_id session_id w = (Ok 0%nat, w)
  end.
Proof.
  unfold delete_session.
  destruct (present_int user_id), (present_str session_id); try reflexivity.
  unfold_store; each_call E; cbn; lia.
Qed.

(** A result that leaves the world as it was has made no storage call. *)
Lemma untouched {A : Type} (m : M A) (a : result A) (w : World) :
  m w = (a, w) -> ~ (calls w < calls (snd (m w)))%nat.
Proof. intros ->. cbn. lia. Qed.

(** X1: the guards of the store functions, value by value.  In every
    environment a store function returns its default ([None], nothing,
    [[]], [False], 0) with the world as it was, no connection opened and
    no storage call made, exactly when an argument it guards is missing:
    the email is the empty string, the user id is [None] or 0, the session
    id is [None] or the empty string or, for [save_message], the message is
    [None] or the empty string.  With any other arguments the call reaches
    the storage: at least one storage call is made, whatever its outcome. *)
Theorem X1_guards_touch_nothing (E : Env) (w : World) :
  (forall email,
     (get_user_id E email w = (Ok None, w) <-> email = "")
     /\ (email <> "" -> (calls w < calls (snd (get_user_id E email w)))%nat))
  /\ (forall user_id session_id role message,
        (save_message E user_id session_id role message w = (Ok tt, w)
         <-> user_id = None \/ user_id = Some 0%Z
             \/ session_id = None \/ session_id = Some ""
             \/ message = None \/ message = Some "")
        /\ (forall u s m, user_id = Some u -> u <> 0%Z -> session_id = Some s -> s <> "" ->
              message = Some m -> m <> "" ->
              (calls w < calls (snd (save_message E user_id session_id role message w)))%nat))
  /\ (forall user_id session_id,
        (get_chat_history E user_id session_id w = (Ok [], w)
         <-> user_id = None \/ user_id = Some 0%Z
             \/ session_id = None \/ session_id = Some "")
        /\ (forall u s, user_id = Some u -> u <> 0%Z -> session_id = Some s -> s <> "" ->
              (calls w < calls (snd (get_chat_history E user_id session_id w)))%nat))
  /\ (forall user_id,
        (get_sessions E user_id w = (Ok [], w) <-> user_id = None \/ user_id = Some 0%Z)
        /\ (forall u, user_id = Some u -> u <> 0%Z ->
              (calls w < calls (snd (get_sessions E user_id w)))%nat))
  /\ (forall user_id session_id title,
        (upsert_session_title E user_id session_id title w = (Ok false, w)
         <-> user_id = None \/ user_id = Some 0%Z
             \/ session_id = None \/ session_id = Some "")
        /\ (forall u s, user_id = Some u -> u <> 0%Z -> session_id = Some s -> s <> "" ->
              (calls w < calls (snd (upsert_session_title E user_id session_id title w)))%nat))
  /\ (forall user_id session_id,
        (delete_session E user_id session_id w = (Ok 0%nat, w)
         <-> user_id = None \/ user_id = Some 0%Z
             \/ session_id = None \/ session_id = Some "")
        /\ (forall u s, user_id = Some u -> u <> 0%Z -> session_id = Some s -> s <> "" ->
              (calls w < calls (snd (delete_session E user_id session_id w)))%nat)).
Proof.
  split.
  { intros email. pose proof (get_user_id_touch E w email) as H.
    destruct (Str.truthy email) eqn:Ht.
    - apply truthy_nonempty in Ht. split; [|intros _; exact H].
      split; [intros Heq; exfalso; exact (untouched _ _ _ Heq H)|contradiction].
    - apply truthy_empty in Ht. split; [split; auto|contradiction]. }
  split.
  { intros user_id session_id role message.
    pose proof (save_message_touch E w user_id session_id role message) as H.
    pose proof (present_int_none user_id) as Hu.
    pose proof (present_str_none session_id) as Hs.
    pose proof (present_str_none message) as Hm.
    split.
    - destruct (present_int user_id), (present_str session_id), (present_str message);
        try (split; [intros _|intros _; exact H]; tauto).
      split; [intros Heq; exfalso; exact (untouched _ _ _ Heq H)|].
      intros G. destruct Hu as [_ Hu], Hs as [_ Hs], Hm as [_ Hm].
      destruct G as [G|[G|[G|[G|[G|G]]]]];
        [specialize (Hu (or_introl G))|specialize (Hu (or_intror G))
        |specialize (Hs (or_introl G))|specialize (Hs (or_intror G))
        |specialize (Hm (or_introl G))|specialize (Hm (or_intror G))]; discriminate.
    - intros u s m -> Hu0 -> Hs0 -> Hm0.
      rewrite (present_int_nonzero u Hu0), (present_str_nonempty s Hs0),
              (present_str_nonempty m Hm0) in H. exact H. }
  split.
  { intros user_id session_id.
    pose proof (get_chat_history_touch E w user_id session_id) as H.
    pose proof (present_int_none user_id) as Hu.
    pose proof (present_str_none session_id) as Hs.
    split.
    - destruct (present_int user_id), (present_str session_id);
        try (split; [intros _|intros _; exact H]; tauto).
      split; [intros Heq; exfalso; exact (untouched _ _ _ Heq H)|].
      intros G. destruct Hu as [_ Hu], Hs as [_ Hs].
      destruct G as [G|[G|[G|G]]];
        [specialize (Hu (or_introl G))|specialize (Hu (or_intror G))
        |specialize (Hs (or_introl G))|specialize (Hs (or_intror G))]; discriminate.
    - intros u s -> Hu0 -> Hs0.
      rewrite (present_int_nonzero u Hu0), (present_str_nonempty s Hs0) in H. exact H. }
  split.
  { intros user_id.
    pose proof (get_sessions_touch E w user_id) as H.
    pose proof (present_int_none user_id) as Hu.
    split.
    - destruct (present_int user_id);
        try (split; [intros _|intros _; exact H]; tauto).
      split; [intros Heq; exfalso; exact (untouched _ _ _ Heq H)|].
      intros G. destruct Hu as [_ Hu]. specialize (Hu G). discriminate.
    - intros u -> Hu0. rewrite (present_int_nonzero u Hu0) in H. exact H. }
  split.
  { intros user_id session_id title.
    pose proof (upsert_session_title_touch E w user_id session_id title) as H.
    pose proof (present_int_none user_id) as Hu.
    pose proof (present_str_none session_id) as Hs.
    split.
    - destruct (present_int user_id), (present_str session_id);
        try (split; [intros _|intros _; exact H]; tauto).
      split; [intros Heq; exfalso; exact (untouched _ _ _ Heq H)|].
      intros G. destruct Hu as [_ Hu], Hs as [_ Hs].
      destruct G as [G|[G|[G|G]]];
        [specialize (Hu (or_introl G))|specialize (Hu (or_intror G))
        |specialize (Hs (or_introl G))|specialize (Hs (or_intror G))]; discriminate.
    - intros u s -> Hu0 -> Hs0.
      rewrite (present_int_nonzero u Hu0), (present_str_nonempty s Hs0) in H. exact H. }
  intros user_id session_id.
  pose proof (delete_session_touch E w user_id session_id) as H.
  pose proof (present_int_none user_id) as Hu.
  pose proof (present_str_none session_id) as Hs.
  split.
  - destruct (present_int user_id), (present_str session_id);
      try (split; [intros _|intros _; exact H]; tauto).
    split; [intros Heq; exfalso; exact (untouched _ _ _ Heq H)|].
    intros G. destruct Hu as [_ Hu], Hs as [_ Hs].
    destruct G as [G|[G|[G|G]]];
      [specialize (Hu (or_introl G))|specialize (Hu (or_intror G))
      |specialize (Hs (or_introl G))|specialize (Hs (or_intror G))]; discriminate.
  - intros u s -> Hu0 -> Hs0.
    rewrite (present_int_nonzero u Hu0), (present_str_nonempty s Hs0) in H. exact H.
Qed.
